(** * weblog: the static-site build pipeline and its preview server

  A shallow embedding of [scripts/build.js] and [scripts/serve.js]
  (both held in [src/scripts/serve.js]) together with the properties
  of the build pipeline stated in the specification.

  JavaScript strings are modelled as [string], read as sequences of
  code units below 256.  Host facilities that are not part of the
  repository (the Markdown converter, the YAML loader, [Date.parse],
  [Date.prototype.toString]) are collected in the record [Host] and
  passed explicitly.  Paths are those of a POSIX host.  The build runs
  in a state monad over a file system and a console; an exception ends
  the run. *)

From Stdlib Require Import ZArith Lia Ascii String.
From stdpp Require Import base option list strings gmap fin_maps sorting.

Local Open Scope Z_scope.

(** ** JavaScript strings *)

Module JsString.

(** [WhiteSpace] and [LineTerminator] code units below 256: what [\s]
    matches and what [trim] removes. *)
Definition is_white (c : ascii) : bool :=
  match nat_of_ascii c with
  | 9%nat | 10%nat | 11%nat | 12%nat | 13%nat | 32%nat | 160%nat => true
  | _ => false
  end.

Fixpoint skip_white (s : string) : string :=
  match s with
  | String c s' => if is_white c then skip_white s' else s
  | EmptyString => EmptyString
  end.

(** [s.trim()] *)
Definition trim (s : string) : string :=
  String.rev (skip_white (String.rev (skip_white s))).

(** [s.startsWith(p)] *)
Definition startsWith (s p : string) : bool := String.prefix p s.

(** [s.endsWith(p)] *)
Definition endsWith (s p : string) : bool :=
  String.prefix (String.rev p) (String.rev s).

Fixpoint drop (n : nat) (s : string) : string :=
  match n, s with
  | S k, String _ s' => drop k s'
  | _, _ => s
  end.

Fixpoint take (n : nat) (s : string) : string :=
  match n, s with
  | S k, String c s' => String c (take k s')
  | _, _ => EmptyString
  end.

(** [s.slice(-n)]: the last [n] code units, the whole of a shorter [s]. *)
Definition slice_last (n : nat) (s : string) : string :=
  drop (String.length s - n) s.

(** [l.join(sep)] *)
Fixpoint join (sep : string) (l : list string) : string :=
  match l with
  | [] => EmptyString
  | [x] => x
  | x :: l' => x +:+ sep +:+ join sep l'
  end.

(** [s.indexOf(p)], as the text before and after the first occurrence. *)
Fixpoint cut (p s : string) : option (string * string) :=
  if String.prefix p s then Some (EmptyString, drop (String.length p) s)
  else match s with
       | EmptyString => None
       | String c s' =>
           match cut p s' with
           | Some (b, a) => Some (String c b, a)
           | None => None
           end
       end.

Definition lower (c : ascii) : ascii :=
  let n := nat_of_ascii c in
  if (Nat.leb 65 n && Nat.leb n 90)%bool then ascii_of_nat (n + 32) else c.

(** [s.toLowerCase()] on code units below 128 *)
Fixpoint toLowerCase (s : string) : string :=
  match s with
  | EmptyString => EmptyString
  | String c s' => String (lower c) (toLowerCase s')
  end.

(** *** [String.prototype.replace]

    A pattern is given by its matcher: applied to the text that starts
    at the current position it returns the length of the match found
    there.  No pattern of this program matches the empty string, and a
    matcher answering [Some 0] is read as no match. *)
Definition matcher := string -> option nat.

(** The second argument of [replace]: a replacement text, in which
    the dollar patterns are expanded, or a function of the match. *)
Inductive replacement :=
  | ByString (t : string)
  | ByFunction (f : string -> string).

(** [GetSubstitution] for a pattern without capture groups: [$$], [$&],
    [$`] and [$'] are expanded, every other code unit is copied. *)
Fixpoint expand_dollar (matched before after t : string) : string :=
  match t with
  | EmptyString => EmptyString
  | String c t' =>
      if Ascii.eqb c "$" then
        match t' with
        | String d t'' =>
            if Ascii.eqb d "$" then String "$" (expand_dollar matched before after t'')
            else if Ascii.eqb d "&" then matched +:+ expand_dollar matched before after t''
            else if Ascii.eqb d "`" then before +:+ expand_dollar matched before after t''
            else if Ascii.eqb d "'" then after +:+ expand_dollar matched before after t''
            else String c (expand_dollar matched before after t')
        | EmptyString => String c EmptyString
        end
      else String c (expand_dollar matched before after t')
  end.

Definition substitution (r : replacement) (matched before after : string) : string :=
  match r with
  | ByString t => expand_dollar matched before after t
  | ByFunction f => f matched
  end.

(** Replacement with the [g] flag: the text is scanned from the left;
    at a match the substitution is emitted and the scan resumes behind
    the match ([skip] counts the code units of the match still to be
    passed over), elsewhere the code unit is copied. *)
Fixpoint replace_go (m : matcher) (r : replacement)
    (skip : nat) (before_rev : string) (s : string) : string :=
  match s with
  | EmptyString => EmptyString
  | String c s' =>
      match skip with
      | S k => replace_go m r k (String c before_rev) s'
      | O =>
          match m s with
          | Some (S n) =>
              substitution r (take (S n) s) (String.rev before_rev) (drop (S n) s)
                +:+ replace_go m r n (String c before_rev) s'
          | _ => String c (replace_go m r O (String c before_rev) s')
          end
      end
  end.

Definition replace_all (m : matcher) (r : replacement) (s : string) : string :=
  replace_go m r O EmptyString s.

(** Replacement without the [g] flag: only the first match. *)
Fixpoint replace_first_go (m : matcher) (r : replacement)
    (before_rev : string) (s : string) : string :=
  match s with
  | EmptyString => EmptyString
  | String c s' =>
      match m s with
      | Some (S n) =>
          substitution r (take (S n) s) (String.rev before_rev) (drop (S n) s)
            +:+ drop (S n) s
      | _ => String c (replace_first_go m r (String c before_rev) s')
      end
  end.

Definition replace_first (m : matcher) (r : replacement) (s : string) : string :=
  replace_first_go m r EmptyString s.

(** Does the pattern match anywhere in the text? *)
Fixpoint occurs (m : matcher) (s : string) : bool :=
  match s with
  | EmptyString => false
  | String _ s' =>
      match m s with
      | Some (S _) => true
      | _ => occurs m s'
      end
  end.

(** The stretches of text between the matches of a global scan. *)
Fixpoint pieces_go (m : matcher) (skip : nat) (s : string) : string * list string :=
  match s with
  | EmptyString => (EmptyString, [])
  | String c s' =>
      match skip with
      | S k => pieces_go m k s'
      | O =>
          match m s with
          | Some (S n) => let '(p, ps) := pieces_go m n s' in (EmptyString, p :: ps)
          | _ => let '(p, ps) := pieces_go m O s' in (String c p, ps)
          end
      end
  end.



(** Remaining text after a literal prefix. *)
Definition after_prefix (p s : string) : option string :=
  if String.prefix p s then Some (drop (String.length p) s) else None.

(** Non-negative decimal numerals, least significant digit last. *)
Definition digit (d : Z) : ascii := ascii_of_nat (48 + Z.to_nat d).

Fixpoint decimal_go (fuel : nat) (n : Z) : string :=
  match fuel with
  | O => EmptyString
  | S f =>
      (if n <? 10 then EmptyString else decimal_go f (n / 10))
        +:+ String (digit (n mod 10)) EmptyString
  end.

(** [String(n)] for an integer [n] of magnitude below 10^21. *)
Definition of_Z (n : Z) : string :=
  if n <? 0 then String "-" (decimal_go 22 (- n)) else decimal_go 22 n.

End JsString.

(** The double quote and the line feed, as one-unit strings. *)
Definition dquote : string := String "034" EmptyString.
Definition newline : string := String "010" EmptyString.

(** ** The template engine *)

(** Code units that stand for themselves in a regular expression and are
  not white space: the keys the program passes to [renderTemplate]
  ([title], [head_extra], ...) are made of these. *)
Definition word_char (c : ascii) : bool :=
  let n := nat_of_ascii c in
  ((Nat.leb 48 n && Nat.leb n 57) || (Nat.leb 65 n && Nat.leb n 90)
   || (Nat.leb 97 n && Nat.leb n 122) || Nat.eqb n 95)%bool.

Fixpoint word_key (k : string) : bool :=
  match k with
  | EmptyString => true
  | String c k' => word_char c && word_key k'
  end.

(** The pattern [new RegExp(`\\{\\{\\s*${key}\\s*\\}\\}`, 'g')].  The key
  is spliced into the expression as it is, so the matcher below is the
  expression's meaning for keys made of [word_char]s, where every
  code unit of the key matches itself and [\s*] never has to give
  white space back. *)
Definition placeholder (key : string) : JsString.matcher :=
  fun s =>
    match JsString.after_prefix "{{" s with
    | Some s1 =>
        match JsString.after_prefix key (JsString.skip_white s1) with
        | Some s2 =>
            match JsString.after_prefix "}}" (JsString.skip_white s2) with
            | Some s3 => Some (String.length s - String.length s3)%nat
            | None => None
            end
        | None => None
        end
    | None => None
    end.

(** [renderTemplate(template, values)]; [values] lists the entries of the
  object in the order of [Object.entries], each value already converted
  to the string that [replace] makes of the function's result. *)
Definition renderTemplate (template : string) (values : list (string * string)) : string :=
  fold_left
    (fun result kv =>
       JsString.replace_all (placeholder (fst kv))
         (JsString.ByFunction (fun _ => snd kv)) result)
    values template.

(** ** The code-block renderer *)


(** ** JavaScript values *)

(** The values a frontmatter field or a document field can hold: the
  scalars YAML yields.  Numbers are the integers (in the range where
  [String(n)] is the plain decimal numeral) and [NaN]; a [Date] object
  carries its time value in milliseconds, [None] for an invalid date. *)
Inductive jsval :=
  | JUndefined
  | JNull
  | JBool (b : bool)
  | JNum (n : Z)
  | JNaN
  | JStr (s : string)
  | JDate (t : option Z).

(** What the program takes from its host and its packages. *)
Record Host := {
  (* [Date.parse], [None] for [NaN] *)
  Date_parse : string -> option Z;
  (* [Date.prototype.toString], which depends on the local time zone *)
  Date_toString : option Z -> string;
  (* [marked.parse] with the footnote extension and [renderer] installed *)
  marked_parse : string -> string;
  (* the YAML engine behind [matter]; [None] when it throws *)
  yaml_load : string -> option (gmap string jsval)
}.

Module JsValue.

(** [ToBoolean] *)
Definition truthy (v : jsval) : bool :=
  match v with
  | JUndefined | JNull | JNaN => false
  | JBool b => b
  | JNum n => negb (n =? 0)
  | JStr s => negb (String.eqb s EmptyString)
  | JDate _ => true
  end.

(** [a || b] *)
Definition or (a b : jsval) : jsval := if truthy a then a else b.

(** [v === true] *)
Definition is_true (v : jsval) : bool :=
  match v with
  | JBool true => true
  | _ => false
  end.

(** [String(v)] *)
Definition ToString (h : Host) (v : jsval) : string :=
  match v with
  | JUndefined => "undefined"
  | JNull => "null"
  | JBool true => "true"
  | JBool false => "false"
  | JNum n => JsString.of_Z n
  | JNaN => "NaN"
  | JStr s => s
  | JDate t => Date_toString h t
  end.

(** [TimeClip] *)
Definition TimeClip (t : Z) : option Z :=
  if Z.abs t <=? 8640000000000000 then Some t else None.

(** The time value of [new Date(v)]. *)
Definition new_Date (h : Host) (v : jsval) : option Z :=
  match v with
  | JDate t => t
  | JStr s => Date_parse h s
  | JUndefined | JNaN => None
  | JNull => TimeClip 0
  | JBool b => TimeClip (if b then 1 else 0)
  | JNum n => TimeClip n
  end.

(** [a - b] on two time values *)
Definition minus (a b : option Z) : option Z :=
  match a, b with
  | Some x, Some y => Some (x - y)
  | _, _ => None
  end.

End JsValue.

(** ** Dates in UTC *)

Module DateUTC.

Definition msPerDay : Z := 86400000.

(** [Day(t)], the number of the day that holds [t], day 0 being
    1 January 1970 *)
Definition Day (t : Z) : Z := t / msPerDay.

(** [getUTCDay()]: 0 is Sunday; day 0 was a Thursday. *)
Definition getUTCDay (t : Z) : Z := (Day t + 4) mod 7.

(** The proleptic Gregorian date of a day number: year, month 1..12,
    day of the month.  Years are counted from 1 March within eras of
    400 years (146097 days). *)
Definition civil_from_days (z : Z) : Z * Z * Z :=
  let z := z + 719468 in
  let era := z / 146097 in
  let doe := z mod 146097 in
  let yoe := (doe - doe / 1460 + doe / 36524 - doe / 146096) / 365 in
  let doy := doe - (365 * yoe + yoe / 4 - yoe / 100) in
  let mp := (5 * doy + 2) / 153 in
  let d := doy - (153 * mp + 2) / 5 + 1 in
  let m := if mp <? 10 then mp + 3 else mp - 9 in
  let y := yoe + era * 400 in
  (if m <=? 2 then y + 1 else y, m, d).

Definition getUTCFullYear (t : Z) : Z := fst (fst (civil_from_days (Day t))).
(** [getUTCMonth()]: 0 is January *)
Definition getUTCMonth (t : Z) : Z := snd (fst (civil_from_days (Day t))) - 1.
Definition getUTCDate (t : Z) : Z := snd (civil_from_days (Day t)).

(** The day number of a date, the inverse of [civil_from_days]. *)
Definition days_from_civil (y m d : Z) : Z :=
  let y := if m <=? 2 then y - 1 else y in
  let era := y / 400 in
  let yoe := y mod 400 in
  let doy := (153 * (if m >? 2 then m - 3 else m + 9) + 2) / 5 + d - 1 in
  let doe := yoe * 365 + yoe / 4 - yoe / 100 + doy in
  era * 146097 + doe - 719468.

Definition digit_value (c : ascii) : option Z :=
  let n := nat_of_ascii c in
  if (Nat.leb 48 n && Nat.leb n 57)%bool then Some (Z.of_nat n - 48) else None.

Fixpoint number_go (acc : Z) (s : string) : option Z :=
  match s with
  | EmptyString => Some acc
  | String c s' =>
      match digit_value c with
      | Some d => number_go (10 * acc + d) s'
      | None => None
      end
  end.

Definition number (s : string) : option Z :=
  match s with
  | EmptyString => None
  | _ => number_go 0 s
  end.

(** A [Date.parse] that reads the date-only form [YYYY-MM-DD] of the
    ECMAScript date-time format as midnight UTC of an existing calendar
    day, and nothing else.  It stands in for the host in examples. *)
Definition parse_date_only (s : string) : option Z :=
  if (Nat.eqb (String.length s) 10
      && String.eqb (JsString.take 1 (JsString.drop 4 s)) "-"
      && String.eqb (JsString.take 1 (JsString.drop 7 s)) "-")%bool then
    match number (JsString.take 4 s),
          number (JsString.take 2 (JsString.drop 5 s)),
          number (JsString.drop 8 s) with
    | Some y, Some m, Some d =>
        let z := days_from_civil y m d in
        if (1 <=? m) && (m <=? 12) && (1 <=? d)
           && (fst (fst (civil_from_days z)) =? y)
           && (snd (fst (civil_from_days z)) =? m)
           && (snd (civil_from_days z) =? d)
        then Some (z * msPerDay) else None
    | _, _, _ => None
    end
  else None.

End DateUTC.

(** ** POSIX paths: Node's [path] module *)

Module Path.

Definition slash : ascii := "/"%char.

(** The segments between the separators; never the empty list. *)
Fixpoint segments (p : string) : list string :=
  match p with
  | EmptyString => [EmptyString]
  | String c p' =>
      if Ascii.eqb c slash then EmptyString :: segments p'
      else match segments p' with
           | x :: l => String c x :: l
           | [] => [String c EmptyString]
           end
  end.

(** [normalizeString]: empty and [.] segments vanish, [..] removes the
    segment before it; above the start of a relative path it stays,
    above the root it is dropped.  [stack] holds the result so far,
    last segment first. *)
Fixpoint resolve (allowAboveRoot : bool) (stack : list string)
    (segs : list string) : list string :=
  match segs with
  | [] => rev stack
  | seg :: rest =>
      if (String.eqb seg EmptyString || String.eqb seg ".")%bool then
        resolve allowAboveRoot stack rest
      else if String.eqb seg ".." then
        match stack with
        | top :: stack' =>
            if String.eqb top ".." then
              resolve allowAboveRoot (if allowAboveRoot then seg :: stack else stack) rest
            else resolve allowAboveRoot stack' rest
        | [] => resolve allowAboveRoot (if allowAboveRoot then [seg] else []) rest
        end
      else resolve allowAboveRoot (seg :: stack) rest
  end.

Definition isAbsolute (p : string) : bool := JsString.startsWith p "/".

(** [path.normalize(p)] *)
Definition normalize (p : string) : string :=
  if String.eqb p EmptyString then "."
  else
    let trailingSeparator := JsString.endsWith p "/" in
    let r := JsString.join "/" (resolve (negb (isAbsolute p)) [] (segments p)) in
    if String.eqb r EmptyString then
      if isAbsolute p then "/" else if trailingSeparator then "./" else "."
    else
      let r := if trailingSeparator then r +:+ "/" else r in
      if isAbsolute p then "/" +:+ r else r.

(** [path.join(...args)] *)
Definition join (args : list string) : string :=
  match filter (fun a => a <> EmptyString) args with
  | [] => "."
  | parts => normalize (JsString.join "/" parts)
  end.

(** The last segment of a path, trailing separators set aside. *)
Definition last_segment (p : string) : string :=
  match filter (fun s => s <> EmptyString) (rev (segments p)) with
  | s :: _ => s
  | [] => EmptyString
  end.

(** [path.basename(p, ext)]: the last segment, without [ext] when it
    ends with [ext] and is longer than it. *)
Definition basename (p ext : string) : string :=
  let b := last_segment p in
  if String.eqb p ext then EmptyString
  else if (JsString.endsWith b ext && Nat.ltb (String.length ext) (String.length b))%bool
  then JsString.take (String.length b - String.length ext) b
  else b.

(** The text from the last dot of [b] on, when that dot is not the
    first code unit of [b]. *)
Fixpoint from_last_dot (b : string) : option string :=
  match b with
  | EmptyString => None
  | String c b' =>
      match from_last_dot b' with
      | Some e => Some e
      | None => if Ascii.eqb c "." then Some b else None
      end
  end.

(** [path.extname(p)] *)
Definition extname (p : string) : string :=
  match last_segment p with
  | String c b' =>
      if String.eqb (String c b') ".." then EmptyString
      else match from_last_dot b' with
           | Some e => e
           | None => EmptyString
           end
  | EmptyString => EmptyString
  end.

(** [path.dirname(p)] for an absolute path without a trailing separator *)
Definition dirname (p : string) : string :=
  match rev (segments p) with
  | _ :: (_ :: _ :: _) as up => JsString.join "/" (rev up)
  | _ => "/"
  end.

Fixpoint has_slash (s : string) : bool :=
  match s with
  | EmptyString => false
  | String c s' => (Ascii.eqb c slash || has_slash s')%bool
  end.

(** A segment that names an entry of a directory. *)
Definition ordinary (s : string) : bool :=
  (negb (String.eqb s EmptyString) && negb (String.eqb s ".")
   && negb (String.eqb s "..") && negb (has_slash s))%bool.

(** The absolute path with the given segments. *)
Definition abs (segs : list string) : string := "/" +:+ JsString.join "/" segs.

End Path.

(** ** The file system and the build's effects *)

(** An entry of the file system.  The file system maps the normalised
  absolute path of every entry to it; the root directory [/] always
  exists and has no entry of its own. *)
Inductive node :=
  | File (content : string)
  | Dir.

(** What [writeFile] and [copyFile] report on the console, with the
  paths as they were passed (the console shows them relative to the
  project root).  The banners and progress lines of [buildSite] are
  left out. *)
Inductive action :=
  | Wrote (filePath content : string)
  | Copied (src dest : string).

(** The path an action writes to. *)
Definition target (a : action) : string :=
  match a with
  | Wrote p _ => p
  | Copied _ d => d
  end.

Record state := {
  files : gmap string node;
  console : list action
}.

(** A step of the build: it reads and changes the state, or throws
  ([None]), which ends the run. *)
Definition M (A : Type) : Type := state -> option (A * state).

Definition ret {A} (a : A) : M A := fun st => Some (a, st).

Definition bind {A B} (m : M A) (f : A -> M B) : M B :=
  fun st =>
    match m st with
    | Some (a, st') => f a st'
    | None => None
    end.

Definition lift {A} (o : option A) : M A :=
  fun st => match o with Some a => Some (a, st) | None => None end.

Notation "'let*' x ':=' m 'in' k" := (bind m (fun x => k))
  (at level 10, x pattern, m at level 100, k at level 200).
Notation "m1 ';;' m2" := (bind m1 (fun _ => m2))
  (at level 100, m2 at level 200, right associativity).

(** [l.map(f)] and [l.forEach(f)] for an effectful [f] *)
Fixpoint mapM {A B} (f : A -> M B) (l : list A) : M (list B) :=
  match l with
  | [] => ret []
  | x :: l' => let* y := f x in let* ys := mapM f l' in ret (y :: ys)
  end.

Fixpoint forEach {A} (f : A -> M unit) (l : list A) : M unit :=
  match l with
  | [] => ret tt
  | x :: l' => f x ;; forEach f l'
  end.

Module Fs.

Definition is_dir (fs : gmap string node) (p : string) : bool :=
  if String.eqb p "/" then true
  else match fs !! p with Some Dir => true | _ => false end.

(** [fs.existsSync(p)] *)
Definition existsSync (p : string) : M bool :=
  fun st =>
    Some ((String.eqb p "/" ||
           match files st !! p with Some _ => true | None => false end)%bool, st).

(** [fs.readFileSync(p, 'utf-8')] *)
Definition readFileSync (p : string) : M string :=
  fun st =>
    match files st !! p with
    | Some (File c) => Some (c, st)
    | _ => None
    end.

(** The names of the entries directly inside directory [p]. *)
Definition entries (fs : gmap string node) (p : string) : list string :=
  omap (fun k =>
          match JsString.after_prefix (p +:+ "/") k with
          | Some n => if Path.ordinary n then Some n else None
          | None => None
          end)
       (map fst (map_to_list fs)).

(** [fs.readdirSync(p)] *)
Definition readdirSync (p : string) : M (list string) :=
  fun st => if is_dir (files st) p then Some (entries (files st) p, st) else None.

(** [fs.mkdirSync(p, { recursive: true })]: the missing directories on
    the way to [p] are made; an existing file on the way is an error. *)
Fixpoint mkdir_p (fuel : nat) (p : string) (fs : gmap string node)
    : option (gmap string node) :=
  if String.eqb p "/" then Some fs
  else
    match fs !! p with
    | Some Dir => Some fs
    | Some (File _) => None
    | None =>
        match fuel with
        | O => None
        | S f =>
            match mkdir_p f (Path.dirname p) fs with
            | Some fs' => Some (<[p := Dir]> fs')
            | None => None
            end
        end
    end.

Definition mkdirSync_recursive (p : string) : M unit :=
  fun st =>
    match mkdir_p (List.length (Path.segments p)) p (files st) with
    | Some fs' => Some (tt, {| files := fs'; console := console st |})
    | None => None
    end.

(** [fs.writeFileSync(p, content, 'utf-8')]: the directory of [p] has
    to exist and [p] must not be a directory. *)
Definition writeFileSync (p content : string) : M unit :=
  fun st =>
    if (is_dir (files st) (Path.dirname p) && negb (is_dir (files st) p))%bool
    then Some (tt, {| files := <[p := File content]> (files st); console := console st |})
    else None.

(** [fs.copyFileSync(src, dest)] *)
Definition copyFileSync (src dest : string) : M unit :=
  let* c := readFileSync src in writeFileSync dest c.

End Fs.

(** A line on the console. *)
Definition console_log (a : action) : M unit :=
  fun st => Some (tt, {| files := files st; console := console st ++ [a] |}).

(** ** Documents *)

Record Document := {
  title : jsval;
  subtitle : jsval;
  description : jsval;
  date : jsval;
  template : jsval;
  usesMath : bool;
  usesCode : bool;
  body : string;
  slug : string
}.

(** [data.key], [undefined] for a missing key *)
Definition field (data : gmap string jsval) (key : string) : jsval :=
  default JUndefined (data !! key).

(** Modelled from the spec: the frontmatter splitter [matter] of the
  package gray-matter, which is not part of the repository.  A header
  is present when the file opens with the marker [---] (not followed
  by a fourth dash); it ends before the next line that opens with the
  marker, and the body is what follows that marker, less one line
  break.  Without a header the metadata is empty and the whole file is
  the body.  The header text goes to the YAML engine of the host. *)
Definition matter (h : Host) (content : string) : option (gmap string jsval * string) :=
  if negb (JsString.startsWith content "---") then Some (∅, content)
  else if JsString.startsWith content "----" then Some (∅, content)
  else
    let str := JsString.drop 3 content in
    let '(block, rest) :=
      match JsString.cut (newline +:+ "---") str with
      | Some (b, a) =>
          let a := match JsString.after_prefix (String "013" EmptyString) a with
                   | Some a' => a' | None => a end in
          let a := match JsString.after_prefix newline a with
                   | Some a' => a' | None => a end in
          (b, a)
      | None => (str, EmptyString)
      end in
    if String.eqb (JsString.trim block) EmptyString then Some (∅, rest)
    else match yaml_load h block with
         | Some data => Some (data, rest)
         | None => None
         end.

(** Does the file open with the frontmatter marker? *)
Definition has_frontmatter_marker (content : string) : bool :=
  JsString.startsWith content "---".

(** [parseDocument(filePath)] *)
Definition parseDocument (h : Host) (filePath : string) : M Document :=
  let* content := Fs.readFileSync filePath in
  let* parsed := lift (matter h content) in
  let '(data, markdown) := parsed in
  let body := marked_parse h markdown in
  let slug := Path.basename filePath ".md" in
  ret {| title := JsValue.or (field data "title") (JStr "Untitled");
         subtitle := JsValue.or (field data "subtitle") (JStr EmptyString);
         description := JsValue.or (field data "description") (JStr EmptyString);
         date := JsValue.or (field data "date") (JStr EmptyString);
         template := JsValue.or (field data "template") (JStr "post");
         usesMath := JsValue.is_true (field data "uses_math");
         usesCode := JsValue.is_true (field data "uses_code");
         body := body;
         slug := slug |}.

(** ** Pages *)

(** A text between double quotes. *)
Definition q (s : string) : string := dquote +:+ s +:+ dquote.

Section Build.

Variable h : Host.

(** The segments of [path.resolve(__dirname, '..')], the directory the
    project is checked out in. *)
Variable root : list string.

Definition PROJECT_ROOT : string := Path.abs root.
Definition WRITING_DIR : string := Path.join [PROJECT_ROOT; "writing"].
Definition THEME_DIR : string := Path.join [PROJECT_ROOT; "theme"].
Definition PUBLIC_DIR : string := Path.join [PROJECT_ROOT; "public"].
Definition POSTS_SUBDIR : string := "posts".

(** [loadTemplate(name)] *)
Definition loadTemplate (name : string) : M string :=
  Fs.readFileSync (Path.join [THEME_DIR; "templates"; name]).

Definition MATHJAX_SCRIPTS : string :=
  "
  <!-- MathJax for LaTeX equations -->
  <script>
    MathJax = {
      tex: {
        inlineMath: [['$', '$'], ['\\(', '\\)']],
        displayMath: [['$$', '$$'], ['\\[', '\\]']]
      },
      svg: { fontCache: 'global' }
    };
  </script>
  <script id=" +:+ q "MathJax-script" +:+ " async src="
  +:+ q "https://cdn.jsdelivr.net/npm/mathjax@3/es5/tex-mml-chtml.js" +:+ "></script>
".

Definition PRISMJS_SCRIPTS : string :=
  "
  <!-- Prism.js for syntax highlighting -->
  <script src="
  +:+ q "https://cdnjs.cloudflare.com/ajax/libs/prism/1.29.0/prism.min.js" +:+ "></script>
  <script src="
  +:+ q "https://cdnjs.cloudflare.com/ajax/libs/prism/1.29.0/components/prism-python.min.js"
  +:+ "></script>
".

(** [generateHeadExtras(doc)] *)
Definition generateHeadExtras (doc : Document) : string :=
  let extras := EmptyString in
  let extras := if usesMath doc then extras +:+ MATHJAX_SCRIPTS else extras in
  let extras := if usesCode doc then extras +:+ PRISMJS_SCRIPTS else extras in
  extras.

(** [renderPost(doc)] *)
Definition renderPost (doc : Document) : M string :=
  let* baseTemplate := loadTemplate "base.html" in
  let* postTemplate := loadTemplate "post.html" in
  let postContent :=
    renderTemplate postTemplate
      [("title", JsValue.ToString h (title doc));
       ("subtitle", JsValue.ToString h (subtitle doc));
       ("body", body doc);
       ("footnotes", EmptyString)] in
  ret (renderTemplate baseTemplate
         [("title", JsValue.ToString h (title doc));
          ("description", JsValue.ToString h (description doc));
          ("head_extra", generateHeadExtras doc);
          ("body_class", "post-page");
          ("content", postContent)]).

Definition weekdays : list string :=
  ["Sun"; "Mon"; "Tue"; "Wed"; "Thu"; "Fri"; "Sat"].
Definition months : list string :=
  ["Jan"; "Feb"; "Mar"; "Apr"; "May"; "Jun"; "Jul"; "Aug"; "Sep"; "Oct"; "Nov"; "Dec"].

(** [names[i] || ''] *)
Definition name_at (names : list string) (i : Z) : string :=
  if i <? 0 then EmptyString else default EmptyString (names !! Z.to_nat i).

(** The label of a valid time value. *)
Definition date_label (t : Z) : string :=
  let weekday := name_at weekdays (DateUTC.getUTCDay t) in
  let month := name_at months (DateUTC.getUTCMonth t) in
  let day := DateUTC.getUTCDate t in
  let year := JsString.slice_last 2 (JsString.of_Z (DateUTC.getUTCFullYear t)) in
  JsString.trim (weekday +:+ " " +:+ month +:+ " " +:+ JsString.of_Z day +:+ " '" +:+ year).

(** [formatPostDate(value)] *)
Definition formatPostDate (value : jsval) : string :=
  if negb (JsValue.truthy value) then EmptyString
  else
    match value with
    | JDate (Some t) => date_label t
    | JDate None => EmptyString
    | _ =>
        match JsValue.new_Date h value with
        | None => JsValue.ToString h value
        | Some t => date_label t
        end
    end.

(** The comparison function of the index: [dateB - dateA]. *)
Definition by_date_descending (a b : Document) : option Z :=
  let dateA := JsValue.new_Date h (JsValue.or (date a) (JNum 0)) in
  let dateB := JsValue.new_Date h (JsValue.or (date b) (JNum 0)) in
  JsValue.minus dateB dateA.

(** [SortCompare]: a [NaN] from the comparison function counts as 0. *)
Definition SortCompare {A} (comparefn : A -> A -> option Z) (x y : A) : Z :=
  default 0 (comparefn x y).

Fixpoint sort_insert {A} (comparefn : A -> A -> option Z) (x : A) (l : list A) : list A :=
  match l with
  | [] => [x]
  | y :: l' =>
      if SortCompare comparefn x y <=? 0 then x :: l
      else y :: sort_insert comparefn x l'
  end.

(** [[...l].sort(comparefn)], as the stable insertion sort: every stable
    sort yields this list when the comparison function is a consistent
    ordering; for other functions the engine's order is its own. *)
Definition Array_sort {A} (comparefn : A -> A -> option Z) (l : list A) : list A :=
  foldr (sort_insert comparefn) [] l.

Definition sortedPosts (posts : list Document) : list Document :=
  Array_sort by_date_descending posts.

(** One entry of the post list. *)
Definition post_list_item (post : Document) : string :=
  let formattedDate := formatPostDate (date post) in
  let dateHtml :=
    if negb (String.eqb formattedDate EmptyString)
    then "<span class=" +:+ q "post-date" +:+ ">" +:+ formattedDate +:+ "</span>"
    else "<span class=" +:+ q "post-date" +:+ "></span>" in
  let titleHtml :=
    "<a href=" +:+ q ("posts/" +:+ slug post +:+ "/") +:+ ">"
      +:+ JsValue.ToString h (title post) +:+ "</a>" in
  "  <li class=" +:+ q "post-list-item" +:+ ">" +:+ dateHtml +:+ titleHtml +:+ "</li>".

Definition postListHtml (posts : list Document) : string :=
  JsString.join newline (map post_list_item (sortedPosts posts)).

(** [renderIndex(posts)] *)
Definition renderIndex (posts : list Document) : M string :=
  let* baseTemplate := loadTemplate "base.html" in
  let* indexTemplate := loadTemplate "index.html" in
  let indexMdPath := Path.join [WRITING_DIR; "index.md"] in
  let* present := Fs.existsSync indexMdPath in
  let* indexDoc :=
    (if present : bool then
       let* d := parseDocument h indexMdPath in ret (title d, description d)
     else ret (JStr "Ink Dreams - Notes",
               JStr "Notes and essays in a hand-drawn aesthetic.")) in
  let indexContent := renderTemplate indexTemplate [("post_list", postListHtml posts)] in
  ret (renderTemplate baseTemplate
         [("title", JsValue.ToString h (fst indexDoc));
          ("description", JsValue.ToString h (snd indexDoc));
          ("head_extra", EmptyString);
          ("body_class", "centered-list");
          ("content", indexContent)]).

(** The pattern [/<div class="fixed-footer">[\s\S]*?<\/div>/]: from the
    opening tag to the nearest closing tag behind it. *)
Definition footer_block : JsString.matcher :=
  fun s =>
    match JsString.after_prefix ("<div class=" +:+ q "fixed-footer" +:+ ">") s with
    | Some s1 =>
        match JsString.cut "</div>" s1 with
        | Some (_, s2) => Some (String.length s - String.length s2)%nat
        | None => None
        end
    | None => None
    end.

Definition footerReplacement : string :=
  "<div class=" +:+ q "fixed-footer" +:+ ">"
  +:+ "<a href=" +:+ q "/index.html" +:+ " class=" +:+ q "footer-back-arrow"
  +:+ " aria-label=" +:+ q "Back to notes" +:+ "></a>"
  +:+ "<span>&copy; Canaan McKenzie</span>"
  +:+ "</div>".

(** [renderAbout()] *)
Definition renderAbout : M string :=
  let* baseTemplate := loadTemplate "base.html" in
  let* aboutTemplate := loadTemplate "about.html" in
  let aboutMdPath := Path.join [WRITING_DIR; "about.md"] in
  let* present := Fs.existsSync aboutMdPath in
  let* aboutDoc :=
    (if present : bool then
       let* d := parseDocument h aboutMdPath in
       ret (title d, description d, body d)
     else ret (JStr "About", JStr "About this site", "<p>About page content.</p>")) in
  let '(aboutTitle, aboutDescription, aboutBody) := aboutDoc in
  let aboutContent :=
    renderTemplate aboutTemplate
      [("title", JsValue.ToString h aboutTitle); ("content", aboutBody)] in
  let baseWithModifiedFooter :=
    JsString.replace_first footer_block (JsString.ByString footerReplacement) baseTemplate in
  ret (renderTemplate baseWithModifiedFooter
         [("title", JsValue.ToString h aboutTitle);
          ("description", JsValue.ToString h aboutDescription);
          ("head_extra", EmptyString);
          ("body_class", "hero");
          ("content", aboutContent)]).

(** [render404()] *)
Definition render404 : M string :=
  let* baseTemplate := loadTemplate "base.html" in
  let* notFoundTemplate := loadTemplate "404.html" in
  ret (renderTemplate baseTemplate
         [("title", "404 Not Found");
          ("description", "Page not found");
          ("head_extra", EmptyString);
          ("body_class", "error-page");
          ("content", notFoundTemplate)]).

(** ** File system operations of the build *)

(** [ensureDir(dirPath)] *)
Definition ensureDir (dirPath : string) : M unit :=
  let* present := Fs.existsSync dirPath in
  if present : bool then ret tt else Fs.mkdirSync_recursive dirPath.

(** [writeFile(filePath, content)] *)
Definition writeFile (filePath content : string) : M unit :=
  Fs.writeFileSync filePath content ;;
  console_log (Wrote filePath content).

(** [copyFile(src, dest)] *)
Definition copyFile (src dest : string) : M unit :=
  Fs.copyFileSync src dest ;;
  console_log (Copied src dest).

(** [getFilesWithExtension(dir, ext)] *)
Definition getFilesWithExtension (dir ext : string) : M (list string) :=
  let* present := Fs.existsSync dir in
  if negb present then ret []
  else
    let* names := Fs.readdirSync dir in
    ret (map (fun file => Path.join [dir; file])
             (List.filter (fun file => JsString.endsWith file ext) names)).

(** Step 3 of the build for one post. *)
Definition emitPost (doc : Document) : M unit :=
  let* html := renderPost doc in
  let postDir := Path.join [PUBLIC_DIR; POSTS_SUBDIR; slug doc] in
  ensureDir postDir ;;
  let outputPath := Path.join [postDir; "index.html"] in
  writeFile outputPath html.

(** Steps 4 and 5: the main pages and the static assets. *)
Definition emitMainPages (posts : list Document) : M unit :=
  let* indexHtml := renderIndex posts in
  writeFile (Path.join [PUBLIC_DIR; "index.html"]) indexHtml ;;
  let* aboutHtml := renderAbout in
  writeFile (Path.join [PUBLIC_DIR; "about.html"]) aboutHtml ;;
  let* notFoundHtml := render404 in
  writeFile (Path.join [PUBLIC_DIR; "404.html"]) notFoundHtml.

Definition copyAssets : M unit :=
  copyFile (Path.join [THEME_DIR; "styles.css"]) (Path.join [PUBLIC_DIR; "styles.css"]) ;;
  copyFile (Path.join [THEME_DIR; "script.js"]) (Path.join [PUBLIC_DIR; "script.js"]) ;;
  copyFile (Path.join [THEME_DIR; "favicon.svg"]) (Path.join [PUBLIC_DIR; "favicon.svg"]).

(** [buildSite()] *)
Definition buildSite : M unit :=
  ensureDir PUBLIC_DIR ;;
  ensureDir (Path.join [PUBLIC_DIR; POSTS_SUBDIR]) ;;
  let postsDir := Path.join [WRITING_DIR; POSTS_SUBDIR] in
  let* postFiles := getFilesWithExtension postsDir ".md" in
  let* posts := mapM (parseDocument h) postFiles in
  forEach emitPost posts ;;
  emitMainPages posts ;;
  copyAssets.

End Build.

(** ** The preview server *)

(** The server half of the source.  It declares a [PUBLIC_DIR] of its
    own, next to the one of the build, hence the module. *)
Module Serve.

(** The outcome of [fs.stat]. *)
Inductive stat_result :=
  | StatDirectory
  | StatOther
  | StatENOENT
  | StatError.

(** The outcome of [fs.readFile]. *)
Inductive read_result :=
  | ReadData (data : string)
  | ReadENOENT
  | ReadError.

(** The file system as the server sees it; it only reads. *)
Record ServerFs := {
  stat : string -> stat_result;
  readFile : string -> read_result;
  existsSync : string -> bool
}.

Record Response := {
  status : Z;
  contentType : string;
  payload : string
}.

Definition MIME_TYPES : list (string * string) :=
  [(".html", "text/html; charset=utf-8");
   (".css", "text/css; charset=utf-8");
   (".js", "application/javascript; charset=utf-8");
   (".json", "application/json; charset=utf-8");
   (".png", "image/png");
   (".jpg", "image/jpeg");
   (".jpeg", "image/jpeg");
   (".gif", "image/gif");
   (".svg", "image/svg+xml");
   (".ico", "image/x-icon");
   (".woff", "font/woff");
   (".woff2", "font/woff2");
   (".ttf", "font/ttf")].

Fixpoint assoc (k : string) (l : list (string * string)) : option string :=
  match l with
  | [] => None
  | (k', v) :: l' => if String.eqb k k' then Some v else assoc k l'
  end.

(** [getMimeType(filePath)] *)
Definition getMimeType (filePath : string) : string :=
  let ext := JsString.toLowerCase (Path.extname filePath) in
  default "application/octet-stream" (assoc ext MIME_TYPES).

(** [s.replace(/^(\.\.[\/\\])+/, '')]: the leading run of [../] and [..\]
  is removed. *)
Fixpoint strip_dotdots (s : string) : string :=
  match s with
  | String a (String b (String c s')) =>
      if (Ascii.eqb a "." && Ascii.eqb b "."
          && (Ascii.eqb c "/" || Ascii.eqb c "\"))%bool
      then strip_dotdots s' else s
  | _ => s
  end.

Section Server.

Variable root : list string.

(** [path.resolve(__dirname, '..', 'public')] *)
Definition PUBLIC_DIR : string := Path.join [Path.abs root; "public"].

(** The file path a request for [pathname] is mapped to. *)
Definition requestedFile (pathname : string) : string :=
  let pathname := if String.eqb pathname "/" then "/index.html" else pathname in
  let safePath := strip_dotdots (Path.normalize pathname) in
  Path.join [PUBLIC_DIR; safePath].

(** [handleRequest(req, res)] for a request whose URL has the path
    [pathname], up to the response it sends. *)
Definition handleRequest (sfs : ServerFs) (pathname : string) : Response :=
  let filePath := requestedFile pathname in
  if negb (JsString.startsWith filePath PUBLIC_DIR) then
    {| status := 403; contentType := "text/plain"; payload := "Forbidden" |}
  else
    let finalPath :=
      match stat sfs filePath with
      | StatDirectory => Path.join [filePath; "index.html"]
      | StatENOENT =>
          if String.eqb (Path.extname filePath) EmptyString then
            let potentialIdx := Path.join [filePath; "index.html"] in
            if existsSync sfs potentialIdx then potentialIdx else filePath
          else filePath
      | _ => filePath
      end in
    match readFile sfs finalPath with
    | ReadENOENT =>
        let notFoundPath := Path.join [PUBLIC_DIR; "404.html"] in
        {| status := 404; contentType := "text/html; charset=utf-8";
           payload := match readFile sfs notFoundPath with
                      | ReadData data404 => data404
                      | _ => "<h1>404 Not Found</h1>"
                      end |}
    | ReadError =>
        {| status := 500; contentType := "text/plain"; payload := "Internal Server Error" |}
    | ReadData data =>
        {| status := 200; contentType := getMimeType finalPath; payload := data |}
    end.

End Server.

End Serve.

(** ** Fixtures for the examples *)

Module Fixture.

(** A loader for flat [key: value] headers: [true] and [false] are
    the booleans, a date-only value is a [Date], digits are a number,
    everything else is text (without its quotes). *)
Definition scalar (v : string) : jsval :=
  if String.eqb v "true" then JBool true
  else if String.eqb v "false" then JBool false
  else match DateUTC.parse_date_only v, DateUTC.number v with
       | Some t, _ => JDate (Some t)
       | None, Some n => JNum n
       | None, None =>
           match JsString.after_prefix dquote v with
           | Some v' => JStr (JsString.take (String.length v' - 1) v')
           | None => JStr v
           end
       end.

Fixpoint lines_go (cur_rev : string) (s : string) : list string :=
  match s with
  | EmptyString => [String.rev cur_rev]
  | String c s' =>
      if Ascii.eqb c "010" then String.rev cur_rev :: lines_go EmptyString s'
      else lines_go (String c cur_rev) s'
  end.

Definition load (block : string) : option (gmap string jsval) :=
  Some (foldr (fun line data =>
                 match JsString.cut ":" line with
                 | Some (k, v) => <[JsString.trim k := scalar (JsString.trim v)]> data
                 | None => data
                 end)
              ∅ (lines_go EmptyString block)).

Definition host : Host :=
  {| Date_parse := DateUTC.parse_date_only;
     Date_toString := fun _ => "Invalid Date";
     marked_parse := fun s => "<p>" +:+ JsString.trim s +:+ "</p>" +:+ newline;
     yaml_load := load |}.

(** A project without a posts directory and without [index.md] and
    [about.md]. *)
Definition bare_project : gmap string node :=
  list_to_map
    [("/site", Dir); ("/site/theme", Dir); ("/site/theme/templates", Dir);
     ("/site/theme/templates/base.html",
      File "<title>{{title}}</title>{{head_extra}}<body class={{body_class}}>{{content}}</body>");
     ("/site/theme/templates/post.html", File "<h1>{{ title }}</h1>{{body}}{{footnotes}}");
     ("/site/theme/templates/index.html", File "<ul>{{post_list}}</ul>");
     ("/site/theme/templates/about.html", File "<h1>{{title}}</h1>{{content}}");
     ("/site/theme/templates/404.html", File "<p>Lost.</p>");
     ("/site/theme/styles.css", File "body {}");
     ("/site/theme/script.js", File "void 0;");
     ("/site/theme/favicon.svg", File "<svg/>");
     ("/site/writing", Dir)].

(** The same project with two posts. *)
Definition project : gmap string node :=
  <["/site/writing/posts" := Dir]>
    (<["/site/writing/posts/hello-world.md" := File "---
title: Hello
date: 2025-01-10
uses_math: true
uses_code: yes
---
Hello, world."]>
      (<["/site/writing/posts/notes.md" := File "Just notes."]> bare_project)).

(** A server over an empty output directory. *)
Definition empty_site : Serve.ServerFs :=
  {| Serve.stat := fun _ => Serve.StatENOENT;
     Serve.readFile := fun _ => Serve.ReadENOENT;
     Serve.existsSync := fun _ => false |}.

Definition dated (s d : string) : Document :=
  {| title := JStr s; subtitle := JStr EmptyString; description := JStr EmptyString;
     date := JStr d; template := JStr "post"; usesMath := false; usesCode := false;
     body := EmptyString; slug := s |}.

End Fixture.

(** ** Notions used in the statements *)

(** A first piece and the pieces after it, each preceded by [v]. *)
Definition glue (v : string) (pp : string * list string) : string :=
  fst pp +:+ foldr (fun x acc => v +:+ x +:+ acc) EmptyString (snd pp).




(** Does the code unit occur in the text? *)
Fixpoint has_unit (c : ascii) (s : string) : bool :=
  match s with
  | EmptyString => false
  | String d s' => (Ascii.eqb c d || has_unit c s')%bool
  end.

(** The two low-order digits of a year. *)
Definition two_digit_year (y : Z) : string :=
  String (JsString.digit ((y / 10) mod 10)) (String (JsString.digit (y mod 10)) EmptyString).

(** The label the format [<Weekday> <Month> <Day> '<2-digit-Year>]
    gives a time value. *)
Definition two_digit_label (t : Z) : string :=
  name_at weekdays (DateUTC.getUTCDay t) +:+ " "
  +:+ name_at months (DateUTC.getUTCMonth t) +:+ " "
  +:+ JsString.of_Z (DateUTC.getUTCDate t) +:+ " '"
  +:+ two_digit_year (DateUTC.getUTCFullYear t).

(** The time value the index sorts a document by. *)
Definition sort_key (h : Host) (d : Document) : option Z :=
  JsValue.new_Date h (JsValue.or (date d) (JNum 0)).

(** [a] is dated no earlier than [b]. *)
Definition not_older (h : Host) (a b : Document) : Prop :=
  match sort_key h a, sort_key h b with
  | Some x, Some y => y <= x
  | _, _ => False
  end.

(** The document has a date and the date parses. *)
Definition has_parsed_date (h : Host) (d : Document) : bool :=
  (JsValue.truthy (date d)
   && match JsValue.new_Date h (date d) with Some _ => true | None => false end)%bool.

(** Every document without a parsed date comes after every document
    with one. *)
Definition undated_after_dated (h : Host) (l : list Document) : Prop :=
  forall i j a b,
    l !! i = Some a -> l !! j = Some b ->
    has_parsed_date h a = false -> has_parsed_date h b = true -> (j < i)%nat.

(** The document of a file without metadata. *)
Definition default_document (h : Host) (filePath content : string) : Document :=
  {| title := JStr "Untitled";
     subtitle := JStr EmptyString;
     description := JStr EmptyString;
     date := JStr EmptyString;
     template := JStr "post";
     usesMath := false;
     usesCode := false;
     body := marked_parse h content;
     slug := Path.basename filePath ".md" |}.

(** The request path, joined to the served directory as it is, lies
    outside the served directory. *)
Definition escapes_served_dir (root : list string) (pathname : string) : bool :=
  negb (JsString.startsWith (Path.join [Serve.PUBLIC_DIR root; pathname]) (Serve.PUBLIC_DIR root)).

(** A step that leaves the state as it found it. *)
Definition read_only {A} (m : M A) : Prop :=
  forall st a st', m st = Some (a, st') -> st' = st.



(** The names of the templates, the assets, the optional documents
    and the outputs at the top of the output directory. *)
Definition template_names : list string :=
  ["base.html"; "index.html"; "about.html"; "404.html"].
Definition asset_names : list string := ["styles.css"; "script.js"; "favicon.svg"].
Definition document_names : list string := ["index.md"; "about.md"].
Definition output_names : list string :=
  ["index.html"; "about.html"; "404.html"; "styles.css"; "script.js"; "favicon.svg"].


(** Did the run end without an exception? *)
Definition completes {A} (r : option (A * state)) : bool :=
  match r with Some _ => true | None => false end.

Definition is_file (fs : gmap string node) (p : string) : Prop :=
  exists c, fs !! p = Some (File c).

Definition not_file (fs : gmap string node) (p : string) : Prop :=
  forall c, fs !! p <> Some (File c).

Definition not_dir (fs : gmap string node) (p : string) : Prop :=
  fs !! p <> Some Dir.

(** An optional source document: missing, or a file whose header loads. *)
Definition loadable (h : Host) (fs : gmap string node) (p : string) : Prop :=
  fs !! p = None \/ exists c, fs !! p = Some (File c) /\ is_Some (matter h c).

(** The templates, the assets and the optional documents are in place. *)
Record sources_ready (h : Host) (root : list string) (fs : gmap string node) : Prop := {
  ready_templates :
    Forall (fun n => is_file fs (Path.abs (root ++ ["theme"; "templates"; n]))) template_names;
  ready_assets :
    Forall (fun n => is_file fs (Path.abs (root ++ ["theme"; n]))) asset_names;
  ready_documents :
    Forall (fun n => loadable h fs (Path.abs (root ++ ["writing"; n]))) document_names
}.

(** The output directory exists and none of the main outputs is a
    directory. *)
Record output_ready (root : list string) (fs : gmap string node) : Prop := {
  ready_public : Fs.is_dir fs (Path.abs (root ++ ["public"])) = true;
  ready_outputs :
    Forall (fun n => not_dir fs (Path.abs (root ++ ["public"; n]))) output_names
}.

(** A project the build can run on, whether or not it has posts. *)
Record project_ready (h : Host) (root : list string) (fs : gmap string node) : Prop := {
  ready_root : Fs.is_dir fs (Path.abs root) = true;
  ready_public_dir : not_file fs (Path.abs (root ++ ["public"]));
  ready_posts_dir : not_file fs (Path.abs (root ++ ["public"; "posts"]));
  ready_sources : sources_ready h root fs;
  ready_main_outputs :
    Forall (fun n => not_dir fs (Path.abs (root ++ ["public"; n]))) output_names
}.

(** The state after [writeFile] and after [copyFile]. *)
Definition written (p c : string) (st : state) : state :=
  {| files := <[p := File c]> (files st); console := console st ++ [Wrote p c] |}.

Definition copied (src dest c : string) (st : state) : state :=
  {| files := <[dest := File c]> (files st); console := console st ++ [Copied src dest] |}.

(** The state after a directory has been made. *)
Definition with_dir (p : string) (st : state) : state :=
  {| files := <[p := Dir]> (files st); console := console st |}.

(** The state once the output directories are in place. *)
Definition prepared (root : list string) (st : state) : state :=
  with_dir (Path.abs (root ++ ["public"; "posts"]))
    (with_dir (Path.abs (root ++ ["public"])) st).

(** ** The server on the files of the build *)

(** What a path names in a file system: an entry, nothing, or, for a
    path with a trailing separator behind the name of a regular file,
    an entry that is not a directory. *)
Inductive lookup_result :=
  | Found (n : node)
  | NotADirectory
  | Missing.

Definition resolve_entry (fs : gmap string node) (p : string) : lookup_result :=
  if String.eqb p "/" then Found Dir
  else if JsString.endsWith p "/" then
    match fs !! JsString.take (String.length p - 1) p with
    | Some Dir => Found Dir
    | Some (File _) => NotADirectory
    | None => Missing
    end
  else match fs !! p with
       | Some n => Found n
       | None => Missing
       end.

(** The answers of [fs.stat], [fs.readFile] and [fs.existsSync] on the
    file system [fs]: reading a directory is an error other than
    [ENOENT]. *)
Definition on_disk (fs : gmap string node) : Serve.ServerFs :=
  {| Serve.stat := fun p =>
       match resolve_entry fs p with
       | Found Dir => Serve.StatDirectory
       | Found (File _) => Serve.StatOther
       | NotADirectory => Serve.StatError
       | Missing => Serve.StatENOENT
       end;
     Serve.readFile := fun p =>
       match resolve_entry fs p with
       | Found (File c) => Serve.ReadData c
       | Found Dir | NotADirectory => Serve.ReadError
       | Missing => Serve.ReadENOENT
       end;
     Serve.existsSync := fun p =>
       match resolve_entry fs p with
       | Found _ => true
       | _ => false
       end |}.

(** An output directory with two pages, a style sheet and the page
    for missing files. *)
Definition example_site : gmap string node :=
  list_to_map
    [("/site", Dir); ("/site/public", Dir);
     ("/site/public/index.html", File "<ul></ul>");
     ("/site/public/404.html", File "<p>Lost.</p>");
     ("/site/public/styles.css", File "body {}");
     ("/site/public/posts", Dir);
     ("/site/public/posts/hello-world", Dir);
     ("/site/public/posts/hello-world/index.html", File "<h1>Hello</h1>")].

(** A path in the served directory: the directory itself or a path
    below it, perhaps with a trailing separator. *)
Definition in_served_dir (root : list string) (p : string) : Prop :=
  exists clean t,
    Forall (fun s => Path.ordinary s = true) clean /\
    (t = EmptyString \/ t = "/") /\
    p = Path.abs (root ++ "public" :: clean) +:+ t.

(** A file system that answers as [sfs] does on the paths that begin
    with [prefix] and fails everywhere else. *)
Definition inside_only (prefix : string) (sfs : Serve.ServerFs) : Serve.ServerFs :=
  {| Serve.stat := fun p =>
       if JsString.startsWith p prefix then Serve.stat sfs p else Serve.StatError;
     Serve.readFile := fun p =>
       if JsString.startsWith p prefix then Serve.readFile sfs p else Serve.ReadError;
     Serve.existsSync := fun p =>
       if JsString.startsWith p prefix then Serve.existsSync sfs p else true |}.

(** A text of white space only. *)
Fixpoint blank (s : string) : bool :=
  match s with
  | EmptyString => true
  | String c s' => (JsString.is_white c && blank s')%bool
  end.

(** ** The calendar *)

(** The Gregorian leap years and the lengths of the months. *)
Definition leap_year (y : Z) : bool :=
  ((y mod 4 =? 0) && (negb (y mod 100 =? 0) || (y mod 400 =? 0)))%bool.

Definition days_in_month (y m : Z) : Z :=
  if m =? 2 then (if leap_year y then 29 else 28)
  else if ((m =? 4) || (m =? 6) || (m =? 9) || (m =? 11))%bool then 30
  else 31.

(** A day of the proleptic Gregorian calendar. *)
Definition calendar_date (y m d : Z) : Prop :=
  1 <= m <= 12 /\ 1 <= d <= days_in_month y m.

(** The two halves of [days_from_civil] and [civil_from_days] within an
    era of 400 years that begins on 1 March: the day of the era of a
    date, and the year of the era, the month and the day of a day of the
    era. *)
Definition era_day (yoe m d : Z) : Z :=
  let doy := (153 * (if m >? 2 then m - 3 else m + 9) + 2) / 5 + d - 1 in
  yoe * 365 + yoe / 4 - yoe / 100 + doy.

Definition era_date (doe : Z) : Z * Z * Z :=
  let yoe := (doe - doe / 1460 + doe / 36524 - doe / 146096) / 365 in
  let doy := doe - (365 * yoe + yoe / 4 - yoe / 100) in
  let mp := (5 * doy + 2) / 153 in
  let d := doy - (153 * mp + 2) / 5 + 1 in
  let m := if mp <? 10 then mp + 3 else mp - 9 in
  (yoe, m, d).

(** The days of month [m] in year [yoe] of the era, checked one by one:
    each lies in the era and is found again from its day. *)
Definition era_check (yoe m : Z) : bool :=
  forallb
    (fun d =>
       let doe := era_day yoe m d in
       let '(yoe', m', d') := era_date doe in
       ((0 <=? doe) && (doe <? 146097) && (yoe' =? yoe) && (m' =? m) && (d' =? d))%bool)
    (seqZ 1 (days_in_month (yoe + (if m <=? 2 then 1 else 0)) m)).



(** Segments in which [..] stands only in a leading run, or right
    behind it. *)
Definition later_clean (segs : list string) : Prop :=
  exists k rest, segs = replicate k ".." ++ rest /\ Forall (fun s => s <> "..") (tail rest).

(** ** What the build leaves alone *)

(** A path in the output directory: the directory itself or a path of
    names below it. *)
Definition in_output_dir (root : list string) (p : string) : Prop :=
  exists l, Forall (fun s => Path.ordinary s = true) l /\ p = Path.abs (root ++ "public" :: l).

(** Outside the output directory every entry of [fs] is in [fs'] as it
    was, and what [fs'] has more is directories. *)
Definition kept_outside (root : list string) (fs fs' : gmap string node) : Prop :=
  forall q, ~ in_output_dir root q ->
    (forall n, fs !! q = Some n -> fs' !! q = Some n) /\
    (fs !! q = None -> fs' !! q = None \/ fs' !! q = Some Dir).

(** The directory of a post in the output directory. *)
Definition post_dir (root : list string) (d : Document) : string :=
  Path.abs (root ++ ["public"; "posts"; slug d]).

(** ** The script of the pages: [public/script.js] *)

Module Script.

(** [ToInt32]: the signed 32-bit integer of a number. *)
Definition ToInt32 (x : Z) : Z := (x + 2 ^ 31) mod 2 ^ 32 - 2 ^ 31.

(** [a << n] and [a & b] on numbers *)
Definition shl (a n : Z) : Z := ToInt32 (Z.shiftl (ToInt32 a) n).
Definition and (a b : Z) : Z := Z.land (ToInt32 a) (ToInt32 b).

(** The body of the loop of [hashString] for the code unit [char]. *)
Definition hash_step (hash char : Z) : Z :=
  let hash := (shl hash 5 - hash) + char in
  and hash hash.

(** [hashString(str)], [str] given by its code units, as [charCodeAt]
    returns them. *)
Definition hashString (str : list Z) : Z :=
  Z.abs (fold_left hash_step str 0).

(** What the script asks of the browser: the origin of a URL, resolved
    against the address of the page ([None] where [new URL] throws), and
    the origin of the page. *)
Record Browser := {
  origin : string -> option string;
  location_origin : string
}.

(** The state of the prefetching: the set [prefetchCache] and the
    requests [fetch] has sent, the oldest first. *)
Record prefetching := {
  prefetchCache : gset string;
  fetched : list string
}.

(** [prefetchLink(url)] *)
Definition prefetchLink (b : Browser) (url : string) (s : prefetching) : prefetching :=
  if decide (url ∈ prefetchCache s) then s
  else
    match origin b url with
    | Some targetOrigin =>
        if negb (String.eqb targetOrigin (location_origin b)) then s
        else {| prefetchCache := {[url]} ∪ prefetchCache s; fetched := fetched s ++ [url] |}
    | None => s
    end.

(** The listener of [mouseenter] on a link with the address [href]. *)
Definition mouseenter (b : Browser) (href : string) (s : prefetching) : prefetching :=
  if negb (String.eqb href EmptyString) then prefetchLink b href s else s.

(** The state after the links of the given addresses have been hovered
    over, one after the other, on a freshly loaded page. *)
Definition hovered (b : Browser) (hrefs : list string) : prefetching :=
  fold_left (fun s href => mouseenter b href s) hrefs
    {| prefetchCache := ∅; fetched := [] |}.

End Script.

(** The polynomial [hashString] evaluates: the code units as the
    digits of a numeral of base 31, from the value [acc] on. *)
Definition horner31 (acc : Z) (units : list Z) : Z :=
  fold_left (fun a c => 31 * a + c) units acc.

(** * Properties *)

(** ** Strings *)

Section StringFacts.

Lemma sapp_cons c s t : String c s +:+ t = String c (s +:+ t).
Proof. reflexivity. Qed.

Lemma sapp_nil_l s : EmptyString +:+ s = s.
Proof. reflexivity. Qed.

Lemma sapp_nil_r s : s +:+ EmptyString = s.
Proof. induction s as [|c s IH]; [reflexivity|]. by rewrite sapp_cons, IH. Qed.

Lemma sapp_assoc s t u : (s +:+ t) +:+ u = s +:+ t +:+ u.
Proof. induction s as [|c s IH]; [reflexivity|]. by rewrite !sapp_cons, IH. Qed.

Lemma sapp_length s t : String.length (s +:+ t) = (String.length s + String.length t)%nat.
Proof. induction s as [|c s IH]; [reflexivity|]. rewrite sapp_cons. simpl. by rewrite IH. Qed.

Lemma sprefix_app p s : String.prefix p (p +:+ s) = true.
Proof.
  induction p as [|c p IH]; [by destruct s|].
  rewrite sapp_cons. simpl. by destruct (ascii_dec c c).
Qed.

Lemma sdrop_app p s : JsString.drop (String.length p) (p +:+ s) = s.
Proof. induction p as [|c p IH]; [by destruct s|]. by rewrite sapp_cons. Qed.

End StringFacts.

(** ** The template engine *)

Section Replace.

Import JsString.

Variable m : matcher.

(** Where the pattern does not occur, the text is left as it is. *)
Lemma replace_go_no_match r s :
  forall b, occurs m s = false -> replace_go m r O b s = s.
Proof.
  induction s as [|c s IH]; intros b H; [reflexivity|].
  cbn [replace_go]. cbn [occurs] in H.
  destruct (m (String c s)) as [[|n]|]; try done; by rewrite IH.
Qed.

Lemma replace_all_no_match r s : occurs m s = false -> replace_all m r s = s.
Proof. apply replace_go_no_match. Qed.

(** Text and pieces: a replacement by a constant function puts its
    value between the pieces. *)
Lemma replace_go_pieces v s :
  forall skip b,
    replace_go m (ByFunction (fun _ => v)) skip b s = glue v (pieces_go m skip s).
Proof.
  induction s as [|c s IH]; intros skip b; [by destruct skip|].
  cbn [replace_go pieces_go]. destruct skip as [|k]; [|apply IH].
  destruct (m (String c s)) as [[|n]|].
  - rewrite IH. by destruct (pieces_go m 0 s).
  - rewrite IH. cbn [substitution]. destruct (pieces_go m n s) as [p ps].
    unfold glue. cbn [fst snd foldr]. by rewrite sapp_nil_l.
  - rewrite IH. by destruct (pieces_go m 0 s).
Qed.



End Replace.


Lemma renderTemplate_unchanged values :
  forall template,
    Forall (fun kv => JsString.occurs (placeholder (fst kv)) template = false) values ->
    renderTemplate template values = template.
Proof.
  induction values as [|[k v] values IH]; intros template H; [reflexivity|].
  inversion H as [|? ? Hk Hrest]; subst. unfold renderTemplate. cbn [fold_left fst snd].
  rewrite replace_all_no_match by exact Hk. by apply IH.
Qed.



(** Had the value been passed to [replace] as a text, its dollar
  patterns would have been expanded. *)
Remark replacement_text_is_reinterpreted :
  JsString.replace_all (placeholder "body") (JsString.ByString "$& costs $$5")
    "<p>{{ body }}</p>"
  = "<p>{{ body }} costs $5</p>".
Proof. reflexivity. Qed.

(** C6: when the output of the first pass holds no placeholder of a key
  of the values map, a second pass changes nothing. *)
Theorem renderTemplate_idempotent :
  forall template values,
    Forall (fun kv => word_key (fst kv) = true) values ->
    Forall (fun kv =>
              JsString.occurs (placeholder (fst kv)) (renderTemplate template values) = false)
           values ->
    renderTemplate (renderTemplate template values) values
    = renderTemplate template values.
Proof. intros template values _ H. by apply renderTemplate_unchanged. Qed.

Lemma renderTemplate_idempotent_witness :
  let t := "<h1>{{ title }}</h1>{{body}}{{unknown}}" in
  let v := [("title", "Prices in $"); ("body", "<p>{ x }</p>")] in
  Forall (fun kv => word_key (fst kv) = true) v /\
  Forall (fun kv => JsString.occurs (placeholder (fst kv)) (renderTemplate t v) = false) v /\
  renderTemplate (renderTemplate t v) v = renderTemplate t v.
Proof.
  intros t v. split; [|split].
  - repeat constructor.
  - repeat constructor.
  - apply renderTemplate_idempotent; repeat constructor.
Defined.

(** Values without braces do not suffice: removing a placeholder can
  bring the text around it together into a new one. *)
Remark renderTemplate_second_pass_differs :
  renderTemplate "{{{{a}}a}}" [("a", EmptyString)] = "{{a}}" /\
  renderTemplate "{{a}}" [("a", EmptyString)] = EmptyString.
Proof. split; reflexivity. Qed.

(** ** The code-block renderer *)








(** ** Dates *)

Section Reversal.

Lemma srev_app_spec s : forall t, String.rev_app s t = String.rev s +:+ t.
Proof.
  induction s as [|c s IH]; intros t; [reflexivity|].
  unfold String.rev. cbn [String.rev_app]. rewrite (IH (String c t)), (IH (String c EmptyString)).
  by rewrite sapp_assoc.
Qed.

Lemma srev_cons c s : String.rev (String c s) = String.rev s +:+ String c EmptyString.
Proof. unfold String.rev at 1. cbn [String.rev_app]. apply srev_app_spec. Qed.

Lemma srev_app_distr s t : String.rev (s +:+ t) = String.rev t +:+ String.rev s.
Proof.
  induction s as [|c s IH]; [by rewrite sapp_nil_l, sapp_nil_r|].
  by rewrite sapp_cons, !srev_cons, IH, sapp_assoc.
Qed.

Lemma srev_involutive s : String.rev (String.rev s) = s.
Proof.
  induction s as [|c s IH]; [reflexivity|].
  by rewrite srev_cons, srev_app_distr, IH.
Qed.

(** A text that begins and ends with something other than white space
    is its own trimming. *)
Lemma trim_black c r x d :
  String c r = x +:+ String d EmptyString ->
  JsString.is_white c = false -> JsString.is_white d = false ->
  JsString.trim (String c r) = String c r.
Proof.
  intros E Hc Hd. unfold JsString.trim. cbn [JsString.skip_white]. rewrite Hc.
  rewrite E at 1. rewrite srev_app_distr. change (String.rev (String d EmptyString)) with (String d EmptyString).
  rewrite sapp_cons, sapp_nil_l. cbn [JsString.skip_white]. rewrite Hd.
  change (String d (String.rev x)) with (String.rev (String d EmptyString) +:+ String.rev x).
  by rewrite <- srev_app_distr, <- E, srev_involutive.
Qed.

End Reversal.

Lemma digit_black d : 0 <= d < 10 -> JsString.is_white (JsString.digit d) = false.
Proof.
  intros H.
  assert (d = 0 \/ d = 1 \/ d = 2 \/ d = 3 \/ d = 4 \/ d = 5 \/ d = 6 \/ d = 7 \/ d = 8 \/ d = 9)
    as Hd by lia.
  repeat (destruct Hd as [->|Hd]; [reflexivity|]). by subst.
Qed.

Lemma decimal_go_last f n :
  JsString.decimal_go (S f) n
  = (if n <? 10 then EmptyString else JsString.decimal_go f (n / 10))
    +:+ String (JsString.digit (n mod 10)) EmptyString.
Proof. reflexivity. Qed.

Lemma of_Z_last n :
  exists x, JsString.of_Z n = x +:+ String (JsString.digit (Z.abs n mod 10)) EmptyString.
Proof.
  unfold JsString.of_Z. change 22%nat with (S 21). rewrite !decimal_go_last.
  destruct (n <? 0) eqn:E.
  - apply Z.ltb_lt in E. replace (Z.abs n) with (- n) by lia.
    by eexists (String "-" _).
  - apply Z.ltb_ge in E. replace (Z.abs n) with n by lia. by eexists.
Qed.

Lemma sdrop_app_le k x y :
  (k <= String.length x)%nat -> JsString.drop k (x +:+ y) = JsString.drop k x +:+ y.
Proof.
  revert k. induction x as [|c x IH]; intros k H.
  - simpl in H. assert (k = 0%nat) as -> by lia. by destruct y.
  - destruct k as [|k]; [reflexivity|]. rewrite sapp_cons. cbn [JsString.drop].
    apply IH. simpl in H. lia.
Qed.

Lemma slice_last_2_last x c :
  exists x', JsString.slice_last 2 (x +:+ String c EmptyString) = x' +:+ String c EmptyString.
Proof.
  unfold JsString.slice_last. rewrite sapp_length. simpl String.length.
  eexists. apply sdrop_app_le. lia.
Qed.

(** From year 10 on the last two code units of the year are its two
    low-order digits. *)
Lemma slice_last_2_year y :
  10 <= y -> JsString.slice_last 2 (JsString.of_Z y) = two_digit_year y.
Proof.
  intros H. unfold JsString.of_Z.
  destruct (y <? 0) eqn:E; [apply Z.ltb_lt in E; lia|].
  change 22%nat with (S (S 20)). rewrite decimal_go_last.
  destruct (y <? 10) eqn:E10; [apply Z.ltb_lt in E10; lia|].
  rewrite decimal_go_last.
  set (pre := if y / 10 <? 10 then _ else _).
  rewrite sapp_assoc. unfold JsString.slice_last. rewrite sapp_length. simpl String.length.
  replace (String.length pre + 2 - 2)%nat with (String.length pre) by lia.
  apply sdrop_app.
Qed.

Lemma weekday_cases t :
  exists c r, name_at weekdays (DateUTC.getUTCDay t) = String c r
              /\ JsString.is_white c = false
              /\ weekdays !! Z.to_nat (DateUTC.getUTCDay t) = Some (String c r).
Proof.
  unfold DateUTC.getUTCDay.
  pose proof (Z.mod_pos_bound (DateUTC.Day t + 4) 7 ltac:(lia)) as H.
  set (i := (DateUTC.Day t + 4) mod 7) in *. clearbody i.
  assert (i = 0 \/ i = 1 \/ i = 2 \/ i = 3 \/ i = 4 \/ i = 5 \/ i = 6) as Hi by lia.
  repeat (destruct Hi as [->|Hi]; [by eexists _, _|]). subst. by eexists _, _.
Qed.

Lemma month_bounds z : 1 <= snd (fst (DateUTC.civil_from_days z)) <= 12.
Proof.
  unfold DateUTC.civil_from_days. cbn [fst snd].
  set (doe := (z + 719468) mod 146097).
  assert (Hdoe : 0 <= doe < 146097) by (apply Z.mod_pos_bound; lia).
  clearbody doe.
  set (yoe := (doe - doe / 1460 + doe / 36524 - doe / 146096) / 365).
  set (doy := doe - (365 * yoe + yoe / 4 - yoe / 100)).
  assert (Hdoy : 0 <= doy <= 365).
  { subst doy yoe. Z.div_mod_to_equations. lia. }
  set (mp := (5 * doy + 2) / 153).
  assert (0 <= mp <= 11) by (subst mp; Z.div_mod_to_equations; lia).
  destruct (mp <? 10) eqn:E; [apply Z.ltb_lt in E | apply Z.ltb_ge in E]; lia.
Qed.

Lemma month_cases t :
  exists mo, name_at months (DateUTC.getUTCMonth t) = mo
             /\ months !! Z.to_nat (DateUTC.getUTCMonth t) = Some mo.
Proof.
  unfold DateUTC.getUTCMonth.
  pose proof (month_bounds (DateUTC.Day t)) as H.
  set (m := snd (fst (DateUTC.civil_from_days (DateUTC.Day t)))) in *. clearbody m.
  assert (m = 1 \/ m = 2 \/ m = 3 \/ m = 4 \/ m = 5 \/ m = 6 \/ m = 7 \/ m = 8 \/ m = 9
          \/ m = 10 \/ m = 11 \/ m = 12) as Hm by lia.
  repeat (destruct Hm as [->|Hm]; [by eexists|]). subst. by eexists.
Qed.

(** The label of a time value: the trimming changes nothing. *)
Lemma date_label_spelled t :
  exists wd mo,
    weekdays !! Z.to_nat (DateUTC.getUTCDay t) = Some wd /\
    months !! Z.to_nat (DateUTC.getUTCMonth t) = Some mo /\
    date_label t
    = wd +:+ " " +:+ mo +:+ " " +:+ JsString.of_Z (DateUTC.getUTCDate t) +:+ " '"
      +:+ JsString.slice_last 2 (JsString.of_Z (DateUTC.getUTCFullYear t)).
Proof.
  destruct (weekday_cases t) as (c & r & Hwd & Hc & Hwd').
  destruct (month_cases t) as (mo & Hmo & Hmo').
  exists (String c r), mo. split; [done|]. split; [done|].
  unfold date_label. rewrite Hwd, Hmo.
  destruct (of_Z_last (DateUTC.getUTCFullYear t)) as [x Hx].
  destruct (slice_last_2_last x (JsString.digit (Z.abs (DateUTC.getUTCFullYear t) mod 10)))
    as [x' Hx'].
  rewrite Hx, Hx'. rewrite sapp_cons.
  eapply trim_black; [|exact Hc|apply digit_black, Z.mod_pos_bound; lia].
  rewrite <- sapp_cons. rewrite <- !sapp_assoc. reflexivity.
Qed.

(** C3 as the code has it: an absent date gives the empty label; a value
    with a time value is labelled with the weekday, the month, the day
    of the month and the last two code units of the year, all in UTC,
    which from year 10 on is the two-digit form, and 2025-12-28 gives
    [Sun Dec 28 '25]; a present value other than a [Date] object that
    gives no time value is returned as its text. *)
Theorem formatPostDate_label :
  forall h,
    (forall v, JsValue.truthy v = false -> formatPostDate h v = EmptyString) /\
    (forall v t,
       JsValue.truthy v = true -> JsValue.new_Date h v = Some t ->
       (exists wd mo,
          weekdays !! Z.to_nat (DateUTC.getUTCDay t) = Some wd /\
          months !! Z.to_nat (DateUTC.getUTCMonth t) = Some mo /\
          formatPostDate h v
          = wd +:+ " " +:+ mo +:+ " " +:+ JsString.of_Z (DateUTC.getUTCDate t) +:+ " '"
            +:+ JsString.slice_last 2 (JsString.of_Z (DateUTC.getUTCFullYear t))) /\
       (10 <= DateUTC.getUTCFullYear t -> formatPostDate h v = two_digit_label t)) /\
    (forall v,
       JsValue.truthy v = true -> (forall t, v <> JDate t) -> JsValue.new_Date h v = None ->
       formatPostDate h v = JsValue.ToString h v) /\
    (Date_parse h "2025-12-28" = Some 1766880000000 ->
     formatPostDate h (JStr "2025-12-28") = "Sun Dec 28 '25") /\
    formatPostDate h (JDate (Some 1766880000000)) = "Sun Dec 28 '25".
Proof.
  intros h.
  assert (Hlabel : forall v t, JsValue.truthy v = true -> JsValue.new_Date h v = Some t ->
                               formatPostDate h v = date_label t).
  { intros v t Hv Ht. unfold formatPostDate. rewrite Hv. cbn [negb].
    destruct v as [| |b|n| |s|[t'|]]; try discriminate Hv; try discriminate Ht.
    - by rewrite Ht.
    - by rewrite Ht.
    - by rewrite Ht.
    - cbn [JsValue.new_Date] in Ht. by injection Ht as ->. }
  split; [|split; [|split; [|split]]].
  - intros v Hv. unfold formatPostDate. by rewrite Hv.
  - intros v t Hv Ht. rewrite (Hlabel v t Hv Ht).
    destruct (date_label_spelled t) as (wd & mo & Hwd & Hmo & E).
    split; [by exists wd, mo|].
    intros Hy. rewrite E. unfold two_digit_label, name_at.
    pose proof (Z.mod_pos_bound (DateUTC.Day t + 4) 7 ltac:(lia)) as Hd.
    pose proof (month_bounds (DateUTC.Day t)) as Hm.
    fold (DateUTC.getUTCDay t) in Hd.
    destruct (DateUTC.getUTCDay t <? 0) eqn:E1; [apply Z.ltb_lt in E1; lia|].
    destruct (DateUTC.getUTCMonth t <? 0) eqn:E2;
      [apply Z.ltb_lt in E2; unfold DateUTC.getUTCMonth in E2; lia|].
    rewrite Hwd, Hmo. cbn [default]. by rewrite slice_last_2_year.
  - intros v Hv Hnd Ht. unfold formatPostDate. rewrite Hv. cbn [negb].
    destruct v; try (by rewrite Ht); try done. by destruct (Hnd t).
  - intros Hp. by rewrite (Hlabel (JStr "2025-12-28") _ eq_refl Hp).
  - reflexivity.
Qed.

Lemma formatPostDate_label_witness :
  JsValue.truthy (JStr "2025-12-28") = true /\
  JsValue.new_Date Fixture.host (JStr "2025-12-28") = Some 1766880000000 /\
  10 <= DateUTC.getUTCFullYear 1766880000000 /\
  formatPostDate Fixture.host (JStr "2025-12-28") = "Sun Dec 28 '25".
Proof.
  split; [reflexivity|]. split; [reflexivity|]. split; [by vm_compute|].
  exact (eq_trans
           (proj2 (proj1 (proj2 (formatPostDate_label Fixture.host))
                     (JStr "2025-12-28") 1766880000000 eq_refl eq_refl)
              ltac:(by vm_compute))
           eq_refl).
Defined.

(** C3 as stated fails in the first years of the era: the year 5 is
    labelled with one digit. *)
Lemma formatPostDate_one_digit_year :
  JsValue.new_Date Fixture.host (JStr "0005-01-01") = Some (-62009366400000) /\
  formatPostDate Fixture.host (JStr "0005-01-01") = "Sat Jan 1 '5" /\
  formatPostDate Fixture.host (JDate (Some (-62009366400000))) = "Sat Jan 1 '5" /\
  two_digit_label (-62009366400000) = "Sat Jan 1 '05" /\
  formatPostDate Fixture.host (JStr "0005-01-01") <> two_digit_label (-62009366400000).
Proof. repeat split; try reflexivity. by vm_compute. Qed.

(** ** The order of the index *)

Lemma StronglySorted_lookup {A} (R : relation A) (l : list A) :
  StronglySorted R l ->
  forall i j a b, l !! i = Some a -> l !! j = Some b -> (i < j)%nat -> R a b.
Proof.
  induction 1 as [|x l Hs IH Hx]; intros i j a b Ha Hb Hij; [done|].
  destruct j as [|j]; [lia|]. cbn in Hb. destruct i as [|i].
  - cbn in Ha. injection Ha as <-.
    rewrite Forall_forall in Hx. apply Hx. by eapply list_elem_of_lookup_2.
  - cbn in Ha. apply (IH i j); [done..|lia].
Qed.

Section IndexOrder.

Variable h : Host.

Lemma sort_insert_Permutation {A} (cmp : A -> A -> option Z) x l :
  Permutation (sort_insert cmp x l) (x :: l).
Proof.
  induction l as [|y l IH]; [done|]. cbn [sort_insert].
  destruct (SortCompare cmp x y <=? 0); [done|].
  rewrite IH. apply perm_swap.
Qed.

Lemma Array_sort_Permutation {A} (cmp : A -> A -> option Z) l :
  Permutation (Array_sort cmp l) l.
Proof.
  induction l as [|x l IH]; [done|]. unfold Array_sort in *. cbn [foldr].
  by rewrite sort_insert_Permutation, IH.
Qed.

(** On documents with time values the comparison is the order of the
    time values. *)
Lemma SortCompare_keys a b x y :
  sort_key h a = Some x -> sort_key h b = Some y ->
  SortCompare (by_date_descending h) a b = y - x.
Proof.
  unfold sort_key, SortCompare, by_date_descending. by intros -> ->.
Qed.

Lemma not_older_trans a b c : not_older h a b -> not_older h b c -> not_older h a c.
Proof.
  unfold not_older.
  destruct (sort_key h a), (sort_key h b), (sort_key h c); try done. lia.
Qed.

Lemma sort_insert_sorted x l :
  is_Some (sort_key h x) -> Forall (fun d => is_Some (sort_key h d)) l ->
  StronglySorted (not_older h) l ->
  StronglySorted (not_older h) (sort_insert (by_date_descending h) x l).
Proof.
  intros [kx Hx] Hl Hs. induction Hs as [|y l Hs IH Hy]; cbn [sort_insert].
  - repeat constructor.
  - apply Forall_cons in Hl as [[ky Hky] Hl].
    rewrite (SortCompare_keys x y kx ky Hx Hky).
    destruct (ky - kx <=? 0) eqn:E; [apply Z.leb_le in E | apply Z.leb_gt in E].
    + assert (Hxy : not_older h x y) by (unfold not_older; rewrite Hx, Hky; lia).
      constructor; [by constructor|]. constructor; [done|].
      eapply Forall_impl; [exact Hy|]. intros z Hz. by eapply not_older_trans.
    + constructor; [by apply IH|].
      rewrite sort_insert_Permutation. constructor; [|done].
      unfold not_older. rewrite Hx, Hky. lia.
Qed.

Lemma sortedPosts_sorted posts :
  Forall (fun d => is_Some (sort_key h d)) posts ->
  StronglySorted (not_older h) (sortedPosts h posts).
Proof.
  unfold sortedPosts, Array_sort. induction 1 as [|x l Hx Hl IH]; cbn [foldr].
  - constructor.
  - apply sort_insert_sorted; [done| |done].
    fold (Array_sort (by_date_descending h) l). by rewrite Array_sort_Permutation.
Qed.

Lemma sort_key_absent d : JsValue.truthy (date d) = false -> sort_key h d = Some 0.
Proof. unfold sort_key, JsValue.or. by intros ->. Qed.

End IndexOrder.

(** C1 as the code has it: when every date is absent or has a time
    value, the index lists the same posts, newest first, a post without
    a date taking the place of one dated 1 January 1970, 00:00 UTC: it
    comes after every post dated later than that. *)
Theorem sortedPosts_newest_first :
  forall h posts,
    Forall (fun d => is_Some (sort_key h d)) posts ->
    Permutation (sortedPosts h posts) posts /\
    StronglySorted (not_older h) (sortedPosts h posts) /\
    (forall d, JsValue.truthy (date d) = false -> sort_key h d = Some 0) /\
    (forall i j a b t,
       sortedPosts h posts !! i = Some a -> sortedPosts h posts !! j = Some b ->
       JsValue.truthy (date a) = false -> sort_key h b = Some t -> 0 < t ->
       (j < i)%nat).
Proof.
  intros h posts Hk. split; [apply Array_sort_Permutation|].
  split; [by apply sortedPosts_sorted|]. split; [apply sort_key_absent|].
  intros i j a b t Ha Hb Hda Hkb Ht.
  pose proof (sortedPosts_sorted h posts Hk) as Hs.
  pose proof (sort_key_absent h a Hda) as Hka.
  destruct (decide (j < i)%nat) as [|Hge]; [done|exfalso].
  destruct (decide (i = j)) as [->|Hne].
  - rewrite Ha in Hb. injection Hb as ->. rewrite Hka in Hkb. injection Hkb as <-. lia.
  - assert (Hlt : (i < j)%nat) by lia.
    pose proof (StronglySorted_lookup _ _ Hs i j a b Ha Hb Hlt) as Hab.
    unfold not_older in Hab. rewrite Hka, Hkb in Hab. lia.
Qed.

Lemma sortedPosts_newest_first_witness :
  let undated := Fixture.dated "undated" EmptyString in
  let d07 := Fixture.dated "second" "2025-01-07" in
  let d10 := Fixture.dated "first" "2025-01-10" in
  Forall (fun d => is_Some (sort_key Fixture.host d)) [undated; d07; d10] /\
  Permutation (sortedPosts Fixture.host [undated; d07; d10]) [undated; d07; d10] /\
  sortedPosts Fixture.host [undated; d07; d10] = [d10; d07; undated].
Proof.
  intros undated d07 d10.
  assert (H : Forall (fun d => is_Some (sort_key Fixture.host d)) [undated; d07; d10])
    by (repeat constructor; by eexists).
  split; [exact H|]. split; [|reflexivity].
  exact (proj1 (sortedPosts_newest_first Fixture.host [undated; d07; d10] H)).
Defined.

(** The order of the three documents of the specification, whatever
    order they are given in. *)
Example sortedPosts_three :
  let undated := Fixture.dated "undated" EmptyString in
  let d07 := Fixture.dated "second" "2025-01-07" in
  let d10 := Fixture.dated "first" "2025-01-10" in
  Forall (fun l => sortedPosts Fixture.host l = [d10; d07; undated])
    [[d10; d07; undated]; [d10; undated; d07]; [d07; d10; undated];
     [d07; undated; d10]; [undated; d10; d07]; [undated; d07; d10]].
Proof. repeat constructor. Qed.

(** C1 as stated fails for a post dated before 1970: the post without
    a date is listed before it. *)
Lemma sortedPosts_undated_before_old :
  let undated := Fixture.dated "undated" EmptyString in
  let old := Fixture.dated "moon" "1969-07-20" in
  has_parsed_date Fixture.host undated = false /\
  has_parsed_date Fixture.host old = true /\
  sortedPosts Fixture.host [old; undated] = [undated; old] /\
  ~ undated_after_dated Fixture.host (sortedPosts Fixture.host [old; undated]).
Proof.
  intros undated old. split; [reflexivity|]. split; [reflexivity|]. split; [reflexivity|].
  intros H. specialize (H 0%nat 1%nat undated old eq_refl eq_refl eq_refl eq_refl). lia.
Qed.

(** ** The document parser *)

Lemma matter_no_marker h content :
  has_frontmatter_marker content = false -> matter h content = Some (∅, content).
Proof. unfold has_frontmatter_marker, matter. by intros ->. Qed.

(** What [parseDocument] makes of the parts [matter] returns. *)
Lemma parseDocument_parts h filePath content data markdown st :
  files st !! filePath = Some (File content) ->
  matter h content = Some (data, markdown) ->
  parseDocument h filePath st
  = Some ({| title := JsValue.or (field data "title") (JStr "Untitled");
             subtitle := JsValue.or (field data "subtitle") (JStr EmptyString);
             description := JsValue.or (field data "description") (JStr EmptyString);
             date := JsValue.or (field data "date") (JStr EmptyString);
             template := JsValue.or (field data "template") (JStr "post");
             usesMath := JsValue.is_true (field data "uses_math");
             usesCode := JsValue.is_true (field data "uses_code");
             body := marked_parse h markdown;
             slug := Path.basename filePath ".md" |}, st).
Proof.
  intros Hf Hm. unfold parseDocument, bind, Fs.readFileSync, lift, ret.
  by rewrite Hf, Hm.
Qed.

(** C4: a file that does not open with the frontmatter marker is parsed
    to the document with every metadata field at its default, and its
    body is the conversion of the whole file. *)
Theorem parseDocument_defaults :
  forall h filePath content st,
    files st !! filePath = Some (File content) ->
    has_frontmatter_marker content = false ->
    parseDocument h filePath st = Some (default_document h filePath content, st).
Proof.
  intros h filePath content st Hf Hm.
  rewrite (parseDocument_parts h filePath content ∅ content st Hf (matter_no_marker h _ Hm)).
  reflexivity.
Qed.

Lemma parseDocument_defaults_witness :
  let st := {| files := Fixture.project; console := [] |} in
  files st !! "/site/writing/posts/notes.md" = Some (File "Just notes.") /\
  has_frontmatter_marker "Just notes." = false /\
  parseDocument Fixture.host "/site/writing/posts/notes.md" st
  = Some ({| title := JStr "Untitled"; subtitle := JStr EmptyString;
             description := JStr EmptyString; date := JStr EmptyString;
             template := JStr "post"; usesMath := false; usesCode := false;
             body := "<p>Just notes.</p>" +:+ newline; slug := "notes" |}, st).
Proof.
  intros st. split; [reflexivity|]. split; [reflexivity|].
  exact (parseDocument_defaults Fixture.host "/site/writing/posts/notes.md" "Just notes." st
           eq_refl eq_refl).
Defined.

Lemma is_true_iff v : JsValue.is_true v = true <-> v = JBool true.
Proof.
  split; [|by intros ->].
  destruct v as [| |[]| | | |]; by try discriminate.
Qed.

Lemma field_is_true data key :
  JsValue.is_true (field data key) = true <-> data !! key = Some (JBool true).
Proof.
  rewrite is_true_iff. unfold field.
  destruct (data !! key) as [v|]; simpl; split; intros H; congruence.
Qed.

(** C9: the flags are true exactly when the frontmatter holds the
    boolean [true] under [uses_math] and [uses_code]; the texts [true]
    and [yes], the number 1 and a missing key all give false. *)
Theorem parseDocument_flags :
  forall h filePath content data markdown st,
    files st !! filePath = Some (File content) ->
    matter h content = Some (data, markdown) ->
    exists doc,
      parseDocument h filePath st = Some (doc, st) /\
      (usesMath doc = true <-> data !! "uses_math" = Some (JBool true)) /\
      (usesCode doc = true <-> data !! "uses_code" = Some (JBool true)) /\
      (data !! "uses_math" ∈ [Some (JStr "true"); Some (JStr "yes"); Some (JNum 1); None] ->
       usesMath doc = false) /\
      (data !! "uses_code" ∈ [Some (JStr "true"); Some (JStr "yes"); Some (JNum 1); None] ->
       usesCode doc = false).
Proof.
  intros h filePath content data markdown st Hf Hm.
  eexists. split; [by eapply parseDocument_parts|]. cbn [usesMath usesCode].
  split; [apply field_is_true|]. split; [apply field_is_true|].
  unfold field. split; intros H; repeat (apply elem_of_cons in H as [->|H]; [done|]);
    by apply elem_of_nil in H.
Qed.

Lemma parseDocument_flags_witness :
  let st := {| files := Fixture.project; console := [] |} in
  exists content data markdown,
    files st !! "/site/writing/posts/hello-world.md" = Some (File content) /\
    matter Fixture.host content = Some (data, markdown) /\
    data !! "uses_math" = Some (JBool true) /\
    data !! "uses_code" = Some (JStr "yes") /\
    exists doc,
      parseDocument Fixture.host "/site/writing/posts/hello-world.md" st = Some (doc, st) /\
      usesMath doc = true /\ usesCode doc = false.
Proof.
  intros st. eexists _, _, _.
  split; [reflexivity|]. split; [reflexivity|]. split; [reflexivity|]. split; [reflexivity|].
  destruct (parseDocument_flags Fixture.host "/site/writing/posts/hello-world.md" _ _ _ st
              eq_refl eq_refl) as (doc & Hp & Hm & _ & _ & Hc).
  exists doc. split; [exact Hp|]. split.
  - apply Hm. reflexivity.
  - apply Hc. apply elem_of_cons. right. apply elem_of_cons. left. reflexivity.
Defined.

(** ** Paths *)

Section PathFacts.

Import Path.

Lemma ordinary_inv s :
  ordinary s = true ->
  s <> EmptyString /\ s <> "." /\ s <> ".." /\ has_slash s = false.
Proof.
  unfold ordinary. rewrite !andb_true_iff, !negb_true_iff, !String.eqb_neq. tauto.
Qed.

Lemma segments_nonempty p : segments p <> [].
Proof.
  destruct p as [|c p]; [done|]. cbn [segments].
  destruct (Ascii.eqb c slash); [done|]. by destruct (segments p).
Qed.

Lemma segments_no_slash s : has_slash s = false -> segments s = [s].
Proof.
  induction s as [|c s IH]; [done|]. cbn [has_slash segments].
  intros [Hc Hs]%orb_false_iff. rewrite Hc, (IH Hs). reflexivity.
Qed.

Lemma segments_app_slash a b :
  segments (a +:+ "/" +:+ b) = segments a ++ segments b.
Proof.
  induction a as [|c a IH]; [reflexivity|].
  rewrite sapp_cons. cbn [segments]. rewrite IH.
  destruct (Ascii.eqb c slash); [reflexivity|].
  pose proof (segments_nonempty a). by destruct (segments a).
Qed.

Lemma segments_slash_free p : Forall (fun s => has_slash s = false) (segments p).
Proof.
  induction p as [|c p IH]; [by repeat constructor|]. cbn [segments].
  destruct (Ascii.eqb c slash) eqn:E; [by constructor|].
  destruct (segments p) as [|x l]; [by repeat constructor; cbn; rewrite E|].
  apply Forall_cons in IH as [Hx Hl]. constructor; [|done]. cbn. by rewrite E, Hx.
Qed.

Lemma join_cons2 sep x y l :
  JsString.join sep (x :: y :: l) = x +:+ sep +:+ JsString.join sep (y :: l).
Proof. reflexivity. Qed.

Lemma join_app sep l1 l2 :
  l1 <> [] -> l2 <> [] ->
  JsString.join sep (l1 ++ l2) = JsString.join sep l1 +:+ sep +:+ JsString.join sep l2.
Proof.
  intros H1 H2. induction l1 as [|x l1 IH]; [done|].
  destruct l1 as [|y l1].
  - destruct l2; [done|reflexivity].
  - change ((x :: y :: l1) ++ l2) with (x :: y :: (l1 ++ l2)).
    rewrite !join_cons2. change (y :: l1 ++ l2) with ((y :: l1) ++ l2).
    rewrite IH by done. by rewrite !sapp_assoc.
Qed.

Lemma segments_join l :
  l <> [] -> Forall (fun s => ordinary s = true) l -> segments (JsString.join "/" l) = l.
Proof.
  intros Hne Hl. induction Hl as [|x l Hx Hl IH]; [done|].
  apply ordinary_inv in Hx as (_ & _ & _ & Hx).
  destruct l as [|y l]; [by apply segments_no_slash|].
  rewrite join_cons2, segments_app_slash, IH by done. by rewrite segments_no_slash.
Qed.

Lemma segments_abs l :
  Forall (fun s => ordinary s = true) l ->
  segments (abs l) = EmptyString :: (if l is [] then [EmptyString] else l).
Proof.
  intros Hl. unfold abs. change ("/" +:+ JsString.join "/" l)
    with (EmptyString +:+ "/" +:+ JsString.join "/" l).
  rewrite segments_app_slash. destruct l as [|x l]; [reflexivity|].
  by rewrite segments_join.
Qed.

Lemma resolve_ordinary b l :
  Forall (fun s => ordinary s = true) l ->
  forall st rest, resolve b st (l ++ rest) = resolve b (rev l ++ st) rest.
Proof.
  induction 1 as [|x l Hx Hl IH]; intros st rest; [reflexivity|].
  apply ordinary_inv in Hx as (H1 & H2 & H3 & _).
  cbn [app resolve]. apply String.eqb_neq in H1, H2, H3. rewrite H1, H2, H3. cbn [orb].
  rewrite IH. cbn [rev]. by rewrite <- List.app_assoc.
Qed.

Lemma resolve_clean st segs :
  Forall (fun s => ordinary s = true) st ->
  Forall (fun s => has_slash s = false) segs ->
  Forall (fun s => ordinary s = true) (resolve false st segs).
Proof.
  intros Hst Hsegs. revert st Hst.
  induction Hsegs as [|seg segs Hseg Hsegs IH]; intros st Hst.
  - cbn [resolve]. by apply Forall_rev.
  - cbn [resolve].
    destruct (String.eqb seg EmptyString) eqn:E1; [by apply IH|].
    destruct (String.eqb seg ".") eqn:E2; [by apply IH|]. cbn [orb].
    destruct (String.eqb seg "..") eqn:E3.
    + destruct st as [|top st]; [by apply IH|].
      apply Forall_cons in Hst as [Htop Hst].
      apply ordinary_inv in Htop as (_ & _ & Htop & _).
      apply String.eqb_neq in Htop. rewrite Htop. by apply IH.
    + apply IH. constructor; [|done]. unfold ordinary. by rewrite E1, E2, E3, Hseg.
Qed.

Lemma join_not_empty l :
  l <> [] -> Forall (fun s => ordinary s = true) l -> JsString.join "/" l <> EmptyString.
Proof.
  intros Hne Hl. destruct Hl as [|x l Hx Hl]; [done|].
  apply ordinary_inv in Hx as (Hx & _). destruct x as [|c x]; [done|].
  destruct l; [done|]. by rewrite join_cons2, sapp_cons.
Qed.

(** The normal form of an absolute path: the separator, the resolved
    segments and perhaps a trailing separator. *)
Lemma normalize_absolute p :
  isAbsolute p = true ->
  exists t,
    normalize p = "/" +:+ JsString.join "/" (resolve false [] (segments p)) +:+ t /\
    (t = EmptyString \/ t = "/").
Proof.
  intros Habs. unfold normalize. rewrite Habs. cbn [negb].
  destruct p as [|c p]; [done|]. cbn [String.eqb].
  set (r := JsString.join "/" _).
  destruct (String.eqb_spec r EmptyString) as [->|Hr].
  - exists EmptyString. by split; [|left].
  - destruct (JsString.endsWith (String c p) "/").
    + exists "/". by split; [|right].
    + exists EmptyString. rewrite sapp_nil_r. by split; [|left].
Qed.

Lemma has_slash_app a b : has_slash (a +:+ b) = (has_slash a || has_slash b)%bool.
Proof.
  induction a as [|c a IH]; [reflexivity|].
  rewrite sapp_cons. cbn [has_slash]. by rewrite IH, orb_assoc.
Qed.

Lemma has_slash_rev s : has_slash (String.rev s) = has_slash s.
Proof.
  induction s as [|c s IH]; [reflexivity|].
  rewrite srev_cons, has_slash_app, IH. cbn [has_slash]. by rewrite orb_false_r, orb_comm.
Qed.

(** A path whose last segment is a name does not end with a separator. *)
Lemma endsWith_name x s :
  ordinary s = true -> JsString.endsWith (x +:+ s) "/" = false.
Proof.
  intros (Hne & _ & _ & Hs)%ordinary_inv. unfold JsString.endsWith.
  rewrite srev_app_distr. rewrite <- has_slash_rev in Hs.
  destruct (String.rev s) as [|c r] eqn:E.
  - apply (f_equal String.rev) in E. rewrite srev_involutive in E. by subst.
  - cbn [has_slash] in Hs. apply orb_false_iff in Hs as [Hc _].
    rewrite sapp_cons. change (String.rev "/") with "/". cbn [String.prefix].
    destruct (ascii_dec "/" c) as [<-|]; [done|reflexivity].
Qed.

Lemma join_last l :
  l <> [] -> Forall (fun s => ordinary s = true) l ->
  exists y x, JsString.join "/" l = y +:+ x /\ ordinary x = true.
Proof.
  intros Hne Hl. induction Hl as [|x l Hx Hl IH]; [done|].
  destruct l as [|z l]; [by exists EmptyString, x|].
  destruct IH as (y & w & E & Hw); [done|].
  exists (x +:+ "/" +:+ y), w. split; [|done]. by rewrite join_cons2, E, !sapp_assoc.
Qed.

Lemma filter_nonempty l :
  Forall (fun s => s <> EmptyString) l -> filter (fun a => a <> EmptyString) l = l.
Proof.
  induction 1 as [|x l Hx Hl IH]; [reflexivity|].
  rewrite filter_cons_True by done. by rewrite IH.
Qed.

Lemma abs_not_empty l : abs l <> EmptyString.
Proof. unfold abs. by rewrite sapp_cons. Qed.

Lemma isAbsolute_abs l s : isAbsolute (abs l +:+ s) = true.
Proof. unfold isAbsolute, JsString.startsWith, abs. rewrite sapp_assoc. apply sprefix_app. Qed.

Lemma resolve_abs_prefix l t :
  Forall (fun s => ordinary s = true) l ->
  resolve false [] (segments (abs l) ++ t) = resolve false (rev l) t.
Proof.
  intros Hl. rewrite segments_abs by done. destruct l as [|x l]; [reflexivity|].
  change ((EmptyString :: x :: l) ++ t) with (EmptyString :: ((x :: l) ++ t)).
  cbn [resolve String.eqb orb]. rewrite (resolve_ordinary false (x :: l) Hl).
  by rewrite List.app_nil_r.
Qed.

(** Joining names to a normal absolute path appends them. *)
Lemma join_abs l ss :
  Forall (fun s => ordinary s = true) l -> Forall (fun s => ordinary s = true) ss ->
  join (abs l :: ss) = abs (l ++ ss).
Proof.
  intros Hl Hss.
  destruct (decide (l ++ ss = [])) as [E|Hne].
  { apply app_eq_nil in E as [-> ->]. reflexivity. }
  assert (Hall : Forall (fun s => ordinary s = true) (l ++ ss)) by by apply Forall_app.
  unfold join. rewrite filter_nonempty.
  2:{ constructor; [apply abs_not_empty|].
      eapply Forall_impl; [exact Hss|]. by intros s (? & _)%ordinary_inv. }
  set (P := JsString.join "/" (abs l :: ss)).
  assert (Habs : isAbsolute P = true).
  { subst P. destruct ss as [|s ss];
      [cbn [JsString.join]; rewrite <- (sapp_nil_r (abs l)) | rewrite join_cons2];
      apply isAbsolute_abs. }
  assert (Hsegs : resolve false [] (segments P) = l ++ ss).
  { subst P. destruct ss as [|s ss].
    - cbn [JsString.join]. rewrite <- (List.app_nil_r (segments (abs l))).
      rewrite resolve_abs_prefix by done. cbn [resolve].
      by rewrite rev_involutive, List.app_nil_r.
    - rewrite join_cons2, segments_app_slash, segments_join by done.
      rewrite resolve_abs_prefix by done. rewrite <- (List.app_nil_r (s :: ss)) at 1.
      rewrite (resolve_ordinary false (s :: ss) Hss). cbn [resolve].
      by rewrite rev_app_distr, !rev_involutive. }
  assert (Hend : JsString.endsWith P "/" = false).
  { subst P. destruct ss as [|s ss].
    - cbn [JsString.join]. rewrite List.app_nil_r in Hne.
      destruct (join_last l Hne Hl) as (y & x & E & Hx).
      unfold abs. rewrite E, <- sapp_assoc. by apply endsWith_name.
    - rewrite join_cons2. destruct (join_last (s :: ss) ltac:(done) Hss) as (y & x & E & Hx).
      rewrite E, <- !sapp_assoc. by apply endsWith_name. }
  unfold normalize. rewrite Habs, Hend. cbn [negb]. rewrite Hsegs.
  destruct (String.eqb_spec P EmptyString) as [E|_].
  { rewrite E in Habs. done. }
  destruct (String.eqb_spec (JsString.join "/" (l ++ ss)) EmptyString) as [E|_]; [|reflexivity].
  by apply join_not_empty in E.
Qed.

Lemma abs_inj l1 l2 :
  Forall (fun s => ordinary s = true) l1 -> Forall (fun s => ordinary s = true) l2 ->
  abs l1 = abs l2 -> l1 = l2.
Proof.
  intros H1 H2 E. apply (f_equal segments) in E. rewrite !segments_abs in E by done.
  destruct l1 as [|x l1], l2 as [|y l2]; try done.
  - injection E as <- ->. by apply Forall_cons in H2 as [? _].
  - injection E as -> ->. by apply Forall_cons in H1 as [? _].
  - by injection E as -> ->.
Qed.

Lemma dirname_abs l x :
  Forall (fun s => ordinary s = true) l -> ordinary x = true ->
  dirname (abs (l ++ [x])) = abs l.
Proof.
  intros Hl Hx. unfold dirname.
  rewrite segments_abs by (apply Forall_app; by repeat constructor).
  destruct (l ++ [x]) as [|z zs] eqn:E; [by destruct l|]. rewrite <- E. clear E z zs.
  change (EmptyString :: l ++ [x]) with ((EmptyString :: l) ++ [x]).
  rewrite rev_app_distr. change (rev [x] ++ rev (EmptyString :: l)) with (x :: rev (EmptyString :: l)).
  destruct l as [|y l]; [reflexivity|].
  remember (rev (EmptyString :: y :: l)) as u eqn:E.
  destruct u as [|a [|b up]].
  - apply (f_equal (@List.length _)) in E. by rewrite length_rev in E.
  - apply (f_equal (@List.length _)) in E. by rewrite length_rev in E.
  - rewrite E, rev_involutive. reflexivity.
Qed.

Lemma last_segment_abs l x :
  Forall (fun s => ordinary s = true) l -> ordinary x = true ->
  last_segment (abs (l ++ [x])) = x.
Proof.
  intros Hl Hx. unfold last_segment.
  rewrite segments_abs by (apply Forall_app; by repeat constructor).
  destruct (l ++ [x]) as [|z zs] eqn:E; [by destruct l|]. rewrite <- E. clear E z zs.
  change (EmptyString :: l ++ [x]) with ((EmptyString :: l) ++ [x]).
  rewrite rev_app_distr. change (rev [x] ++ rev (EmptyString :: l)) with (x :: rev (EmptyString :: l)).
  apply ordinary_inv in Hx as (Hx & _). by rewrite filter_cons_True.
Qed.

Lemma take_app s t : JsString.take (String.length s) (s +:+ t) = s.
Proof.
  induction s as [|c s IH]; [by destruct t|].
  rewrite sapp_cons. cbn [String.length JsString.take]. by rewrite IH.
Qed.

(** The slug of a post file: its name without the extension. *)
Lemma basename_md l s :
  Forall (fun x => ordinary x = true) l -> ordinary (s +:+ ".md") = true ->
  s <> EmptyString ->
  basename (abs (l ++ [s +:+ ".md"])) ".md" = s.
Proof.
  intros Hl Hf Hs. unfold basename. rewrite last_segment_abs by done.
  destruct (String.eqb_spec (abs (l ++ [s +:+ ".md"])) ".md") as [E|_].
  { unfold abs in E. by rewrite sapp_cons in E. }
  unfold JsString.endsWith. rewrite srev_app_distr.
  change (String.rev ".md") with "dm.". rewrite sprefix_app. cbn [andb].
  rewrite sapp_length. cbn [String.length].
  destruct (Nat.ltb_spec 3 (String.length s + 3)) as [_|Hlen].
  - replace (String.length s + 3 - 3)%nat with (String.length s) by lia. apply take_app.
  - destruct s; [done|]. cbn [String.length] in Hlen. lia.
Qed.

Example slug_hello_world :
  basename (Path.join ["/site/writing/posts"; "hello-world.md"]) ".md" = "hello-world".
Proof. reflexivity. Qed.

End PathFacts.

(** ** The preview server *)

Section ServerFacts.

Import Path.

Variable root : list string.
Hypothesis root_ordinary : Forall (fun s => ordinary s = true) root.

Lemma served_dir_abs : Serve.PUBLIC_DIR root = abs (root ++ ["public"]).
Proof. unfold Serve.PUBLIC_DIR. apply join_abs; [done|by repeat constructor]. Qed.

Lemma served_ordinary : Forall (fun s => ordinary s = true) (root ++ ["public"]).
Proof. apply Forall_app. split; [done|by repeat constructor]. Qed.

Lemma strip_dotdots_slash s : Serve.strip_dotdots (String "/" s) = String "/" s.
Proof. by destruct s as [|b [|c s]]. Qed.

Lemma join_two a b :
  a <> EmptyString -> b <> EmptyString -> join [a; b] = normalize (a +:+ "/" +:+ b).
Proof. intros Ha Hb. unfold join. rewrite filter_nonempty by by repeat constructor. done. Qed.

Lemma resolve_normal_form st clean t :
  Forall (fun s => ordinary s = true) clean -> t = EmptyString \/ t = "/" ->
  resolve false st (segments ("/" +:+ JsString.join "/" clean +:+ t)) = rev st ++ clean.
Proof.
  intros Hc Ht.
  change ("/" +:+ JsString.join "/" clean +:+ t)
    with (EmptyString +:+ "/" +:+ (JsString.join "/" clean +:+ t)).
  rewrite segments_app_slash. cbn [segments app resolve String.eqb orb].
  assert (E : exists z, segments (JsString.join "/" clean +:+ t) = clean ++ z
                        /\ (z = [] \/ z = [EmptyString] \/ z = [EmptyString; EmptyString])).
  { destruct Ht as [-> | ->].
    - rewrite sapp_nil_r. destruct clean as [|x clean]; [exists [EmptyString]; tauto|].
      exists []. rewrite segments_join by done. by rewrite List.app_nil_r; auto.
    - change (JsString.join "/" clean +:+ "/")
        with (JsString.join "/" clean +:+ "/" +:+ EmptyString).
      rewrite segments_app_slash. destruct clean as [|x clean].
      + exists [EmptyString; EmptyString]. tauto.
      + exists [EmptyString]. rewrite segments_join by done. tauto. }
  destruct E as (z & -> & Hz). rewrite (resolve_ordinary false clean Hc).
  rewrite <- (rev_involutive clean) at 2. rewrite <- rev_app_distr.
  destruct Hz as [-> | [-> | ->]]; reflexivity.
Qed.

(** The file of a request whose path begins with a separator lies in
    the served directory. *)
Lemma requestedFile_absolute pathname :
  isAbsolute pathname = true ->
  JsString.startsWith (Serve.requestedFile root pathname) (Serve.PUBLIC_DIR root) = true.
Proof.
  intros Habs. unfold Serve.requestedFile.
  set (p := if String.eqb pathname "/" then "/index.html" else pathname).
  assert (Hp : isAbsolute p = true) by (subst p; by destruct (String.eqb pathname "/")).
  destruct (normalize_absolute p Hp) as (t & Hn & Ht).
  set (clean := resolve false [] (segments p)) in *.
  assert (Hclean : Forall (fun s => ordinary s = true) clean)
    by (apply resolve_clean; [constructor | apply segments_slash_free]).
  rewrite Hn. change ("/" +:+ JsString.join "/" clean +:+ t)
    with (String "/" (JsString.join "/" clean +:+ t)) at 1.
  rewrite strip_dotdots_slash. rewrite served_dir_abs.
  rewrite join_two; [|apply abs_not_empty|done].
  destruct (normalize_absolute _ (isAbsolute_abs (root ++ ["public"])
                                    ("/" +:+ String "/" (JsString.join "/" clean +:+ t))))
    as (t' & -> & Ht').
  rewrite segments_app_slash, resolve_abs_prefix by apply served_ordinary.
  change (String "/" (JsString.join "/" clean +:+ t))
    with ("/" +:+ JsString.join "/" clean +:+ t).
  rewrite resolve_normal_form, rev_involutive by done.
  unfold JsString.startsWith, abs.
  destruct clean as [|x clean].
  - rewrite List.app_nil_r, <- sapp_assoc. apply sprefix_app.
  - rewrite (join_app "/" (root ++ ["public"]) (x :: clean));
      [|by intros [_ ?]%app_eq_nil|done].
    set (J := JsString.join "/" (root ++ ["public"])).
    set (K := JsString.join "/" (x :: clean)).
    replace ("/" +:+ (J +:+ "/" +:+ K) +:+ t') with (("/" +:+ J) +:+ "/" +:+ K +:+ t')
      by (by rewrite !sapp_assoc).
    apply sprefix_app.
Qed.

Lemma handleRequest_status sfs pathname :
  Serve.status (Serve.handleRequest root sfs pathname) = 403
  <-> JsString.startsWith (Serve.requestedFile root pathname) (Serve.PUBLIC_DIR root) = false.
Proof.
  unfold Serve.handleRequest.
  destruct (JsString.startsWith (Serve.requestedFile root pathname) (Serve.PUBLIC_DIR root)); cbn [negb].
  - split; [|done]. by destruct (Serve.readFile sfs _).
  - done.
Qed.

End ServerFacts.

(** C8 as the code has it: the answer is 403 exactly when the file the
    request is mapped to, after the path is normalised and its leading
    [../] run is removed, does not begin with the served directory.
    A path that begins with a separator is always mapped into the
    served directory, whatever traversal it holds, and is never
    answered with 403. *)
Theorem handleRequest_forbidden :
  forall root sfs pathname,
    Forall (fun s => Path.ordinary s = true) root ->
    (Serve.status (Serve.handleRequest root sfs pathname) = 403
     <-> JsString.startsWith (Serve.requestedFile root pathname) (Serve.PUBLIC_DIR root) = false) /\
    (Path.isAbsolute pathname = true ->
     JsString.startsWith (Serve.requestedFile root pathname) (Serve.PUBLIC_DIR root) = true /\
     Serve.status (Serve.handleRequest root sfs pathname) <> 403).
Proof.
  intros root sfs pathname Hroot. split; [apply handleRequest_status|].
  intros Habs. pose proof (requestedFile_absolute root Hroot pathname Habs) as H.
  split; [done|]. rewrite handleRequest_status. by rewrite H.
Qed.

Lemma handleRequest_forbidden_witness :
  Forall (fun s => Path.ordinary s = true) ["site"] /\
  Path.isAbsolute "/posts/../../secret.txt" = true /\
  Serve.requestedFile ["site"] "/posts/../../secret.txt" = "/site/public/secret.txt" /\
  Serve.status (Serve.handleRequest ["site"] Fixture.empty_site "/posts/../../secret.txt") <> 403 /\
  Serve.status (Serve.handleRequest ["site"] Fixture.empty_site "..") = 403.
Proof.
  assert (H : Forall (fun s => Path.ordinary s = true) ["site"]) by by repeat constructor.
  split; [exact H|]. split; [reflexivity|]. split; [reflexivity|]. split.
  - exact (proj2 (proj2 (handleRequest_forbidden ["site"] Fixture.empty_site
                           "/posts/../../secret.txt" H) eq_refl)).
  - apply (proj1 (handleRequest_forbidden ["site"] Fixture.empty_site ".." H)). reflexivity.
Defined.

(** C8 as stated fails: a request for [/../../etc/passwd], which joined
    to the served directory as it is would leave it, is mapped into the
    served directory and answered with 404. *)
Lemma handleRequest_traversal_not_forbidden :
  escapes_served_dir ["site"] "/../../etc/passwd" = true /\
  Serve.requestedFile ["site"] "/../../etc/passwd" = "/site/public/etc/passwd" /\
  Serve.status (Serve.handleRequest ["site"] Fixture.empty_site "/../../etc/passwd") = 404 /\
  Serve.status (Serve.handleRequest ["site"] Fixture.empty_site "/../../etc/passwd") <> 403.
Proof. repeat split; try reflexivity. by vm_compute. Qed.

(** ** The build *)

Section Steps.

Lemma bind_Some {A B} (m : M A) (f : A -> M B) st r :
  bind m f st = Some r <-> exists a st1, m st = Some (a, st1) /\ f a st1 = Some r.
Proof.
  unfold bind. split.
  - destruct (m st) as [[a st1]|]; [|done]. intros H. by exists a, st1.
  - by intros (a & st1 & -> & H).
Qed.

Lemma read_only_ret {A} (a : A) : read_only (ret a).
Proof. intros st b st' H. by injection H as _ <-. Qed.

Lemma read_only_lift {A} (o : option A) : read_only (lift o).
Proof. intros st b st' H. unfold lift in H. destruct o; [by injection H as _ <-|done]. Qed.

Lemma read_only_bind {A B} (m : M A) (f : A -> M B) :
  read_only m -> (forall a, read_only (f a)) -> read_only (bind m f).
Proof.
  intros Hm Hf st b st' (a & st1 & H1 & H2)%bind_Some.
  apply Hm in H1 as ->. by apply Hf in H2.
Qed.

Lemma read_only_existsSync p : read_only (Fs.existsSync p).
Proof. intros st b st' H. by injection H as _ <-. Qed.

Lemma read_only_readFileSync p : read_only (Fs.readFileSync p).
Proof.
  intros st b st' H. unfold Fs.readFileSync in H.
  destruct (files st !! p) as [[c|]|]; [by injection H as _ <-|done..].
Qed.

Lemma read_only_readdirSync p : read_only (Fs.readdirSync p).
Proof.
  intros st b st' H. unfold Fs.readdirSync in H.
  destruct (Fs.is_dir (files st) p); [by injection H as _ <-|done].
Qed.

End Steps.

Ltac read_only_step :=
  first
    [ apply read_only_ret
    | apply read_only_lift
    | apply read_only_existsSync
    | apply read_only_readFileSync
    | apply read_only_readdirSync
    | apply read_only_bind; [|intros ?]
    | match goal with
      | |- read_only (match ?x with _ => _ end) => destruct x
      end ].

Section BuildFacts.

Import Path.

Variable h : Host.
Variable root : list string.
Hypothesis root_ordinary : Forall (fun s => ordinary s = true) root.

Lemma read_only_parseDocument filePath : read_only (parseDocument h filePath).
Proof. unfold parseDocument. repeat read_only_step. Qed.

Lemma read_only_loadTemplate name : read_only (loadTemplate root name).
Proof. unfold loadTemplate. read_only_step. Qed.

Lemma read_only_renderPost d : read_only (renderPost h root d).
Proof. unfold renderPost. repeat first [apply read_only_loadTemplate | read_only_step]. Qed.

Lemma read_only_renderIndex posts : read_only (renderIndex h root posts).
Proof.
  unfold renderIndex.
  repeat first [apply read_only_loadTemplate | apply read_only_parseDocument | read_only_step].
Qed.

Lemma read_only_renderAbout : read_only (renderAbout h root).
Proof.
  unfold renderAbout.
  repeat first [apply read_only_loadTemplate | apply read_only_parseDocument | read_only_step].
Qed.

Lemma read_only_render404 : read_only (render404 root).
Proof. unfold render404. repeat first [apply read_only_loadTemplate | read_only_step]. Qed.

Lemma read_only_getFilesWithExtension dir ext : read_only (getFilesWithExtension dir ext).
Proof. unfold getFilesWithExtension. repeat read_only_step. Qed.

Lemma read_only_mapM_parseDocument l : read_only (mapM (parseDocument h) l).
Proof.
  induction l as [|f l IH]; cbn [mapM]; [apply read_only_ret|].
  apply read_only_bind; [apply read_only_parseDocument|intros d].
  apply read_only_bind; [exact IH|intros ds]. apply read_only_ret.
Qed.

(** The slug of a parsed document is the name of its file without the
    extension. *)
Lemma parseDocument_slug filePath st d st' :
  parseDocument h filePath st = Some (d, st') -> slug d = basename filePath ".md".
Proof.
  unfold parseDocument.
  intros (content & st1 & _ & (parsed & st2 & _ & H)%bind_Some)%bind_Some.
  destruct parsed as [data markdown]. by injection H as <- _.
Qed.

Lemma mapM_parseDocument_slug l :
  forall st posts st',
    mapM (parseDocument h) l st = Some (posts, st') ->
    map slug posts = map (fun f => basename f ".md") l.
Proof.
  induction l as [|f l IH]; intros st posts st'; cbn [mapM].
  - intros H. by injection H as <- _.
  - intros (d & st1 & Hd & (ds & st2 & Hds & H)%bind_Some)%bind_Some.
    injection H as <- _. cbn [map]. f_equal; [by eapply parseDocument_slug|by eapply IH].
Qed.

(** *** What the steps put on the console *)








(** *** The paths of the build *)

Lemma join_under l ss :
  Forall (fun s => ordinary s = true) l -> Forall (fun s => ordinary s = true) ss ->
  join (abs (root ++ l) :: ss) = abs (root ++ l ++ ss).
Proof.
  intros Hl Hss. rewrite join_abs; [by rewrite <- List.app_assoc| |done].
  by apply Forall_app.
Qed.

Lemma PUBLIC_DIR_abs : PUBLIC_DIR root = abs (root ++ ["public"]).
Proof. unfold PUBLIC_DIR, PROJECT_ROOT. apply join_abs; [done|by repeat constructor]. Qed.

Lemma THEME_DIR_abs : THEME_DIR root = abs (root ++ ["theme"]).
Proof. unfold THEME_DIR, PROJECT_ROOT. apply join_abs; [done|by repeat constructor]. Qed.

Lemma WRITING_DIR_abs : WRITING_DIR root = abs (root ++ ["writing"]).
Proof. unfold WRITING_DIR, PROJECT_ROOT. apply join_abs; [done|by repeat constructor]. Qed.

Lemma public_file n :
  ordinary n = true -> join [PUBLIC_DIR root; n] = abs (root ++ ["public"; n]).
Proof. intros Hn. rewrite PUBLIC_DIR_abs. apply join_under; by repeat constructor. Qed.



Lemma under_root_ne l1 l2 :
  Forall (fun s => ordinary s = true) l1 -> Forall (fun s => ordinary s = true) l2 ->
  l1 <> l2 -> abs (root ++ l1) <> abs (root ++ l2).
Proof.
  intros H1 H2 Hne E. apply abs_inj in E; [|by apply Forall_app..].
  by apply app_inv_head in E.
Qed.

End BuildFacts.



(** The pages of the example project: the post [hello-world.md] goes
    to [posts/hello-world/index.html]. *)
Example buildSite_example_targets :
  option_map (fun r => map target (console (snd r)))
    (buildSite Fixture.host ["site"] {| files := Fixture.project; console := [] |})
  = Some ["/site/public/posts/notes/index.html"; "/site/public/posts/hello-world/index.html";
          "/site/public/index.html"; "/site/public/about.html"; "/site/public/404.html";
          "/site/public/styles.css"; "/site/public/script.js"; "/site/public/favicon.svg"].
Proof. vm_compute. reflexivity. Qed.

(** ** A build without posts *)

Ltac names H :=
  repeat (apply elem_of_cons in H as [->|H]; [|]); [..|by apply elem_of_nil in H].

Section Completion.

Import Path.

Variable h : Host.
Variable root : list string.
Hypothesis root_ordinary : Forall (fun s => ordinary s = true) root.

Lemma bind_step {A B} (m : M A) (f : A -> M B) st a st1 r :
  m st = Some (a, st1) -> f a st1 = r -> bind m f st = r.
Proof. unfold bind. by intros -> <-. Qed.

(** An entry under [public] is no entry under [theme] or [writing]. *)
Lemma lookup_insert_public l v l2 (fs : gmap string node) :
  Forall (fun s => ordinary s = true) l -> Forall (fun s => ordinary s = true) l2 ->
  "public" :: l <> l2 ->
  <[abs (root ++ "public" :: l) := v]> fs !! abs (root ++ l2) = fs !! abs (root ++ l2).
Proof.
  intros Hl Hl2 Hne. apply lookup_insert_ne.
  apply under_root_ne; [done|by constructor|done|done].
Qed.

Lemma sources_ready_insert l v fs :
  Forall (fun s => ordinary s = true) l ->
  sources_ready h root fs -> sources_ready h root (<[abs (root ++ "public" :: l) := v]> fs).
Proof.
  intros Hl [Ht Ha Hd]. rewrite Forall_forall in Ht, Ha, Hd.
  split; apply Forall_forall; intros n Hn.
  - specialize (Ht n Hn). unfold is_file in *. unfold template_names in Hn.
    rewrite lookup_insert_public; [done|done| |done]. names Hn; by repeat constructor.
  - specialize (Ha n Hn). unfold is_file in *. unfold asset_names in Hn.
    rewrite lookup_insert_public; [done|done| |done]. names Hn; by repeat constructor.
  - specialize (Hd n Hn). unfold loadable in *. unfold document_names in Hn.
    rewrite lookup_insert_public; [done|done| |done]. names Hn; by repeat constructor.
Qed.

Lemma abs_under_not_root l :
  Forall (fun s => ordinary s = true) l -> l <> [] ->
  String.eqb (abs (root ++ l)) "/" = false.
Proof.
  intros Hl Hne. apply String.eqb_neq. change "/" with (abs []). intros E.
  apply abs_inj in E; [|by apply Forall_app|done]. by apply app_eq_nil in E as [_ ?].
Qed.

Lemma dirname_under l x :
  Forall (fun s => ordinary s = true) l -> ordinary x = true ->
  dirname (abs (root ++ l ++ [x])) = abs (root ++ l).
Proof.
  intros Hl Hx. rewrite List.app_assoc. apply dirname_abs; [by apply Forall_app|done].
Qed.

Lemma output_ready_write n c fs :
  ordinary n = true ->
  output_ready root fs -> output_ready root (<[abs (root ++ ["public"; n]) := File c]> fs).
Proof.
  intros Hn [Hp Ho]. split.
  - assert (E : String.eqb (abs (root ++ ["public"])) "/" = false)
      by (apply abs_under_not_root; by repeat constructor).
    unfold Fs.is_dir in Hp |- *. rewrite E in Hp |- *.
    rewrite lookup_insert_ne; [done|].
    apply under_root_ne; [done|by repeat constructor|by repeat constructor|done].
  - eapply Forall_impl; [exact Ho|]. intros n' Hn'. unfold not_dir in *.
    destruct (decide (abs (root ++ ["public"; n]) = abs (root ++ ["public"; n']))) as [<-|Hne].
    + by rewrite lookup_insert_eq.
    + by rewrite lookup_insert_ne.
Qed.

Lemma mkdir_p_existing fuel p fs :
  Fs.is_dir fs p = true -> Fs.mkdir_p fuel p fs = Some fs.
Proof.
  unfold Fs.is_dir. intros H. destruct fuel; cbn [Fs.mkdir_p];
    (destruct (String.eqb p "/"); [done|]); by destruct (fs !! p) as [[]|].
Qed.

Lemma ensureDir_spec l x st :
  Forall (fun s => ordinary s = true) l -> ordinary x = true ->
  not_file (files st) (abs (root ++ l ++ [x])) ->
  Fs.is_dir (files st) (abs (root ++ l)) = true ->
  ensureDir (abs (root ++ l ++ [x])) st = Some (tt, with_dir (abs (root ++ l ++ [x])) st).
Proof.
  intros Hl Hx Hnf Hup. set (p := abs (root ++ l ++ [x])) in *.
  assert (Hp : String.eqb p "/" = false).
  { apply abs_under_not_root; [apply Forall_app; by repeat constructor|by destruct l]. }
  unfold ensureDir, bind, Fs.existsSync. rewrite Hp. cbn [orb].
  destruct (files st !! p) as [[c|]|] eqn:E.
  - by destruct (Hnf c).
  - unfold ret, with_dir. rewrite insert_id by done. by destruct st.
  - unfold Fs.mkdirSync_recursive.
    destruct (List.length (segments p)) as [|fuel] eqn:Elen.
    { pose proof (segments_nonempty p). by destruct (segments p). }
    cbn [Fs.mkdir_p]. rewrite Hp, E. subst p. rewrite dirname_under by done.
    by rewrite mkdir_p_existing.
Qed.

Lemma loadTemplate_spec n c st :
  ordinary n = true ->
  files st !! abs (root ++ ["theme"; "templates"; n]) = Some (File c) ->
  loadTemplate root n st = Some (c, st).
Proof.
  intros Hn Hc. unfold loadTemplate. rewrite THEME_DIR_abs by done.
  rewrite (join_under root root_ordinary ["theme"] ["templates"; n]) by by repeat constructor.
  unfold Fs.readFileSync. cbn [app]. by rewrite Hc.
Qed.

(** An optional document is parsed when it is there. *)
Lemma optional_document n st :
  ordinary n = true ->
  loadable h (files st) (abs (root ++ ["writing"; n])) ->
  Fs.existsSync (join [WRITING_DIR root; n]) st = Some (false, st)
  \/ exists d,
       Fs.existsSync (join [WRITING_DIR root; n]) st = Some (true, st)
       /\ parseDocument h (join [WRITING_DIR root; n]) st = Some (d, st).
Proof.
  intros Hn Hl. rewrite WRITING_DIR_abs by done.
  rewrite (join_under root root_ordinary ["writing"] [n]) by by repeat constructor.
  cbn [app]. unfold Fs.existsSync.
  rewrite (abs_under_not_root ["writing"; n]) by by repeat constructor.
  cbn [orb]. destruct Hl as [E|(c & E & [[data markdown] Hm])].
  - left. by rewrite E.
  - right. eexists. rewrite E. split; [done|]. by eapply parseDocument_parts.
Qed.

Lemma renderIndex_spec posts base indexTemplate st :
  files st !! abs (root ++ ["theme"; "templates"; "base.html"]) = Some (File base) ->
  files st !! abs (root ++ ["theme"; "templates"; "index.html"]) = Some (File indexTemplate) ->
  loadable h (files st) (abs (root ++ ["writing"; "index.md"])) ->
  exists ttl desc,
    renderIndex h root posts st
    = Some (renderTemplate base
              [("title", ttl); ("description", desc); ("head_extra", EmptyString);
               ("body_class", "centered-list");
               ("content", renderTemplate indexTemplate [("post_list", postListHtml h posts)])],
            st).
Proof.
  intros Hb Hi Hd. unfold renderIndex.
  destruct (optional_document "index.md" st eq_refl Hd) as [E|(d & E & Ed)].
  - eexists _, _.
    eapply bind_step; [by apply loadTemplate_spec|].
    eapply bind_step; [by apply loadTemplate_spec|].
    eapply bind_step; [exact E|]. reflexivity.
  - eexists _, _.
    eapply bind_step; [by apply loadTemplate_spec|].
    eapply bind_step; [by apply loadTemplate_spec|].
    eapply bind_step; [exact E|].
    eapply bind_step; [eapply bind_step; [exact Ed|reflexivity]|]. reflexivity.
Qed.

Lemma renderAbout_spec st :
  sources_ready h root (files st) ->
  exists html, renderAbout h root st = Some (html, st).
Proof.
  intros [Ht _ Hd]. unfold template_names, document_names in *.
  rewrite Forall_forall in Ht, Hd.
  destruct (Ht "base.html") as [base Hb]; [set_solver|].
  destruct (Ht "about.html") as [about Ha]; [set_solver|].
  pose proof (Hd "about.md" ltac:(set_solver)) as Hdoc.
  unfold renderAbout.
  destruct (optional_document "about.md" st eq_refl Hdoc) as [E|(d & E & Ed)].
  - eexists.
    eapply bind_step; [by apply loadTemplate_spec|].
    eapply bind_step; [by apply loadTemplate_spec|].
    eapply bind_step; [exact E|]. reflexivity.
  - eexists.
    eapply bind_step; [by apply loadTemplate_spec|].
    eapply bind_step; [by apply loadTemplate_spec|].
    eapply bind_step; [exact E|].
    eapply bind_step; [eapply bind_step; [exact Ed|reflexivity]|]. reflexivity.
Qed.

Lemma render404_spec st :
  sources_ready h root (files st) ->
  exists html, render404 root st = Some (html, st).
Proof.
  intros [Ht _ _]. unfold template_names in *. rewrite Forall_forall in Ht.
  destruct (Ht "base.html") as [base Hb]; [set_solver|].
  destruct (Ht "404.html") as [notFound Hn]; [set_solver|].
  unfold render404. eexists.
  eapply bind_step; [by apply loadTemplate_spec|].
  eapply bind_step; [by apply loadTemplate_spec|]. reflexivity.
Qed.

Lemma writeFileSync_spec n c st :
  ordinary n = true ->
  Fs.is_dir (files st) (abs (root ++ ["public"])) = true ->
  not_dir (files st) (abs (root ++ ["public"; n])) ->
  Fs.writeFileSync (abs (root ++ ["public"; n])) c st
  = Some (tt, {| files := <[abs (root ++ ["public"; n]) := File c]> (files st);
                 console := console st |}).
Proof.
  intros Hon Hp Ho. unfold Fs.writeFileSync.
  pose proof (dirname_under ["public"] n ltac:(by repeat constructor) Hon) as Edir.
  cbn [app] in Edir. rewrite Edir, Hp.
  unfold Fs.is_dir. rewrite (abs_under_not_root ["public"; n]) by by repeat constructor.
  unfold not_dir in Ho.
  by destruct (files st !! abs (root ++ ["public"; n])) as [[]|].
Qed.

Lemma writeFile_spec n c st :
  n ∈ output_names -> output_ready root (files st) ->
  writeFile (join [PUBLIC_DIR root; n]) c st
  = Some (tt, written (abs (root ++ ["public"; n])) c st).
Proof.
  intros Hn [Hp Ho]. rewrite Forall_forall in Ho. specialize (Ho n Hn).
  assert (Hon : ordinary n = true) by (unfold output_names in Hn; names Hn; reflexivity).
  rewrite public_file by done. unfold writeFile.
  eapply bind_step.
  - by apply writeFileSync_spec.
  - reflexivity.
Qed.

Lemma copyFile_spec n st :
  n ∈ asset_names -> sources_ready h root (files st) -> output_ready root (files st) ->
  exists c,
    copyFile (join [THEME_DIR root; n]) (join [PUBLIC_DIR root; n]) st
    = Some (tt, copied (abs (root ++ ["theme"; n])) (abs (root ++ ["public"; n])) c st).
Proof.
  intros Hn [_ Ha _] [Hp Ho]. rewrite Forall_forall in Ha, Ho.
  destruct (Ha n Hn) as [c Hc].
  assert (Hout : n ∈ output_names) by (unfold asset_names in Hn; names Hn; set_solver).
  specialize (Ho n Hout).
  assert (Hon : ordinary n = true) by (unfold asset_names in Hn; names Hn; reflexivity).
  exists c. rewrite public_file, THEME_DIR_abs by done.
  rewrite (join_under root root_ordinary ["theme"] [n]) by by repeat constructor.
  cbn [app]. unfold copyFile, Fs.copyFileSync.
  eapply bind_step.
  - eapply bind_step.
    + unfold Fs.readFileSync. by rewrite Hc.
    + by apply writeFileSync_spec.
  - reflexivity.
Qed.

End Completion.

Section WithoutPosts.

Import Path.

Variable h : Host.
Variable root : list string.
Hypothesis root_ordinary : Forall (fun s => ordinary s = true) root.

Lemma prepare_spec st :
  project_ready h root (files st) ->
  (ensureDir (PUBLIC_DIR root) ;; ensureDir (join [PUBLIC_DIR root; POSTS_SUBDIR])) st
  = Some (tt, prepared root st).
Proof.
  intros [Hroot Hpub Hposts _ _].
  rewrite PUBLIC_DIR_abs by done. unfold POSTS_SUBDIR.
  rewrite (join_under root root_ordinary ["public"] ["posts"]) by by repeat constructor.
  eapply bind_step.
  - apply (ensureDir_spec root root_ordinary [] "public"); [done..|].
    by rewrite List.app_nil_r.
  - apply (ensureDir_spec root root_ordinary ["public"] "posts"); [by repeat constructor|done|..].
    + intros c. cbn [files with_dir app]. rewrite lookup_insert_ne; [apply Hposts|].
      apply under_root_ne; [done|by repeat constructor..|done].
    + unfold Fs.is_dir. cbn [files with_dir app].
      rewrite (abs_under_not_root root root_ordinary ["public"]) by by repeat constructor.
      by rewrite lookup_insert_eq.
Qed.

Lemma prepared_lookup st l :
  Forall (fun s => ordinary s = true) l -> l <> ["public"] -> l <> ["public"; "posts"] ->
  files (prepared root st) !! abs (root ++ l) = files st !! abs (root ++ l).
Proof.
  intros Hl H1 H2. unfold prepared. cbn [files with_dir].
  rewrite !lookup_insert_ne; [done|..];
    (apply under_root_ne; [done|by repeat constructor|done|done]).
Qed.

Lemma prepared_sources st :
  sources_ready h root (files st) -> sources_ready h root (files (prepared root st)).
Proof.
  intros H. unfold prepared. cbn [files with_dir].
  apply (sources_ready_insert h root root_ordinary ["posts"]); [by repeat constructor|].
  by apply (sources_ready_insert h root root_ordinary []); [constructor|].
Qed.

Lemma prepared_output st :
  Forall (fun n => not_dir (files st) (abs (root ++ ["public"; n]))) output_names ->
  output_ready root (files (prepared root st)).
Proof.
  intros Ho. split.
  - unfold Fs.is_dir, prepared. cbn [files with_dir].
    rewrite (abs_under_not_root root root_ordinary ["public"]) by by repeat constructor.
    rewrite lookup_insert_ne, lookup_insert_eq; [done|].
    apply under_root_ne; [done|by repeat constructor..|done].
  - rewrite Forall_forall in Ho. apply Forall_forall. intros n Hn.
    specialize (Ho n Hn). unfold not_dir in *. unfold output_names in Hn.
    rewrite prepared_lookup; [done|..]; names Hn; by repeat constructor.
Qed.

Lemma no_posts_directory st :
  files st !! abs (root ++ ["writing"; "posts"]) = None ->
  getFilesWithExtension (join [WRITING_DIR root; POSTS_SUBDIR]) ".md" st = Some ([], st).
Proof.
  intros Hnone. rewrite WRITING_DIR_abs by done. unfold POSTS_SUBDIR.
  rewrite (join_under root root_ordinary ["writing"] ["posts"]) by by repeat constructor.
  cbn [app]. unfold getFilesWithExtension, bind, Fs.existsSync.
  rewrite (abs_under_not_root root root_ordinary ["writing"; "posts"]) by by repeat constructor.
  by rewrite Hnone.
Qed.

(** The three main pages, written one after the other. *)
Lemma emitMainPages_spec posts base indexTemplate st :
  files st !! abs (root ++ ["theme"; "templates"; "base.html"]) = Some (File base) ->
  files st !! abs (root ++ ["theme"; "templates"; "index.html"]) = Some (File indexTemplate) ->
  sources_ready h root (files st) -> output_ready root (files st) ->
  exists ttl desc aboutHtml notFoundHtml,
    emitMainPages h root posts st
    = Some (tt,
            written (abs (root ++ ["public"; "404.html"])) notFoundHtml
              (written (abs (root ++ ["public"; "about.html"])) aboutHtml
                 (written (abs (root ++ ["public"; "index.html"]))
                    (renderTemplate base
                       [("title", ttl); ("description", desc); ("head_extra", EmptyString);
                        ("body_class", "centered-list");
                        ("content",
                         renderTemplate indexTemplate [("post_list", postListHtml h posts)])])
                    st))).
Proof.
  intros Hb Hi Hsrc Hout.
  assert (Hdoc : loadable h (files st) (abs (root ++ ["writing"; "index.md"]))).
  { destruct Hsrc as [_ _ Hd]. rewrite Forall_forall in Hd. apply Hd. set_solver. }
  destruct (renderIndex_spec h root root_ordinary posts base indexTemplate st Hb Hi Hdoc)
    as (ttl & desc & E1).
  set (indexHtml := renderTemplate base _) in E1.
  set (s1 := written (abs (root ++ ["public"; "index.html"])) indexHtml st).
  assert (Hsrc1 : sources_ready h root (files s1))
    by (apply (sources_ready_insert h root root_ordinary ["index.html"]); [by repeat constructor|done]).
  assert (Hout1 : output_ready root (files s1)) by by apply output_ready_write.
  destruct (renderAbout_spec h root root_ordinary s1 Hsrc1) as (aboutHtml & E2).
  set (s2 := written (abs (root ++ ["public"; "about.html"])) aboutHtml s1).
  assert (Hsrc2 : sources_ready h root (files s2))
    by (apply (sources_ready_insert h root root_ordinary ["about.html"]); [by repeat constructor|done]).
  assert (Hout2 : output_ready root (files s2)) by by apply output_ready_write.
  destruct (render404_spec h root root_ordinary s2 Hsrc2) as (notFoundHtml & E3).
  exists ttl, desc, aboutHtml, notFoundHtml. unfold emitMainPages.
  eapply bind_step; [exact E1|].
  eapply bind_step; [apply (writeFile_spec root root_ordinary); [set_solver|done]|].
  eapply bind_step; [exact E2|].
  eapply bind_step; [apply (writeFile_spec root root_ordinary); [set_solver|done]|].
  eapply bind_step; [exact E3|].
  apply (writeFile_spec root root_ordinary); [set_solver|done].
Qed.

Lemma copyAssets_spec st :
  sources_ready h root (files st) -> output_ready root (files st) ->
  exists css js svg,
    copyAssets root st
    = Some (tt,
            copied (abs (root ++ ["theme"; "favicon.svg"]))
              (abs (root ++ ["public"; "favicon.svg"])) svg
              (copied (abs (root ++ ["theme"; "script.js"]))
                 (abs (root ++ ["public"; "script.js"])) js
                 (copied (abs (root ++ ["theme"; "styles.css"]))
                    (abs (root ++ ["public"; "styles.css"])) css st))).
Proof.
  intros Hsrc Hout.
  destruct (copyFile_spec h root root_ordinary "styles.css" st ltac:(set_solver) Hsrc Hout)
    as (css & E1).
  set (s1 := copied _ _ css st) in E1.
  assert (Hsrc1 : sources_ready h root (files s1))
    by (apply (sources_ready_insert h root root_ordinary ["styles.css"]); [by repeat constructor|done]).
  assert (Hout1 : output_ready root (files s1)) by by apply output_ready_write.
  destruct (copyFile_spec h root root_ordinary "script.js" s1 ltac:(set_solver) Hsrc1 Hout1)
    as (js & E2).
  set (s2 := copied _ _ js s1) in E2.
  assert (Hsrc2 : sources_ready h root (files s2))
    by (apply (sources_ready_insert h root root_ordinary ["script.js"]); [by repeat constructor|done]).
  assert (Hout2 : output_ready root (files s2)) by by apply output_ready_write.
  destruct (copyFile_spec h root root_ordinary "favicon.svg" s2 ltac:(set_solver) Hsrc2 Hout2)
    as (svg & E3).
  exists css, js, svg. unfold copyAssets.
  eapply bind_step; [exact E1|]. eapply bind_step; [exact E2|]. exact E3.
Qed.

End WithoutPosts.

(** C10: on a project that is ready for the build but has no posts
    directory, the search for posts returns the empty list without an
    exception and the build runs to its end; the console shows the three
    main pages and the three assets and no post page, and the index page
    it wrote is the index template with an empty post list, inside the
    base template. *)
Theorem buildSite_without_posts_directory :
  forall h root st,
    Forall (fun s => Path.ordinary s = true) root ->
    project_ready h root (files st) ->
    files st !! Path.abs (root ++ ["writing"; "posts"]) = None ->
    getFilesWithExtension (Path.join [WRITING_DIR root; POSTS_SUBDIR]) ".md" st = Some ([], st) /\
    exists st' base indexTemplate ttl desc aboutHtml notFoundHtml,
      let indexHtml :=
        renderTemplate base
          [("title", ttl); ("description", desc); ("head_extra", EmptyString);
           ("body_class", "centered-list");
           ("content", renderTemplate indexTemplate [("post_list", EmptyString)])] in
      files st !! Path.abs (root ++ ["theme"; "templates"; "base.html"]) = Some (File base) /\
      files st !! Path.abs (root ++ ["theme"; "templates"; "index.html"])
      = Some (File indexTemplate) /\
      buildSite h root st = Some (tt, st') /\
      console st'
      = console st
        ++ [Wrote (Path.abs (root ++ ["public"; "index.html"])) indexHtml;
            Wrote (Path.abs (root ++ ["public"; "about.html"])) aboutHtml;
            Wrote (Path.abs (root ++ ["public"; "404.html"])) notFoundHtml;
            Copied (Path.abs (root ++ ["theme"; "styles.css"]))
              (Path.abs (root ++ ["public"; "styles.css"]));
            Copied (Path.abs (root ++ ["theme"; "script.js"]))
              (Path.abs (root ++ ["public"; "script.js"]));
            Copied (Path.abs (root ++ ["theme"; "favicon.svg"]))
              (Path.abs (root ++ ["public"; "favicon.svg"]))] /\
      files st' !! Path.abs (root ++ ["public"; "index.html"]) = Some (File indexHtml).
Proof.
  intros h root st Hroot Hready Hnone.
  split; [by apply no_posts_directory|].
  pose proof Hready as [_ _ _ Hsrc Hout].
  pose proof Hsrc as [Ht _ _]. rewrite Forall_forall in Ht.
  destruct (Ht "base.html") as [base Hb]; [set_solver|].
  destruct (Ht "index.html") as [indexTemplate Hi]; [set_solver|].
  set (s0 := prepared root st).
  assert (Hsrc0 : sources_ready h root (files s0)) by by apply prepared_sources.
  assert (Hout0 : output_ready root (files s0)) by by apply prepared_output.
  assert (Hb0 : files s0 !! Path.abs (root ++ ["theme"; "templates"; "base.html"])
                = Some (File base))
    by (subst s0; by rewrite prepared_lookup by (try done; by repeat constructor)).
  assert (Hi0 : files s0 !! Path.abs (root ++ ["theme"; "templates"; "index.html"])
                = Some (File indexTemplate))
    by (subst s0; by rewrite prepared_lookup by (try done; by repeat constructor)).
  assert (Hnone0 : files s0 !! Path.abs (root ++ ["writing"; "posts"]) = None)
    by (subst s0; by rewrite prepared_lookup by (try done; by repeat constructor)).
  destruct (emitMainPages_spec h root Hroot [] base indexTemplate s0 Hb0 Hi0 Hsrc0 Hout0)
    as (ttl & desc & aboutHtml & notFoundHtml & Emain).
  set (s3 := written _ notFoundHtml _) in Emain.
  assert (Hsrc3 : sources_ready h root (files s3)).
  { subst s3. cbn [files written].
    apply (sources_ready_insert h root Hroot ["404.html"]); [by repeat constructor|].
    apply (sources_ready_insert h root Hroot ["about.html"]); [by repeat constructor|].
    by apply (sources_ready_insert h root Hroot ["index.html"]); [repeat constructor|]. }
  assert (Hout3 : output_ready root (files s3)).
  { subst s3. cbn [files written]. by repeat apply output_ready_write. }
  destruct (copyAssets_spec h root Hroot s3 Hsrc3 Hout3) as (css & js & svg & Ecopy).
  eexists _, base, indexTemplate, ttl, desc, aboutHtml, notFoundHtml.
  split; [exact Hb|]. split; [exact Hi|]. split; [|split].
  - unfold buildSite.
    pose proof (prepare_spec h root Hroot st Hready) as Eprep.
    apply bind_Some in Eprep as ([] & s' & E1 & E2).
    eapply bind_step; [exact E1|]. eapply bind_step; [exact E2|].
    eapply bind_step; [by apply no_posts_directory|]. cbn [mapM forEach].
    eapply bind_step; [reflexivity|]. eapply bind_step; [reflexivity|].
    eapply bind_step; [exact Emain|]. exact Ecopy.
  - subst s3 s0. cbn [console copied written with_dir prepared].
    by rewrite <- !List.app_assoc.
  - subst s3 s0. cbn [files copied written].
    rewrite !(lookup_insert_public root Hroot) by (try done; by repeat constructor).
    apply lookup_insert_eq.
Qed.

Lemma buildSite_without_posts_directory_witness :
  let st := {| files := Fixture.bare_project; console := [] |} in
  Forall (fun s => Path.ordinary s = true) ["site"] /\
  project_ready Fixture.host ["site"] (files st) /\
  files st !! "/site/writing/posts" = None /\
  getFilesWithExtension "/site/writing/posts" ".md" st = Some ([], st) /\
  completes (buildSite Fixture.host ["site"] st) = true.
Proof.
  intros st.
  assert (Hroot : Forall (fun s => Path.ordinary s = true) ["site"]) by by repeat constructor.
  assert (Hready : project_ready Fixture.host ["site"] (files st)).
  { split; [reflexivity|by intros c|by intros c| |by repeat constructor].
    split; repeat constructor; try (by eexists); by left. }
  assert (Hnone : files st !! Path.abs (["site"] ++ ["writing"; "posts"]) = None)
    by reflexivity.
  destruct (buildSite_without_posts_directory Fixture.host ["site"] st Hroot Hready Hnone)
    as (Hfiles & st' & base & indexTemplate & ttl & desc & aboutHtml & notFoundHtml
        & _ & _ & Hrun & _).
  split; [exact Hroot|]. split; [exact Hready|]. split; [exact Hnone|].
  split; [exact Hfiles|]. by rewrite Hrun.
Defined.

(** The index page of the example project without posts. *)
Example buildSite_example_empty_index :
  option_map (fun r => files (snd r) !! "/site/public/index.html")
    (buildSite Fixture.host ["site"] {| files := Fixture.bare_project; console := [] |})
  = Some (Some (File "<title>Ink Dreams - Notes</title><body class=centered-list><ul></ul></body>")).
Proof. vm_compute. reflexivity. Qed.

(** ** The MIME types of the server *)

Section MimeFacts.

Import Path.

Lemma lower_slash c : Ascii.eqb (JsString.lower c) slash = Ascii.eqb c slash.
Proof. by destruct c as [[] [] [] [] [] [] [] []]. Qed.

Lemma lower_dot c : Ascii.eqb (JsString.lower c) "." = Ascii.eqb c ".".
Proof. by destruct c as [[] [] [] [] [] [] [] []]. Qed.

Lemma lower_idempotent c : JsString.lower (JsString.lower c) = JsString.lower c.
Proof. by destruct c as [[] [] [] [] [] [] [] []]. Qed.

Lemma toLowerCase_idempotent s :
  JsString.toLowerCase (JsString.toLowerCase s) = JsString.toLowerCase s.
Proof.
  induction s as [|c s IH]; [done|]. cbn [JsString.toLowerCase].
  by rewrite lower_idempotent, IH.
Qed.

Lemma toLowerCase_empty s : JsString.toLowerCase s = EmptyString <-> s = EmptyString.
Proof. by destruct s. Qed.

Lemma segments_lower p :
  segments (JsString.toLowerCase p) = map JsString.toLowerCase (segments p).
Proof.
  induction p as [|c p IH]; [done|]. cbn [JsString.toLowerCase segments].
  rewrite lower_slash, IH. destruct (Ascii.eqb c slash); [done|].
  by destruct (segments p).
Qed.

Lemma last_segment_lower p :
  last_segment (JsString.toLowerCase p) = JsString.toLowerCase (last_segment p).
Proof.
  unfold last_segment. rewrite segments_lower, <- map_rev.
  induction (rev (segments p)) as [|x l IH]; [done|]. cbn [map].
  destruct (decide (x = EmptyString)) as [->|Hx].
  - rewrite !filter_cons_False by (cbn; auto). done.
  - rewrite !filter_cons_True; [done|done|]. by rewrite toLowerCase_empty.
Qed.

Lemma from_last_dot_lower b :
  from_last_dot (JsString.toLowerCase b) = JsString.toLowerCase <$> from_last_dot b.
Proof.
  induction b as [|c b IH]; [done|]. cbn [JsString.toLowerCase from_last_dot].
  rewrite IH, lower_dot. destruct (from_last_dot b); [done|].
  by destruct (Ascii.eqb c ".").
Qed.

Lemma dotdot_lower s : String.eqb (JsString.toLowerCase s) ".." = String.eqb s "..".
Proof.
  destruct s as [|a [|b [|c s]]]; cbn [JsString.toLowerCase String.eqb];
    rewrite ?lower_dot; done.
Qed.

Lemma extname_lower p :
  extname (JsString.toLowerCase p) = JsString.toLowerCase (extname p).
Proof.
  unfold extname. rewrite last_segment_lower.
  destruct (last_segment p) as [|c b]; [done|].
  rewrite <- (dotdot_lower (String c b)). cbn [JsString.toLowerCase].
  destruct (String.eqb (String (JsString.lower c) (JsString.toLowerCase b)) ".."); [done|].
  rewrite from_last_dot_lower. by destruct (from_last_dot b).
Qed.

Lemma last_segment_name x : ordinary x = true -> last_segment x = x.
Proof.
  intros (Hne & _ & _ & Hs)%ordinary_inv. unfold last_segment.
  rewrite segments_no_slash by done. cbn [rev app]. by rewrite filter_cons_True.
Qed.

Lemma extname_abs l x :
  Forall (fun s => ordinary s = true) l -> ordinary x = true ->
  extname (abs (l ++ [x])) = extname x.
Proof.
  intros Hl Hx. unfold extname. by rewrite last_segment_abs, last_segment_name.
Qed.

Lemma from_last_dot_none e : has_unit "." e = false -> from_last_dot e = None.
Proof.
  induction e as [|c e IH]; [done|]. cbn [has_unit from_last_dot].
  intros [Hc He]%orb_false_iff. rewrite (IH He).
  rewrite Ascii.eqb_sym in Hc. by rewrite Hc.
Qed.

Lemma from_last_dot_app a e :
  has_unit "." e = false -> from_last_dot (a +:+ String "." e) = Some (String "." e).
Proof.
  intros He. induction a as [|c a IH].
  - rewrite sapp_nil_l. cbn [from_last_dot]. by rewrite from_last_dot_none.
  - rewrite sapp_cons. cbn [from_last_dot]. by rewrite IH.
Qed.

(** The extension of a name with a stem and one more dot. *)
Lemma extname_stem stem e :
  stem <> EmptyString -> e <> EmptyString -> has_unit "." e = false ->
  ordinary (stem +:+ String "." e) = true ->
  extname (stem +:+ String "." e) = String "." e.
Proof.
  intros Hs He Hd Ho. unfold extname. rewrite last_segment_name by done.
  destruct stem as [|c stem]; [done|]. rewrite sapp_cons.
  rewrite from_last_dot_app by done.
  destruct (String.eqb_spec (String c (stem +:+ String "." e)) "..") as [E|_]; [|done].
  destruct stem as [|d stem]; [|by destruct stem].
  rewrite sapp_nil_l in E. injection E as _ E. done.
Qed.

Lemma extname_no_dot x : has_unit "." x = false -> ordinary x = true -> extname x = EmptyString.
Proof.
  intros Hd Ho. unfold extname. rewrite last_segment_name by done.
  destruct x as [|c x]; [done|]. cbn [has_unit] in Hd. apply orb_false_iff in Hd as [_ Hd].
  rewrite from_last_dot_none by done. by destruct (String.eqb (String c x) "..").
Qed.

Lemma getMimeType_name l x :
  Forall (fun s => ordinary s = true) l -> ordinary x = true ->
  Serve.getMimeType (abs (l ++ [x])) = Serve.getMimeType x.
Proof. intros Hl Hx. unfold Serve.getMimeType. by rewrite extname_abs. Qed.

End MimeFacts.

(** X1. The content type does not depend on the letter case of the
    path: [getMimeType] lowers the extension before it looks it up. *)
Theorem getMimeType_ignores_case :
  forall filePath,
    Serve.getMimeType (JsString.toLowerCase filePath) = Serve.getMimeType filePath.
Proof.
  intros filePath. unfold Serve.getMimeType.
  by rewrite extname_lower, toLowerCase_idempotent.
Qed.

(** X2. A file whose name is a non-empty stem followed by an extension
    of the table gets the content type the table gives that extension,
    in whatever directory it lies; a name without a dot gets
    [application/octet-stream]. *)
Theorem getMimeType_by_extension :
  forall l stem ext ty,
    Forall (fun s => Path.ordinary s = true) l ->
    stem <> EmptyString ->
    Path.ordinary (stem +:+ ext) = true ->
    Serve.assoc ext Serve.MIME_TYPES = Some ty ->
    Serve.getMimeType (Path.abs (l ++ [stem +:+ ext])) = ty /\
    (has_unit "." stem = false ->
     Serve.getMimeType (Path.abs (l ++ [stem])) = "application/octet-stream").
Proof.
  intros l stem ext ty Hl Hstem Ho Hty. split.
  - unfold Serve.getMimeType. rewrite extname_abs by done.
    assert (E : Path.extname (stem +:+ ext) = ext /\ JsString.toLowerCase ext = ext).
    { unfold Serve.MIME_TYPES in Hty. cbn [Serve.assoc] in Hty.
      repeat match type of Hty with
             | (if String.eqb ?a ?b then _ else _) = _ =>
                 destruct (String.eqb_spec a b) as [->|_];
                 [split; [by apply extname_stem|reflexivity]|]
             end.
      done. }
    destruct E as [-> ->]. by rewrite Hty.
  - intros Hd. unfold Serve.getMimeType.
    assert (Hs : Path.ordinary stem = true).
    { apply ordinary_inv in Ho as (_ & _ & _ & Ho). rewrite has_slash_app in Ho.
      apply orb_false_iff in Ho as [Ho _]. unfold Path.ordinary. rewrite Ho.
      destruct (String.eqb_spec stem EmptyString) as [|_]; [done|].
      destruct (String.eqb_spec stem ".") as [->|_]; [done|].
      by destruct (String.eqb_spec stem "..") as [->|_]. }
    rewrite extname_abs by done. by rewrite extname_no_dot.
Qed.

Lemma getMimeType_by_extension_witness :
  Serve.getMimeType "/site/public/posts/hello-world/index.html" = "text/html; charset=utf-8" /\
  Serve.getMimeType "/site/public/posts/hello-world/index" = "application/octet-stream".
Proof.
  assert (Hl : Forall (fun s => Path.ordinary s = true) ["site"; "public"; "posts"; "hello-world"])
    by by repeat constructor.
  destruct (getMimeType_by_extension ["site"; "public"; "posts"; "hello-world"]
              "index" ".html" "text/html; charset=utf-8" Hl ltac:(done) eq_refl eq_refl)
    as [H1 H2].
  split; [exact H1|exact (H2 eq_refl)].
Defined.

(** ** The requests of the server *)

Section RequestFacts.

Import Path.

Lemma resolve_app b l1 : forall st l2,
  resolve b st (l1 ++ l2) = resolve b (rev (resolve b st l1)) l2.
Proof.
  induction l1 as [|seg l1 IH]; intros st l2.
  - cbn [app resolve]. by rewrite rev_involutive.
  - cbn [app resolve].
    destruct (String.eqb seg EmptyString || String.eqb seg ".")%bool; [apply IH|].
    destruct (String.eqb seg ".."); [|apply IH].
    destruct st as [|top st]; [apply IH|].
    destruct (String.eqb top ".."); apply IH.
Qed.

Lemma sprefix_length p s : String.prefix p s = true -> (String.length p <= String.length s)%nat.
Proof.
  revert s. induction p as [|c p IH]; intros s H; [cbn; lia|].
  destruct s as [|d s]; [done|]. cbn [String.prefix] in H.
  destruct (ascii_dec c d); [|done]. cbn [String.length]. apply IH in H. lia.
Qed.

Lemma endsWith_slash x : JsString.endsWith (x +:+ "/") "/" = true.
Proof.
  unfold JsString.endsWith. rewrite srev_app_distr.
  change (String.rev "/") with "/". apply sprefix_app.
Qed.

(** The normal form of an absolute path that does not resolve to the
    root. *)
Lemma normalize_abs_form p clean :
  isAbsolute p = true -> resolve false [] (segments p) = clean ->
  clean <> [] -> Forall (fun s => ordinary s = true) clean ->
  normalize p = abs clean +:+ (if JsString.endsWith p "/" then "/" else EmptyString).
Proof.
  intros Habs Hr Hne Hc. unfold normalize. rewrite Habs. cbn [negb]. rewrite Hr.
  destruct (String.eqb_spec p EmptyString) as [->|_]; [done|].
  destruct (String.eqb_spec (JsString.join "/" clean) EmptyString) as [E|_].
  { by apply join_not_empty in E. }
  unfold abs. destruct (JsString.endsWith p "/"); by rewrite ?sapp_assoc, ?sapp_nil_r.
Qed.

Lemma abs_trailing_segments clean t st :
  Forall (fun s => ordinary s = true) clean -> t = EmptyString \/ t = "/" ->
  resolve false st (segments (abs clean +:+ t)) = rev st ++ clean.
Proof.
  intros Hc Ht. unfold abs. rewrite sapp_assoc. by apply resolve_normal_form.
Qed.

Lemma abs_trailing_not_empty l t : abs l +:+ t <> EmptyString.
Proof. unfold abs. by rewrite sapp_assoc, sapp_cons. Qed.

(** Joining a name to a normal absolute path, with or without a
    trailing separator. *)
Lemma join_name l t x :
  Forall (fun s => ordinary s = true) l -> t = EmptyString \/ t = "/" ->
  ordinary x = true ->
  join [abs l +:+ t; x] = abs (l ++ [x]).
Proof.
  intros Hl Ht Hx.
  rewrite join_two; [|apply abs_trailing_not_empty|by apply ordinary_inv in Hx as (? & _)].
  rewrite (normalize_abs_form _ (l ++ [x])).
  - rewrite <- sapp_assoc, endsWith_name by done. by rewrite sapp_nil_r.
  - rewrite sapp_assoc. apply isAbsolute_abs.
  - rewrite segments_app_slash, resolve_app, abs_trailing_segments by done.
    rewrite (segments_no_slash x) by by apply ordinary_inv in Hx as (_ & _ & _ & ?).
    rewrite <- (List.app_nil_r [x]) at 1.
    rewrite (resolve_ordinary false [x]) by by repeat constructor.
    cbn [resolve]. by rewrite rev_app_distr, !rev_involutive.
  - by destruct l.
  - apply Forall_app. by repeat constructor.
Qed.

Lemma abs_clean_not_root segs t :
  segs <> [] -> Forall (fun s => ordinary s = true) segs ->
  String.eqb (abs segs +:+ t) "/" = false.
Proof.
  intros Hne Hs. destruct segs as [|x segs]; [done|].
  apply Forall_cons in Hs as [(Hx & _)%ordinary_inv _].
  destruct x as [|c x]; [done|]. unfold abs.
  destruct segs; [cbn [JsString.join]|rewrite join_cons2]; by rewrite !sapp_cons.
Qed.

Lemma endsWith_abs_trailing l t :
  l <> [] -> Forall (fun s => ordinary s = true) l -> t = EmptyString \/ t = "/" ->
  JsString.endsWith (abs l +:+ t) "/" = if String.eqb t "/" then true else false.
Proof.
  intros Hne Hl [-> | ->].
  - rewrite sapp_nil_r. destruct (join_last l Hne Hl) as (y & x & E & Hx).
    unfold abs. rewrite E, <- sapp_assoc. by apply endsWith_name.
  - apply endsWith_slash.
Qed.

Lemma normalize_clean segs t :
  segs <> [] -> Forall (fun s => ordinary s = true) segs -> t = EmptyString \/ t = "/" ->
  normalize (abs segs +:+ t) = abs segs +:+ t.
Proof.
  intros Hne Hs Ht. rewrite (normalize_abs_form _ segs); try done.
  - rewrite endsWith_abs_trailing by done. by destruct Ht as [-> | ->]; rewrite ?sapp_nil_r.
  - apply isAbsolute_abs.
  - by rewrite abs_trailing_segments.
Qed.

Variable root : list string.
Hypothesis root_ordinary : Forall (fun s => ordinary s = true) root.

(** A request for the names [segs] is mapped to the entry of these
    names in the served directory. *)
Lemma requestedFile_clean segs t :
  segs <> [] -> Forall (fun s => ordinary s = true) segs -> t = EmptyString \/ t = "/" ->
  Serve.requestedFile root (abs segs +:+ t) = abs (root ++ "public" :: segs) +:+ t.
Proof.
  intros Hne Hs Ht. unfold Serve.requestedFile.
  rewrite abs_clean_not_root, normalize_clean by done.
  unfold abs at 1. rewrite sapp_assoc, sapp_cons, strip_dotdots_slash.
  change (String "/" (EmptyString +:+ JsString.join "/" segs +:+ t)) with (abs segs +:+ t).
  rewrite served_dir_abs by done.
  rewrite join_two; [|apply abs_not_empty|apply abs_trailing_not_empty].
  assert (Hall : Forall (fun s => ordinary s = true) (root ++ "public" :: segs)).
  { apply Forall_app. split; [done|]. by constructor. }
  rewrite (normalize_abs_form _ (root ++ "public" :: segs)); try done.
  - rewrite <- sapp_assoc.
    replace (JsString.endsWith ((abs (root ++ ["public"]) +:+ "/") +:+ abs segs +:+ t) "/")
      with (if String.eqb t "/" then true else false).
    { by destruct Ht as [-> | ->]; rewrite ?sapp_nil_r. }
    destruct Ht as [-> | ->].
    + rewrite sapp_nil_r. destruct (join_last segs Hne Hs) as (y & x & E & Hx).
      unfold abs at 2. rewrite E, <- !sapp_assoc. symmetry. by apply endsWith_name.
    + rewrite <- sapp_assoc. symmetry. apply endsWith_slash.
  - apply isAbsolute_abs.
  - rewrite segments_app_slash, resolve_abs_prefix by by apply served_ordinary.
    rewrite abs_trailing_segments by done.
    by rewrite rev_involutive, <- List.app_assoc.
  - by intros [_ ?]%app_eq_nil.
Qed.

Lemma requestedFile_root :
  Serve.requestedFile root "/" = abs (root ++ ["public"; "index.html"]).
Proof.
  change (Serve.requestedFile root "/") with (Serve.requestedFile root "/index.html").
  change "/index.html" with (abs ["index.html"] +:+ EmptyString).
  rewrite requestedFile_clean; [by rewrite sapp_nil_r|done|by repeat constructor|by left].
Qed.

Lemma served_prefix l t :
  JsString.startsWith (abs (root ++ "public" :: l) +:+ t) (Serve.PUBLIC_DIR root) = true.
Proof.
  rewrite served_dir_abs by done. unfold JsString.startsWith.
  destruct l as [|x l].
  - apply sprefix_app.
  - unfold abs. replace (root ++ "public" :: x :: l) with ((root ++ ["public"]) ++ x :: l)
      by by rewrite <- List.app_assoc.
    rewrite (join_app "/" (root ++ ["public"]) (x :: l)); [|by intros [_ ?]%app_eq_nil|done].
    set (J := JsString.join "/" (root ++ ["public"])).
    set (K := JsString.join "/" (x :: l)).
    replace (("/" +:+ (J +:+ "/" +:+ K)) +:+ t) with (("/" +:+ J) +:+ ("/" +:+ K +:+ t))
      by (by rewrite !sapp_assoc).
    apply sprefix_app.
Qed.

Lemma not_found_path :
  join [Serve.PUBLIC_DIR root; "404.html"] = abs (root ++ ["public"; "404.html"]).
Proof.
  rewrite served_dir_abs by done. rewrite <- (sapp_nil_r (abs (root ++ ["public"]))).
  rewrite join_name; [by rewrite <- List.app_assoc|by apply served_ordinary|by left|done].
Qed.

Lemma index_path segs t :
  Forall (fun s => ordinary s = true) segs -> t = EmptyString \/ t = "/" ->
  join [abs (root ++ "public" :: segs) +:+ t; "index.html"]
  = abs (root ++ "public" :: segs ++ ["index.html"]).
Proof.
  intros Hs Ht. rewrite join_name; try done.
  - by rewrite <- List.app_assoc.
  - apply Forall_app. split; [done|]. by constructor.
Qed.

End RequestFacts.

(** X3. A request for a regular file of the served directory is
    answered with status 200, the content of the file and the content
    type of its extension. *)
Theorem handleRequest_serves_file :
  forall root sfs segs data,
    Forall (fun s => Path.ordinary s = true) root ->
    Forall (fun s => Path.ordinary s = true) segs -> segs <> [] ->
    Serve.stat sfs (Path.abs (root ++ "public" :: segs)) = Serve.StatOther ->
    Serve.readFile sfs (Path.abs (root ++ "public" :: segs)) = Serve.ReadData data ->
    Serve.handleRequest root sfs (Path.abs segs)
    = {| Serve.status := 200;
         Serve.contentType := Serve.getMimeType (Path.abs (root ++ "public" :: segs));
         Serve.payload := data |}.
Proof.
  intros root sfs segs data Hroot Hs Hne Hstat Hread. unfold Serve.handleRequest.
  rewrite <- (sapp_nil_r (Path.abs segs)).
  rewrite requestedFile_clean by (done || by left). rewrite sapp_nil_r.
  rewrite <- (sapp_nil_r (Path.abs (root ++ _))) at 1. rewrite served_prefix by done.
  cbn [negb]. by rewrite Hstat, Hread.
Qed.

Lemma handleRequest_serves_file_witness :
  Serve.handleRequest ["site"] (on_disk example_site) "/styles.css"
  = {| Serve.status := 200; Serve.contentType := "text/css; charset=utf-8";
       Serve.payload := "body {}" |}.
Proof.
  apply (handleRequest_serves_file ["site"] (on_disk example_site) ["styles.css"] "body {}");
    try done; by repeat constructor.
Defined.

(** X4. A request for [/] is the request for [/index.html]: it is
    answered with the page [index.html] of the served directory. *)
Theorem handleRequest_root_is_index :
  forall root sfs data,
    Forall (fun s => Path.ordinary s = true) root ->
    Serve.stat sfs (Path.abs (root ++ ["public"; "index.html"])) = Serve.StatOther ->
    Serve.readFile sfs (Path.abs (root ++ ["public"; "index.html"])) = Serve.ReadData data ->
    Serve.handleRequest root sfs "/" = Serve.handleRequest root sfs "/index.html" /\
    Serve.handleRequest root sfs "/"
    = {| Serve.status := 200; Serve.contentType := "text/html; charset=utf-8";
         Serve.payload := data |}.
Proof.
  intros root sfs data Hroot Hstat Hread. split; [reflexivity|].
  unfold Serve.handleRequest. rewrite requestedFile_root by done.
  rewrite <- (sapp_nil_r (Path.abs (root ++ _))) at 1. rewrite served_prefix by done.
  cbn [negb]. rewrite Hstat, Hread.
  replace (root ++ ["public"; "index.html"]) with ((root ++ ["public"]) ++ ["index.html"])
    by by rewrite <- List.app_assoc.
  rewrite getMimeType_name; [done|by apply served_ordinary|done].
Qed.

Lemma handleRequest_root_is_index_witness :
  Serve.handleRequest ["site"] (on_disk example_site) "/"
  = Serve.handleRequest ["site"] (on_disk example_site) "/index.html" /\
  Serve.handleRequest ["site"] (on_disk example_site) "/"
  = {| Serve.status := 200; Serve.contentType := "text/html; charset=utf-8";
       Serve.payload := "<ul></ul>" |}.
Proof.
  apply (handleRequest_root_is_index ["site"] (on_disk example_site) "<ul></ul>");
    try done; by repeat constructor.
Defined.

(** X5. A request for a directory of the served directory, with or
    without a trailing separator, is answered from the [index.html]
    inside it: with that page when it can be read, with 404 when there
    is none, with 500 when reading fails otherwise. *)
Theorem handleRequest_directory_index :
  forall root sfs segs t,
    Forall (fun s => Path.ordinary s = true) root ->
    Forall (fun s => Path.ordinary s = true) segs -> segs <> [] ->
    t = EmptyString \/ t = "/" ->
    Serve.stat sfs (Path.abs (root ++ "public" :: segs) +:+ t) = Serve.StatDirectory ->
    Serve.handleRequest root sfs (Path.abs segs +:+ t)
    = match Serve.readFile sfs (Path.abs (root ++ "public" :: segs ++ ["index.html"])) with
      | Serve.ReadData data =>
          {| Serve.status := 200; Serve.contentType := "text/html; charset=utf-8";
             Serve.payload := data |}
      | Serve.ReadENOENT =>
          {| Serve.status := 404; Serve.contentType := "text/html; charset=utf-8";
             Serve.payload :=
               match Serve.readFile sfs (Path.abs (root ++ ["public"; "404.html"])) with
               | Serve.ReadData data404 => data404
               | _ => "<h1>404 Not Found</h1>"
               end |}
      | Serve.ReadError =>
          {| Serve.status := 500; Serve.contentType := "text/plain";
             Serve.payload := "Internal Server Error" |}
      end.
Proof.
  intros root sfs segs t Hroot Hs Hne Ht Hstat. unfold Serve.handleRequest.
  rewrite requestedFile_clean, served_prefix by done. cbn [negb].
  rewrite Hstat, index_path, not_found_path by done.
  destruct (Serve.readFile sfs _); try done.
  replace (root ++ "public" :: segs ++ ["index.html"])
    with ((root ++ "public" :: segs) ++ ["index.html"]) by by rewrite <- List.app_assoc.
  rewrite getMimeType_name; [done| |done].
  apply Forall_app. split; [done|]. by constructor.
Qed.

Lemma handleRequest_directory_index_witness :
  Serve.handleRequest ["site"] (on_disk example_site) "/posts/hello-world/"
  = {| Serve.status := 200; Serve.contentType := "text/html; charset=utf-8";
       Serve.payload := "<h1>Hello</h1>" |} /\
  Serve.handleRequest ["site"] (on_disk example_site) "/posts"
  = {| Serve.status := 404; Serve.contentType := "text/html; charset=utf-8";
       Serve.payload := "<p>Lost.</p>" |}.
Proof.
  split.
  - apply (handleRequest_directory_index ["site"] (on_disk example_site)
             ["posts"; "hello-world"] "/"); try done; by repeat constructor.
  - apply (handleRequest_directory_index ["site"] (on_disk example_site)
             ["posts"] EmptyString); try done; by repeat constructor.
Defined.

(** X6. A request for a name that is missing from the served directory
    is answered with status 404 and the page [404.html] of the served
    directory, or with a one-line page when that cannot be read. *)
Theorem handleRequest_not_found :
  forall root sfs segs,
    Forall (fun s => Path.ordinary s = true) root ->
    Forall (fun s => Path.ordinary s = true) segs -> segs <> [] ->
    Serve.stat sfs (Path.abs (root ++ "public" :: segs)) = Serve.StatENOENT ->
    Serve.readFile sfs (Path.abs (root ++ "public" :: segs)) = Serve.ReadENOENT ->
    Serve.existsSync sfs (Path.abs (root ++ "public" :: segs ++ ["index.html"])) = false ->
    Serve.handleRequest root sfs (Path.abs segs)
    = {| Serve.status := 404; Serve.contentType := "text/html; charset=utf-8";
         Serve.payload :=
           match Serve.readFile sfs (Path.abs (root ++ ["public"; "404.html"])) with
           | Serve.ReadData data404 => data404
           | _ => "<h1>404 Not Found</h1>"
           end |}.
Proof.
  intros root sfs segs Hroot Hs Hne Hstat Hread Hidx. unfold Serve.handleRequest.
  rewrite <- (sapp_nil_r (Path.abs segs)).
  rewrite requestedFile_clean, served_prefix by (done || by left). cbn [negb].
  rewrite index_path, not_found_path by (done || by left).
  rewrite sapp_nil_r, Hstat, Hidx.
  destruct (String.eqb (Path.extname _) EmptyString); by rewrite Hread.
Qed.

Lemma handleRequest_not_found_witness :
  Serve.handleRequest ["site"] (on_disk example_site) "/posts/nothing"
  = {| Serve.status := 404; Serve.contentType := "text/html; charset=utf-8";
       Serve.payload := "<p>Lost.</p>" |} /\
  Serve.handleRequest ["site"] Fixture.empty_site "/posts/nothing"
  = {| Serve.status := 404; Serve.contentType := "text/html; charset=utf-8";
       Serve.payload := "<h1>404 Not Found</h1>" |}.
Proof.
  split.
  - apply (handleRequest_not_found ["site"] (on_disk example_site) ["posts"; "nothing"]);
      try done; by repeat constructor.
  - apply (handleRequest_not_found ["site"] Fixture.empty_site ["posts"; "nothing"]);
      try done; by repeat constructor.
Defined.

(** X7. Where an [index.html] exists only inside an existing
    directory, the look into [<path>/index.html] for a missing path
    without extension never finds anything: the answer is the one the
    server gives without that look. *)
Theorem handleRequest_fallback_never_taken :
  forall root sfs pathname,
    (Serve.existsSync sfs (Path.join [Serve.requestedFile root pathname; "index.html"]) = true ->
     Serve.stat sfs (Serve.requestedFile root pathname) <> Serve.StatENOENT) ->
    Serve.handleRequest root sfs pathname
    = Serve.handleRequest root
        {| Serve.stat := Serve.stat sfs; Serve.readFile := Serve.readFile sfs;
           Serve.existsSync := fun _ => false |} pathname.
Proof.
  intros root sfs pathname H. unfold Serve.handleRequest. cbn [Serve.stat Serve.readFile Serve.existsSync].
  destruct (negb _); [done|].
  destruct (Serve.stat sfs _) eqn:Hstat; try done.
  destruct (String.eqb _ EmptyString); [|done].
  destruct (Serve.existsSync sfs _); [|done]. by destruct H.
Qed.

Lemma handleRequest_fallback_never_taken_witness :
  Serve.handleRequest ["site"] (on_disk example_site) "/posts/hello-world"
  = Serve.handleRequest ["site"]
      {| Serve.stat := Serve.stat (on_disk example_site);
         Serve.readFile := Serve.readFile (on_disk example_site);
         Serve.existsSync := fun _ => false |} "/posts/hello-world".
Proof.
  apply (handleRequest_fallback_never_taken ["site"] (on_disk example_site) "/posts/hello-world").
  intros _. vm_compute. discriminate.
Defined.

(** ** Requests that try to leave the served directory *)

Section Containment.

Import Path.

Lemma segments_join_slash_free l :
  l <> [] -> Forall (fun s => has_slash s = false) l -> segments (JsString.join "/" l) = l.
Proof.
  intros Hne Hl. induction Hl as [|x l Hx Hl IH]; [done|].
  destruct l as [|y l]; [by apply segments_no_slash|].
  rewrite join_cons2, segments_app_slash, IH by done. by rewrite segments_no_slash.
Qed.

Lemma segments_dotdot_next s y rest :
  segments s = ".." :: y :: rest ->
  exists s1, s = String "." (String "." (String "/" s1)).
Proof.
  intros E. destruct s as [|a s]; [done|]. cbn [segments] in E.
  destruct (Ascii.eqb a slash) eqn:Ha; [discriminate E|].
  destruct (segments s) as [|x l] eqn:E1; [discriminate E|]. injection E as -> -> ->.
  destruct s as [|b s]; [discriminate E1|]. cbn [segments] in E1.
  destruct (Ascii.eqb b slash) eqn:Hb; [discriminate E1|].
  destruct (segments s) as [|x l] eqn:E2; [discriminate E1|]. injection E1 as -> -> E1.
  destruct s as [|c s]; [cbn in E2; injection E2 as <-; discriminate E1|].
  cbn [segments] in E2.
  destruct (Ascii.eqb_spec c slash) as [->|Hc]; [by eexists|].
  destruct (segments s); discriminate E2.
Qed.

(** A text on which [strip_dotdots] has nothing to remove. *)
Lemma unstripped_shape s :
  later_clean (segments s) ->
  (forall s1, s <> String "." (String "." (String "/" s1))) ->
  exists x rest,
    segments s = x :: rest /\ Forall (fun s => s <> "..") rest /\ (x = ".." -> rest = []).
Proof.
  intros (k & rest & E & Hrest) Hs.
  destruct k as [|k].
  - cbn [replicate app] in E. destruct rest as [|x rest]; [by apply segments_nonempty in E|].
    exists x, rest. split; [done|]. split; [done|]. intros ->.
    destruct rest as [|y rest]; [done|].
    destruct (segments_dotdot_next _ _ _ E) as (s1 & ->). by destruct (Hs s1).
  - cbn [replicate app] in E.
    destruct (replicate k ".." ++ rest) as [|y more] eqn:E1.
    + exists "..", []. by rewrite E.
    + destruct (segments_dotdot_next _ _ _ E) as (s1 & ->). by destruct (Hs s1).
Qed.

Lemma strip_dotdots_shape n : forall s,
  (String.length s <= n)%nat -> later_clean (segments s) ->
  exists x rest,
    segments (Serve.strip_dotdots s) = x :: rest /\
    Forall (fun s => s <> "..") rest /\ (x = ".." -> rest = []).
Proof.
  induction n as [|n IH]; intros s Hlen Hs.
  { destruct s; [|cbn in Hlen; lia]. by exists EmptyString, []. }
  destruct s as [|a [|b [|c s]]];
    try (apply unstripped_shape; [done|by intros s1]).
  cbn [Serve.strip_dotdots].
  destruct (Ascii.eqb_spec a ".") as [->|Ha]; cbn [andb];
    [|apply unstripped_shape; [done|intros s1 ?; by simplify_eq]].
  destruct (Ascii.eqb_spec b ".") as [->|Hb]; cbn [andb];
    [|apply unstripped_shape; [done|intros s1 ?; by simplify_eq]].
  destruct (Ascii.eqb_spec c "/") as [->|Hc]; cbn [orb].
  - apply IH; [cbn [String.length] in Hlen; lia|].
    destruct Hs as (k & rest & E & Hrest).
    change (segments (String "." (String "." (String "/" s)))) with (".." :: segments s) in E.
    destruct k as [|k].
    + cbn [replicate app] in E. subst rest. cbn [tail] in Hrest.
      exists 0%nat, (segments s). split; [done|]. by apply Forall_tail.
    + cbn [replicate app] in E. injection E as E. by exists k, rest.
  - destruct (Ascii.eqb_spec c "\") as [->|Hc'];
      [|apply unstripped_shape; [done|intros s1 ?; by simplify_eq]].
    apply IH; [cbn [String.length] in Hlen; lia|].
    destruct Hs as (k & rest & E & Hrest).
    cbn [segments] in E. change (Ascii.eqb "." slash) with false in E.
    change (Ascii.eqb "\" slash) with false in E. cbn iota in E.
    destruct (segments s) as [|x1 r1] eqn:E1; [by apply segments_nonempty in E1|].
    destruct k as [|k]; [|done].
    cbn [replicate app] in E. subst rest. cbn [tail] in Hrest.
    by exists 0%nat, (x1 :: r1).
Qed.

Lemma replicate_snoc {A} (x : A) n : replicate n x ++ [x] = x :: replicate n x.
Proof. induction n as [|n IH]; [done|]. cbn [replicate app]. by rewrite IH. Qed.

Lemma rev_replicate {A} (x : A) n : rev (replicate n x) = replicate n x.
Proof.
  induction n as [|n IH]; [done|]. cbn [replicate rev]. by rewrite IH, replicate_snoc.
Qed.

(** The stack of [normalizeString] on a relative path: names on top of
    a run of [..]. *)
Lemma resolve_above_root segs : forall ord k,
  Forall (fun s => has_slash s = false) segs ->
  Forall (fun s => ordinary s = true) ord ->
  exists k' ord',
    resolve true (ord ++ replicate k "..") segs = replicate k' ".." ++ ord' /\
    Forall (fun s => ordinary s = true) ord'.
Proof.
  induction segs as [|seg segs IH]; intros ord k Hsegs Hord.
  - exists k, (rev ord). cbn [resolve]. rewrite rev_app_distr, rev_replicate.
    split; [done|]. by apply Forall_rev.
  - apply Forall_cons in Hsegs as [Hseg Hsegs]. cbn [resolve].
    destruct (String.eqb seg EmptyString) eqn:E1; [by apply IH|].
    destruct (String.eqb seg ".") eqn:E2; [by apply IH|]. cbn [orb].
    destruct (String.eqb_spec seg "..") as [->|E3].
    + destruct ord as [|o ord].
      * destruct k as [|k]; [apply (IH [] 1%nat); by try constructor|].
        cbn [app replicate String.eqb Ascii.eqb Bool.eqb andb].
        apply (IH [] (S (S k))); by try constructor.
      * apply Forall_cons in Hord as [Ho Hord]. cbn [app].
        apply ordinary_inv in Ho as (_ & _ & Ho & _). apply String.eqb_neq in Ho.
        rewrite Ho. by apply IH.
    + apply (IH (seg :: ord) k); [done|]. constructor; [|done].
      unfold ordinary. rewrite E1, E2, Hseg. by apply String.eqb_neq in E3 as ->.
Qed.

Lemma segments_trailing l :
  l <> [] -> Forall (fun s => has_slash s = false) l ->
  segments (JsString.join "/" l +:+ "/") = l ++ [EmptyString].
Proof.
  intros Hne Hl.
  change (JsString.join "/" l +:+ "/") with (JsString.join "/" l +:+ "/" +:+ EmptyString).
  by rewrite segments_app_slash, segments_join_slash_free.
Qed.

Lemma normalize_later_clean p : later_clean (segments (normalize p)).
Proof.
  unfold normalize. cbv zeta. destruct (String.eqb_spec p EmptyString) as [->|Hp].
  { by exists 0%nat, ["."]. }
  destruct (isAbsolute p) eqn:Habs; cbn [negb].
  - set (clean := resolve false [] (segments p)).
    assert (Hclean : Forall (fun s => ordinary s = true) clean)
      by (apply resolve_clean; [constructor | apply segments_slash_free]).
    assert (Hfree : Forall (fun s => has_slash s = false) clean).
    { eapply Forall_impl; [exact Hclean|]. by intros s (_ & _ & _ & ?)%ordinary_inv. }
    assert (Hnd : Forall (fun s => s <> "..") clean).
    { eapply Forall_impl; [exact Hclean|]. by intros s (_ & _ & ? & _)%ordinary_inv. }
    destruct (String.eqb_spec (JsString.join "/" clean) EmptyString) as [E|Hr].
    { exists 0%nat, [EmptyString; EmptyString]. split; [done|by repeat constructor]. }
    assert (Hne : clean <> []) by (by intros E; rewrite E in Hr).
    destruct (JsString.endsWith p "/").
    + change ("/" +:+ JsString.join "/" clean +:+ "/")
        with (EmptyString +:+ "/" +:+ (JsString.join "/" clean +:+ "/")).
      rewrite segments_app_slash, segments_trailing by done.
      exists 0%nat, (EmptyString :: clean ++ [EmptyString]). split; [done|].
      cbn [tail]. apply Forall_app. split; [done|]. by constructor.
    + change ("/" +:+ JsString.join "/" clean)
        with (EmptyString +:+ "/" +:+ JsString.join "/" clean).
      rewrite segments_app_slash, segments_join_slash_free by done.
      by exists 0%nat, (EmptyString :: clean).
  - destruct (resolve_above_root (segments p) [] 0%nat (segments_slash_free p) ltac:(constructor))
      as (k & ord & E & Hord).
    cbn [app replicate] in E. rewrite E. set (L := replicate k ".." ++ ord).
    assert (Hfree : Forall (fun s => has_slash s = false) L).
    { apply Forall_app. split.
      - by apply Forall_replicate.
      - eapply Forall_impl; [exact Hord|]. by intros s (_ & _ & _ & ?)%ordinary_inv. }
    assert (Hnd : Forall (fun s => s <> "..") ord).
    { eapply Forall_impl; [exact Hord|]. by intros s (_ & _ & ? & _)%ordinary_inv. }
    destruct (String.eqb_spec (JsString.join "/" L) EmptyString) as [E0|Hr].
    { destruct (JsString.endsWith p "/").
      - exists 0%nat, ["."; EmptyString]. split; [done|by repeat constructor].
      - by exists 0%nat, ["."]. }
    assert (Hne : L <> []) by (by intros E0; rewrite E0 in Hr).
    destruct (JsString.endsWith p "/").
    + rewrite segments_trailing by done. exists k, (ord ++ [EmptyString]).
      split; [unfold L; by rewrite <- List.app_assoc|]. apply Forall_tail, Forall_app.
      split; [done|]. by constructor.
    + rewrite segments_join_slash_free by done. exists k, ord.
      split; [done|]. by apply Forall_tail.
Qed.

Lemma resolve_no_dotdot segs : forall st,
  Forall (fun s => s <> "..") segs -> Forall (fun s => has_slash s = false) segs ->
  exists clean,
    resolve false st segs = rev st ++ clean /\ Forall (fun s => ordinary s = true) clean.
Proof.
  induction segs as [|seg segs IH]; intros st Hnd Hfree.
  - exists []. cbn [resolve]. by rewrite List.app_nil_r.
  - apply Forall_cons in Hnd as [Hseg Hnd]. apply Forall_cons in Hfree as [Hf Hfree].
    cbn [resolve].
    destruct (String.eqb seg EmptyString) eqn:E1; [by apply IH|].
    destruct (String.eqb seg ".") eqn:E2; [by apply IH|]. cbn [orb].
    apply String.eqb_neq in Hseg. rewrite Hseg.
    destruct (IH (seg :: st) Hnd Hfree) as (clean & -> & Hclean).
    exists (seg :: clean). cbn [rev]. rewrite <- List.app_assoc. split; [done|].
    constructor; [|done]. unfold ordinary. by rewrite E1, E2, Hseg, Hf.
Qed.

Lemma join_abs_empty l :
  l <> [] -> Forall (fun s => ordinary s = true) l -> join [abs l; EmptyString] = abs l.
Proof.
  intros Hne Hl. unfold join. rewrite filter_cons_True by apply abs_not_empty.
  rewrite filter_cons_False by (cbn; auto). cbn [filter JsString.join].
  pose proof (normalize_clean l EmptyString Hne Hl (or_introl eq_refl)) as H.
  by rewrite sapp_nil_r in H.
Qed.

Variable root : list string.
Hypothesis root_ordinary : Forall (fun s => ordinary s = true) root.

Lemma served_dir_longer t :
  t = EmptyString \/ t = "/" ->
  JsString.startsWith ("/" +:+ JsString.join "/" root +:+ t) (Serve.PUBLIC_DIR root) = false.
Proof.
  intros Ht. destruct (JsString.startsWith _ _) eqn:E; [|done].
  apply sprefix_length in E. rewrite served_dir_abs in E by done. unfold abs in E.
  assert (Hlen : (String.length (JsString.join "/" (root ++ ["public"]))
                  >= String.length (JsString.join "/" root) + 6)%nat).
  { destruct root as [|x r]; [cbn; lia|].
    rewrite (join_app "/" (x :: r) ["public"]) by done. rewrite !sapp_length. cbn. lia. }
  rewrite !sapp_length in E. cbn [String.length] in E.
  destruct Ht as [-> | ->]; cbn [String.length] in E; lia.
Qed.

(** Every request path is mapped into the served directory, or to a
    file path that the prefix test rejects. *)
Lemma requestedFile_shape pathname :
  in_served_dir root (Serve.requestedFile root pathname) \/
  JsString.startsWith (Serve.requestedFile root pathname) (Serve.PUBLIC_DIR root) = false.
Proof.
  unfold Serve.requestedFile.
  set (p := if String.eqb pathname "/" then "/index.html" else pathname).
  destruct (strip_dotdots_shape _ (normalize p) (le_n _) (normalize_later_clean p))
    as (x & rest & Hsegs & Hrest & Hx).
  set (safe := Serve.strip_dotdots (normalize p)) in *.
  rewrite served_dir_abs by done.
  destruct (String.eqb_spec safe EmptyString) as [E|Hsafe].
  { left. rewrite E. exists [], EmptyString. split; [constructor|]. split; [by left|].
    rewrite join_abs_empty, sapp_nil_r;
      [done|by intros [_ ?]%app_eq_nil|by apply served_ordinary]. }
  rewrite join_two; [|apply abs_not_empty|done].
  destruct (normalize_absolute _ (isAbsolute_abs (root ++ ["public"]) ("/" +:+ safe)))
    as (t & -> & Ht).
  rewrite segments_app_slash, resolve_abs_prefix, Hsegs by by apply served_ordinary.
  pose proof (segments_slash_free safe) as Hfree. rewrite Hsegs in Hfree.
  destruct (String.eqb_spec x "..") as [->|Hne].
  - right. rewrite (Hx eq_refl). cbn [resolve String.eqb Ascii.eqb Bool.eqb andb orb].
    rewrite rev_app_distr. cbn [rev app resolve String.eqb Ascii.eqb Bool.eqb andb].
    rewrite rev_involutive. rewrite <- served_dir_abs by done. by apply served_dir_longer.
  - left. destruct (resolve_no_dotdot (x :: rest) (rev (root ++ ["public"]))) as (clean & -> & Hc);
      [by constructor|done|].
    rewrite rev_involutive. exists clean, t. split; [done|]. split; [done|].
    unfold abs. by rewrite <- List.app_assoc.
Qed.

End Containment.

(** X8. Whatever path is requested, the server consults the file
    system only at paths inside the served directory: two file systems
    that agree there get the same answer. *)
Theorem handleRequest_reads_inside_served_dir :
  forall root sfs1 sfs2 pathname,
    Forall (fun s => Path.ordinary s = true) root ->
    (forall p, in_served_dir root p ->
       Serve.stat sfs1 p = Serve.stat sfs2 p /\
       Serve.readFile sfs1 p = Serve.readFile sfs2 p /\
       Serve.existsSync sfs1 p = Serve.existsSync sfs2 p) ->
    Serve.handleRequest root sfs1 pathname = Serve.handleRequest root sfs2 pathname.
Proof.
  intros root sfs1 sfs2 pathname Hroot Hagree. unfold Serve.handleRequest.
  destruct (requestedFile_shape root Hroot pathname)
    as [(clean & t & Hclean & Ht & E) | ->]; [|done].
  rewrite E.
  assert (Hin : in_served_dir root (Path.abs (root ++ "public" :: clean) +:+ t))
    by by exists clean, t.
  destruct (Hagree _ Hin) as (Hstat & Hread & _).
  rewrite served_prefix by done. cbn [negb].
  rewrite index_path, not_found_path by done.
  assert (Hidx : in_served_dir root (Path.abs (root ++ "public" :: clean ++ ["index.html"]))).
  { exists (clean ++ ["index.html"]), EmptyString. rewrite sapp_nil_r.
    split; [|by split; [left|]]. apply Forall_app. by repeat constructor. }
  assert (H404 : in_served_dir root (Path.abs (root ++ ["public"; "404.html"]))).
  { exists ["404.html"], EmptyString. rewrite sapp_nil_r.
    split; [by repeat constructor|by split; [left|]]. }
  destruct (Hagree _ Hidx) as (_ & Hread_idx & Hex_idx).
  destruct (Hagree _ H404) as (_ & Hread_404 & _).
  rewrite <- Hstat, <- Hex_idx, <- Hread_404.
  destruct (Serve.stat sfs1 _).
  - by rewrite <- Hread_idx.
  - by rewrite <- Hread.
  - destruct (String.eqb _ EmptyString); [|by rewrite <- Hread].
    destruct (Serve.existsSync sfs1 _); [by rewrite <- Hread_idx|by rewrite <- Hread].
  - by rewrite <- Hread.
Qed.

Lemma handleRequest_reads_inside_served_dir_witness :
  Serve.handleRequest ["site"] (on_disk example_site) "..\../etc/passwd"
  = Serve.handleRequest ["site"] (inside_only "/site/public" (on_disk example_site))
      "..\../etc/passwd".
Proof.
  assert (Hroot : Forall (fun s => Path.ordinary s = true) ["site"]) by by repeat constructor.
  apply (handleRequest_reads_inside_served_dir ["site"] _ _ _ Hroot).
  intros p (clean & t & _ & _ & ->).
  pose proof (served_prefix ["site"] Hroot clean t) as H.
  change (Serve.PUBLIC_DIR ["site"]) with "/site/public" in H.
  unfold inside_only. cbn [Serve.stat Serve.readFile Serve.existsSync]. by rewrite H.
Defined.

(** X9. The guard of the server holds for every request path, relative
    paths and paths with backslashes included: a request that is not
    answered with 403 is mapped to the served directory itself or to a
    path of names below it. *)
Theorem handleRequest_stays_in_served_dir :
  forall root sfs pathname,
    Forall (fun s => Path.ordinary s = true) root ->
    Serve.status (Serve.handleRequest root sfs pathname) = 403 \/
    in_served_dir root (Serve.requestedFile root pathname).
Proof.
  intros root sfs pathname Hroot.
  destruct (requestedFile_shape root Hroot pathname) as [Hin | Hout]; [by right|].
  left. by apply handleRequest_status.
Qed.

Lemma handleRequest_stays_in_served_dir_witness :
  Serve.status (Serve.handleRequest ["site"] Fixture.empty_site "..\../public-old/x") = 403 \/
  in_served_dir ["site"] (Serve.requestedFile ["site"] "..\../public-old/x").
Proof.
  apply (handleRequest_stays_in_served_dir ["site"] Fixture.empty_site "..\../public-old/x").
  by repeat constructor.
Defined.

(** ** Placeholders *)

Section Placeholders.

Import JsString.

Lemma skip_white_blank ws s : blank ws = true -> skip_white (ws +:+ s) = skip_white s.
Proof.
  induction ws as [|c ws IH]; [done|]. cbn [blank]. intros [Hc Hws]%andb_true_iff.
  rewrite sapp_cons. cbn [skip_white]. rewrite Hc. by apply IH.
Qed.

Lemma word_char_black c : word_char c = true -> is_white c = false.
Proof. by destruct c as [[] [] [] [] [] [] [] []]. Qed.

Lemma after_prefix_app p s : after_prefix p (p +:+ s) = Some s.
Proof. unfold after_prefix. by rewrite sprefix_app, sdrop_app. Qed.

Lemma after_prefix_key key ws s :
  word_key key = true -> blank ws = true ->
  exists s', after_prefix key (skip_white (key +:+ ws +:+ "}}" +:+ s)) = Some s'
             /\ skip_white s' = "}}" +:+ s.
Proof.
  intros Hkey Hws. destruct key as [|c key].
  - rewrite sapp_nil_l, skip_white_blank by done. eexists. split; [reflexivity|].
    unfold drop. done.
  - cbn [word_key] in Hkey. apply andb_true_iff in Hkey as [Hc _].
    rewrite sapp_cons. cbn [skip_white]. rewrite (word_char_black c Hc).
    rewrite <- sapp_cons, after_prefix_app. eexists. split; [reflexivity|].
    by rewrite skip_white_blank.
Qed.

(** The placeholder of a key, with white space around the key, is
    matched in its whole length. *)
Lemma placeholder_matches key ws1 ws2 s :
  word_key key = true -> blank ws1 = true -> blank ws2 = true ->
  placeholder key ("{{" +:+ ws1 +:+ key +:+ ws2 +:+ "}}" +:+ s)
  = Some (String.length ("{{" +:+ ws1 +:+ key +:+ ws2 +:+ "}}")).
Proof.
  intros Hkey H1 H2. unfold placeholder. rewrite after_prefix_app.
  rewrite skip_white_blank by done.
  destruct (after_prefix_key key ws2 s Hkey H2) as (s' & -> & ->).
  rewrite after_prefix_app. f_equal.
  rewrite !sapp_length. cbn [String.length]. lia.
Qed.

Lemma placeholder_needs_brace key c s :
  Ascii.eqb c "{" = false -> placeholder key (String c s) = None.
Proof.
  intros Hc. unfold placeholder, after_prefix. cbn [String.prefix].
  destruct (ascii_dec "{" c) as [<-|]; [done|reflexivity].
Qed.

Variable m : matcher.
Variable v : string.

Lemma replace_go_before skip b b' s :
  replace_go m (ByFunction (fun _ => v)) skip b s
  = replace_go m (ByFunction (fun _ => v)) skip b' s.
Proof. by rewrite !replace_go_pieces. Qed.

Lemma replace_go_skip a : forall b s,
  replace_go m (ByFunction (fun _ => v)) (String.length a) b (a +:+ s)
  = replace_go m (ByFunction (fun _ => v)) 0 b s.
Proof.
  induction a as [|c a IH]; intros b s; [done|].
  rewrite sapp_cons. cbn [String.length replace_go]. rewrite IH. apply replace_go_before.
Qed.

Lemma replace_go_copy pre : forall b s,
  (forall c t, has_unit c pre = true -> m (String c t) = None) ->
  replace_go m (ByFunction (fun _ => v)) 0 b (pre +:+ s)
  = pre +:+ replace_go m (ByFunction (fun _ => v)) 0 b s.
Proof.
  induction pre as [|c pre IH]; intros b s H; [done|].
  rewrite !sapp_cons. cbn [replace_go].
  rewrite (H c) by (cbn [has_unit]; by rewrite Ascii.eqb_refl).
  rewrite IH.
  - f_equal. f_equal. apply replace_go_before.
  - intros d t Hd. apply H. cbn [has_unit]. by rewrite Hd, orb_true_r.
Qed.

End Placeholders.

Lemma has_unit_false c d s : has_unit c s = false -> has_unit d s = true -> Ascii.eqb d c = false.
Proof.
  intros Hc Hd. destruct (Ascii.eqb_spec d c) as [->|]; [|done]. by rewrite Hc in Hd.
Qed.

(** X10. A placeholder is the key between double braces, with any
    white space around the key.  The first placeholder of a key, behind
    a text without an opening brace, is replaced by the value as it is,
    and the scan goes on behind the placeholder: the inserted value is
    not scanned again for this key. *)
Theorem renderTemplate_fills_placeholder :
  forall key value pre ws1 ws2 post,
    word_key key = true -> blank ws1 = true -> blank ws2 = true ->
    has_unit "{" pre = false ->
    renderTemplate (pre +:+ "{{" +:+ ws1 +:+ key +:+ ws2 +:+ "}}" +:+ post) [(key, value)]
    = pre +:+ value +:+ renderTemplate post [(key, value)].
Proof.
  intros key value pre ws1 ws2 post Hkey H1 H2 Hpre.
  unfold renderTemplate. cbn [fold_left fst snd]. unfold JsString.replace_all.
  rewrite replace_go_copy.
  2:{ intros c t Hc. apply placeholder_needs_brace. by apply (has_unit_false _ _ pre). }
  f_equal.
  pose proof (placeholder_matches key ws1 ws2 post Hkey H1 H2) as Hm.
  set (P := "{{" +:+ ws1 +:+ key +:+ ws2 +:+ "}}") in *.
  replace ("{{" +:+ ws1 +:+ key +:+ ws2 +:+ "}}" +:+ post) with (P +:+ post) in *
    by (subst P; by rewrite !sapp_assoc).
  assert (HP : exists P', P = String "{" P') by (by eexists).
  destruct HP as [P' HP]. rewrite HP in *. rewrite sapp_cons in *.
  cbn [JsString.replace_go]. rewrite Hm. cbn [String.length JsString.substitution].
  f_equal.
  rewrite replace_go_skip. apply replace_go_before.
Qed.

Lemma renderTemplate_fills_placeholder_witness :
  renderTemplate "<h1>{{ title }}</h1>{{title}}" [("title", "$& {{title}}")]
  = "<h1>$& {{title}}</h1>$& {{title}}".
Proof.
  exact (eq_trans
           (renderTemplate_fills_placeholder "title" "$& {{title}}" "<h1>" " " " "
              "</h1>{{title}}" eq_refl eq_refl eq_refl eq_refl)
           eq_refl).
Defined.

(** ** More on the document parser *)

(** X11. [parseDocument] throws when the path is not a regular file and
    when the header of the file does not load; otherwise it changes
    nothing, the slug of the document is the file name without [.md]
    and the body is the conversion of the text behind the header. *)
Theorem parseDocument_outcome :
  forall h l stem st,
    Forall (fun s => Path.ordinary s = true) l ->
    Path.ordinary (stem +:+ ".md") = true -> stem <> EmptyString ->
    match files st !! Path.abs (l ++ [stem +:+ ".md"]) with
    | Some (File content) =>
        match matter h content with
        | Some (data, markdown) =>
            exists d,
              parseDocument h (Path.abs (l ++ [stem +:+ ".md"])) st = Some (d, st) /\
              slug d = stem /\ body d = marked_parse h markdown
        | None => parseDocument h (Path.abs (l ++ [stem +:+ ".md"])) st = None
        end
    | _ => parseDocument h (Path.abs (l ++ [stem +:+ ".md"])) st = None
    end.
Proof.
  intros h l stem st Hl Hname Hstem.
  destruct (files st !! _) as [[content|]|] eqn:Hf;
    try (unfold parseDocument, bind, Fs.readFileSync; by rewrite Hf).
  destruct (matter h content) as [[data markdown]|] eqn:Hm.
  - eexists. split; [by eapply parseDocument_parts|].
    cbn [slug body]. split; [by apply basename_md|done].
  - unfold parseDocument, bind, Fs.readFileSync, lift. by rewrite Hf, Hm.
Qed.

Lemma parseDocument_outcome_witness :
  (exists d,
     parseDocument Fixture.host "/site/writing/posts/hello-world.md"
       {| files := Fixture.project; console := [] |}
     = Some (d, {| files := Fixture.project; console := [] |}) /\
     slug d = "hello-world" /\ body d = "<p>Hello, world.</p>" +:+ newline) /\
  parseDocument Fixture.host "/site/writing/posts/missing.md"
    {| files := Fixture.project; console := [] |} = None.
Proof.
  assert (Hl : Forall (fun s => Path.ordinary s = true) ["site"; "writing"; "posts"])
    by by repeat constructor.
  split.
  - exact (parseDocument_outcome Fixture.host ["site"; "writing"; "posts"] "hello-world"
             {| files := Fixture.project; console := [] |} Hl eq_refl ltac:(done)).
  - exact (parseDocument_outcome Fixture.host ["site"; "writing"; "posts"] "missing"
             {| files := Fixture.project; console := [] |} Hl eq_refl ltac:(done)).
Defined.

(** X12. A metadata value that is missing or falsy (the empty text, 0,
    [false], [null]) gives way to the default of its field, a truthy
    one is kept as it is, whatever its type.  A post with a falsy date
    has the empty date label and is sorted as 1 January 1970. *)
Theorem parseDocument_falsy_metadata :
  forall h filePath content data markdown st,
    files st !! filePath = Some (File content) ->
    matter h content = Some (data, markdown) ->
    exists d,
      parseDocument h filePath st = Some (d, st) /\
      (JsValue.truthy (field data "title") = false -> title d = JStr "Untitled") /\
      (JsValue.truthy (field data "title") = true -> title d = field data "title") /\
      (JsValue.truthy (field data "template") = false -> template d = JStr "post") /\
      (JsValue.truthy (field data "date") = false ->
       date d = JStr EmptyString /\ formatPostDate h (date d) = EmptyString /\
       sort_key h d = Some 0).
Proof.
  intros h filePath content data markdown st Hf Hm.
  eexists. split; [by eapply parseDocument_parts|].
  cbn [title template date]. unfold JsValue.or.
  split; [by intros ->|]. split; [by intros ->|]. split; [by intros ->|].
  intros Hd. rewrite Hd. split; [done|]. split; [done|].
  unfold sort_key. cbn [date]. reflexivity.
Qed.

Lemma parseDocument_falsy_metadata_witness :
  exists d,
    parseDocument Fixture.host "/p.md"
      {| files := {["/p.md" := File "---
title: 0
date: false
---
Text"]}; console := [] |}
    = Some (d, {| files := {["/p.md" := File "---
title: 0
date: false
---
Text"]}; console := [] |}) /\
    title d = JStr "Untitled" /\ formatPostDate Fixture.host (date d) = EmptyString /\
    sort_key Fixture.host d = Some 0.
Proof.
  destruct (parseDocument_falsy_metadata Fixture.host "/p.md" "---
title: 0
date: false
---
Text" (<["title" := JNum 0]> (<["date" := JBool false]> ∅)) "Text"
              {| files := {["/p.md" := File "---
title: 0
date: false
---
Text"]}; console := [] |} ltac:(by vm_compute) ltac:(by vm_compute))
    as (d & Hd & Ht & _ & _ & Hdate).
  exists d. split; [exact Hd|]. split; [exact (Ht eq_refl)|].
  destruct (Hdate eq_refl) as (_ & H1 & H2). by split.
Defined.

(** ** The order of posts with equal dates *)

Section Stability.

Variable h : Host.

Lemma sort_insert_filter k x kx l :
  sort_key h x = Some kx -> Forall (fun d => is_Some (sort_key h d)) l ->
  filter (fun d => sort_key h d = Some k) (sort_insert (by_date_descending h) x l)
  = filter (fun d => sort_key h d = Some k) (x :: l).
Proof.
  intros Hx Hl. induction Hl as [|y l [ky Hy] Hl IH]; [done|]. cbn [sort_insert].
  rewrite (SortCompare_keys h x y kx ky Hx Hy).
  destruct (ky - kx <=? 0) eqn:E; [done|]. apply Z.leb_gt in E.
  rewrite filter_cons, IH, !filter_cons.
  destruct (decide (sort_key h y = Some k)) as [Hyk|Hyk];
    destruct (decide (sort_key h x = Some k)) as [Hxk|Hxk]; try done.
  rewrite Hx in Hxk. rewrite Hy in Hyk. simplify_eq. lia.
Qed.

End Stability.

(** X13. The sort of the index is stable: posts with the same time
    value, and so all posts without a date, keep the order they were
    given in. *)
Theorem sortedPosts_stable :
  forall h posts k,
    Forall (fun d => is_Some (sort_key h d)) posts ->
    filter (fun d => sort_key h d = Some k) (sortedPosts h posts)
    = filter (fun d => sort_key h d = Some k) posts.
Proof.
  intros h posts k. unfold sortedPosts, Array_sort.
  induction 1 as [|x l [kx Hx] Hl IH]; [done|]. cbn [foldr].
  rewrite (sort_insert_filter h k x kx); [|done|].
  - by rewrite !filter_cons, IH.
  - fold (Array_sort (by_date_descending h) l). by rewrite Array_sort_Permutation.
Qed.

Lemma sortedPosts_stable_witness :
  let posts := [Fixture.dated "a" "2025-01-10"; Fixture.dated "undated-1" EmptyString;
                Fixture.dated "b" "2025-03-01"; Fixture.dated "undated-2" EmptyString] in
  Forall (fun d => is_Some (sort_key Fixture.host d)) posts /\
  map slug (sortedPosts Fixture.host posts) = ["b"; "a"; "undated-1"; "undated-2"] /\
  map slug (filter (fun d => sort_key Fixture.host d = Some 0) (sortedPosts Fixture.host posts))
  = ["undated-1"; "undated-2"].
Proof.
  intros posts.
  assert (H : Forall (fun d => is_Some (sort_key Fixture.host d)) posts)
    by (repeat constructor; eexists; vm_compute; reflexivity).
  split; [exact H|]. split; [by vm_compute|].
  rewrite (sortedPosts_stable Fixture.host posts 0 H). by vm_compute.
Defined.

(** ** The calendar date of a label *)

Section Calendar.

Import DateUTC.

Lemma era_check_all :
  forallb (fun yoe => forallb (era_check yoe) (seqZ 1 12)) (seqZ 0 400) = true.
Proof. vm_compute. reflexivity. Qed.

Lemma era_check_month yoe m :
  0 <= yoe < 400 -> 1 <= m <= 12 -> era_check yoe m = true.
Proof.
  intros Hy Hm. pose proof era_check_all as H.
  rewrite forallb_forall in H. specialize (H yoe).
  rewrite <- list_elem_of_In, elem_of_seqZ in H. specialize (H ltac:(lia)).
  rewrite forallb_forall in H. apply H.
  rewrite <- list_elem_of_In, elem_of_seqZ. lia.
Qed.

Lemma era_check_day yoe m d :
  era_check yoe m = true ->
  1 <= d <= days_in_month (yoe + (if m <=? 2 then 1 else 0)) m ->
  0 <= era_day yoe m d < 146097 /\ era_date (era_day yoe m d) = (yoe, m, d).
Proof.
  unfold era_check. intros H Hd. rewrite forallb_forall in H. specialize (H d).
  rewrite <- list_elem_of_In, elem_of_seqZ in H. specialize (H ltac:(lia)).
  cbv zeta in H. destruct (era_date (era_day yoe m d)) as [[yoe' m'] d'].
  rewrite !andb_true_iff in H. destruct H as ((((H1 & H2) & H3) & H4) & H5).
  apply Z.leb_le in H1. apply Z.ltb_lt in H2.
  apply Z.eqb_eq in H3, H4, H5. by subst.
Qed.

Lemma era_round_trip yoe m d :
  0 <= yoe < 400 -> 1 <= m <= 12 ->
  1 <= d <= days_in_month (yoe + (if m <=? 2 then 1 else 0)) m ->
  0 <= era_day yoe m d < 146097 /\ era_date (era_day yoe m d) = (yoe, m, d).
Proof. intros Hy Hm Hd. apply era_check_day; [by apply era_check_month|done]. Qed.

Lemma days_from_civil_era y m d :
  days_from_civil y m d
  = (if m <=? 2 then y - 1 else y) / 400 * 146097
    + era_day ((if m <=? 2 then y - 1 else y) mod 400) m d - 719468.
Proof. reflexivity. Qed.

Lemma civil_from_days_era z :
  civil_from_days z
  = let '(yoe, m, d) := era_date ((z + 719468) mod 146097) in
    let y := yoe + (z + 719468) / 146097 * 400 in
    (if m <=? 2 then y + 1 else y, m, d).
Proof. reflexivity. Qed.

Lemma leap_year_era y e : leap_year (y + e * 400) = leap_year y.
Proof.
  unfold leap_year.
  replace ((y + e * 400) mod 4) with (y mod 4) by (Z.div_mod_to_equations; lia).
  replace ((y + e * 400) mod 100) with (y mod 100) by (Z.div_mod_to_equations; lia).
  replace ((y + e * 400) mod 400) with (y mod 400) by (Z.div_mod_to_equations; lia).
  done.
Qed.

(** The day number of a calendar date is the day number of that
    date. *)
Lemma civil_round_trip y m d :
  calendar_date y m d -> civil_from_days (days_from_civil y m d) = (y, m, d).
Proof.
  intros [Hm Hd]. rewrite civil_from_days_era, days_from_civil_era.
  set (y' := if m <=? 2 then y - 1 else y).
  set (e := y' / 400). set (yoe := y' mod 400).
  assert (Hyoe : 0 <= yoe < 400) by (apply Z.mod_pos_bound; lia).
  assert (Hy' : y' = yoe + e * 400) by (subst yoe e; Z.div_mod_to_equations; lia).
  assert (Hleap : days_in_month (yoe + (if m <=? 2 then 1 else 0)) m = days_in_month y m).
  { unfold days_in_month. destruct (m =? 2); [|done].
    replace y with ((yoe + (if m <=? 2 then 1 else 0)) + e * 400).
    - by rewrite leap_year_era.
    - subst y'. destruct (m <=? 2); lia. }
  destruct (era_round_trip yoe m d Hyoe Hm ltac:(by rewrite Hleap)) as [Hdoe Hdate].
  replace (e * 146097 + era_day yoe m d - 719468 + 719468)
    with (era_day yoe m d + e * 146097) by lia.
  rewrite Z.mod_add, Z.div_add by lia.
  rewrite (Z.mod_small _ _ Hdoe), (Z.div_small _ _ Hdoe), Hdate. cbn [Z.add].
  subst y'. destruct (m <=? 2); f_equal; f_equal; lia.
Qed.

Lemma Day_of_time z ms : 0 <= ms < msPerDay -> Day (z * msPerDay + ms) = z.
Proof.
  intros H. unfold Day, msPerDay in *. symmetry. apply (Z.div_unique _ _ _ ms); lia.
Qed.

End Calendar.

(** X14. The label of a post shows the calendar day of its date in
    UTC: a [Date] at any time of the day [d] of month [m] of a year [y]
    from 10 on is labelled with the weekday of that day, the name of
    month [m], the number [d] and the two low-order digits of [y]. *)
Theorem formatPostDate_calendar_date :
  forall h y m d ms,
    calendar_date y m d -> 10 <= y -> 0 <= ms < DateUTC.msPerDay ->
    formatPostDate h (JDate (Some (DateUTC.days_from_civil y m d * DateUTC.msPerDay + ms)))
    = name_at weekdays ((DateUTC.days_from_civil y m d + 4) mod 7) +:+ " "
      +:+ name_at months (m - 1) +:+ " " +:+ JsString.of_Z d +:+ " '" +:+ two_digit_year y.
Proof.
  intros h y m d ms Hdate Hy Hms. cbn [formatPostDate JsValue.truthy negb].
  set (t := DateUTC.days_from_civil y m d * DateUTC.msPerDay + ms).
  destruct (date_label_spelled t) as (wd & mo & Hwd & Hmo & ->).
  assert (Hday : DateUTC.Day t = DateUTC.days_from_civil y m d) by by apply Day_of_time.
  unfold DateUTC.getUTCDate, DateUTC.getUTCFullYear.
  unfold DateUTC.getUTCDay, DateUTC.getUTCMonth in Hwd, Hmo.
  rewrite Hday, civil_round_trip in * by done. cbn [fst snd] in *.
  rewrite slice_last_2_year by done.
  unfold name_at.
  destruct (Z.ltb_spec ((DateUTC.days_from_civil y m d + 4) mod 7) 0) as [Hneg|_].
  { pose proof (Z.mod_pos_bound (DateUTC.days_from_civil y m d + 4) 7 ltac:(lia)). lia. }
  destruct (Z.ltb_spec (m - 1) 0) as [Hneg|_]; [unfold calendar_date in Hdate; lia|].
  by rewrite Hwd, Hmo.
Qed.

Lemma formatPostDate_calendar_date_witness :
  calendar_date 2024 2 29 /\
  formatPostDate Fixture.host (JDate (Some (DateUTC.days_from_civil 2024 2 29 * 86400000 + 86399999)))
  = "Thu Feb 29 '24".
Proof.
  assert (H : calendar_date 2024 2 29)
    by (unfold calendar_date; change (days_in_month 2024 2) with 29; lia).
  split; [exact H|].
  exact (eq_trans
           (formatPostDate_calendar_date Fixture.host 2024 2 29 86399999 H
              ltac:(lia) ltac:(unfold DateUTC.msPerDay; lia))
           eq_refl).
Defined.

(** ** The footer of the about page *)

Section Footer.

Import JsString.







End Footer.



(** ** The file system operations of the build *)

Section FileSystem.

Import Path.

(** [mkdir -p] keeps what is there and adds directories only. *)
Lemma mkdir_p_keeps fuel : forall p fs fs',
  Fs.mkdir_p fuel p fs = Some fs' ->
  (forall q n, fs !! q = Some n -> fs' !! q = Some n) /\
  (forall q, fs !! q = None -> fs' !! q = None \/ fs' !! q = Some Dir).
Proof.
  induction fuel as [|fuel IH]; intros p fs fs'; cbn [Fs.mkdir_p];
    (destruct (String.eqb p "/"); [intros [= <-]; by auto|]);
    destruct (fs !! p) as [[c|]|] eqn:E; try done; try (intros [= <-]; by auto).
  destruct (Fs.mkdir_p fuel (dirname p) fs) as [fs1|] eqn:E1; [|done]. intros [= <-].
  destruct (IH _ _ _ E1) as [Hkeep Hnew]. split.
  - intros q n Hq. rewrite lookup_insert_ne; [by apply Hkeep|]. intros <-. congruence.
  - intros q Hq. destruct (decide (p = q)) as [<-|Hne].
    + right. apply lookup_insert_eq.
    + rewrite lookup_insert_ne by done. by apply Hnew.
Qed.


End FileSystem.




(** ** The files of a directory *)

Section Listing.

Import Path.

Lemma sprefix_split p s : String.prefix p s = true -> s = p +:+ JsString.drop (String.length p) s.
Proof.
  revert s. induction p as [|d p IH]; intros s E; [by destruct s|].
  destruct s as [|c s]; [discriminate E|]. cbn [String.prefix] in E.
  destruct (ascii_dec d c) as [->|]; [|discriminate E].
  rewrite sapp_cons. cbn [String.length JsString.drop]. f_equal. by apply IH.
Qed.

Lemma after_prefix_Some p s r : JsString.after_prefix p s = Some r <-> s = p +:+ r.
Proof.
  unfold JsString.after_prefix. split.
  - destruct (String.prefix p s) eqn:E; [|done]. intros [= <-]. by apply sprefix_split.
  - intros ->. by rewrite sprefix_app, sdrop_app.
Qed.

Lemma sapp_inv_head p s t : p +:+ s = p +:+ t -> s = t.
Proof. induction p as [|c p IH]; [done|]. rewrite !sapp_cons. intros [= H]. by apply IH. Qed.

Lemma NoDup_omap {A B} (f : A -> option B) (l : list A) :
  (forall x y z, f x = Some z -> f y = Some z -> x = y) -> NoDup l -> NoDup (omap f l).
Proof.
  intros Hinj. induction 1 as [|x l Hx Hl IH]; [constructor|]. simpl.
  destruct (f x) as [z|] eqn:E; [|done]. constructor; [|done].
  intros (y & Hy & Ey)%list_elem_of_omap. by rewrite (Hinj x y z E Ey) in Hx.
Qed.

(** The entries of a directory are the names of the paths right below
    it, each once. *)
Lemma elem_of_entries (fs : gmap string node) p name :
  name ∈ Fs.entries fs p <-> ordinary name = true /\ is_Some (fs !! (p +:+ "/" +:+ name)).
Proof.
  unfold Fs.entries. rewrite list_elem_of_omap. split.
  - intros (k & Hk & Hf). destruct (JsString.after_prefix (p +:+ "/") k) as [n|] eqn:E; [|done].
    destruct (ordinary n) eqn:Ho; [|done]. injection Hf as ->.
    apply after_prefix_Some in E. subst k. split; [done|].
    change (map fst (map_to_list fs)) with ((map_to_list fs).*1) in Hk.
    apply list_elem_of_fmap in Hk as ([k v] & Hk & Hkv). cbn in Hk. subst.
    apply elem_of_map_to_list in Hkv. rewrite <- sapp_assoc. by eexists.
  - intros (Ho & [v Hv]). exists (p +:+ "/" +:+ name). split.
    + change (map fst (map_to_list fs)) with ((map_to_list fs).*1).
      apply list_elem_of_fmap. exists (p +:+ "/" +:+ name, v). split; [done|].
      by apply elem_of_map_to_list.
    + rewrite <- sapp_assoc. rewrite (proj2 (after_prefix_Some _ _ name) eq_refl). by rewrite Ho.
Qed.

Lemma NoDup_entries (fs : gmap string node) p : NoDup (Fs.entries fs p).
Proof.
  unfold Fs.entries. apply NoDup_omap.
  - intros x y z Hx Hy.
    destruct (JsString.after_prefix (p +:+ "/") x) as [n|] eqn:Ex; [|done].
    destruct (JsString.after_prefix (p +:+ "/") y) as [n'|] eqn:Ey; [|done].
    destruct (ordinary n); [|done]. destruct (ordinary n'); [|done].
    injection Hx as ->. injection Hy as ->.
    apply after_prefix_Some in Ex, Ey. congruence.
  - change (map fst (map_to_list fs)) with ((map_to_list fs).*1).
    apply NoDup_fst_map_to_list.
Qed.

Lemma abs_snoc l x : l <> [] -> abs (l ++ [x]) = abs l +:+ "/" +:+ x.
Proof. intros Hne. unfold abs. rewrite join_app by done. by rewrite !sapp_assoc. Qed.

Lemma getFilesWithExtension_spec l ext st :
  Forall (fun s => ordinary s = true) l -> l <> [] ->
  files st !! abs l = Some Dir ->
  getFilesWithExtension (abs l) ext st
  = Some (map (fun name => abs (l ++ [name]))
            (List.filter (fun file => JsString.endsWith file ext) (Fs.entries (files st) (abs l))),
          st).
Proof.
  intros Hl Hne Hdir. unfold getFilesWithExtension, bind, Fs.existsSync, Fs.readdirSync, ret.
  rewrite Hdir, orb_true_r. cbn [negb]. unfold Fs.is_dir. rewrite Hdir.
  destruct (String.eqb (abs l) "/"); f_equal; f_equal; apply map_ext_in;
    intros name [Hname _]%filter_In; apply list_elem_of_In, elem_of_entries in Hname as [Ho _];
    apply join_abs; by repeat constructor.
Qed.

End Listing.

(** X19. In a directory that exists [getFilesWithExtension] finds, each
    once, the paths of the entries right inside the directory whose
    names end with the extension: regular files and directories alike,
    nothing from deeper levels, and it changes nothing.  On a missing
    path it finds nothing; on a path that is a regular file it throws. *)
Theorem getFilesWithExtension_lists_directory :
  forall l ext st,
    Forall (fun s => Path.ordinary s = true) l -> l <> [] ->
    match files st !! Path.abs l with
    | Some Dir =>
        exists found,
          getFilesWithExtension (Path.abs l) ext st = Some (found, st) /\
          NoDup found /\
          forall p, p ∈ found <->
                    exists name, p = Path.abs (l ++ [name]) /\
                                 Path.ordinary name = true /\
                                 JsString.endsWith name ext = true /\
                                 is_Some (files st !! p)
    | Some (File _) => getFilesWithExtension (Path.abs l) ext st = None
    | None => getFilesWithExtension (Path.abs l) ext st = Some ([], st)
    end.
Proof.
  intros l ext st Hl Hne.
  assert (Hroot : String.eqb (Path.abs l) "/" = false).
  { apply String.eqb_neq. change "/" with (Path.abs []). by intros ?%abs_inj. }
  destruct (files st !! Path.abs l) as [[c|]|] eqn:E.
  - unfold getFilesWithExtension, bind, Fs.existsSync, Fs.readdirSync, Fs.is_dir.
    rewrite E, Hroot. cbn [orb negb]. by rewrite E.
  - eexists. split; [by apply getFilesWithExtension_spec|]. split.
    + apply NoDup_fmap_2_strong;
        [|apply NoDup_ListNoDup, List.NoDup_filter, NoDup_ListNoDup, NoDup_entries].
      intros x y [Hx _]%list_elem_of_In%filter_In [Hy _]%list_elem_of_In%filter_In Exy.
      apply list_elem_of_In, elem_of_entries in Hx as [Hx _].
      apply list_elem_of_In, elem_of_entries in Hy as [Hy _].
      apply abs_inj in Exy; [|apply Forall_app; by repeat constructor..].
      by apply app_inv_head in Exy as [= ->].
    + intros p. rewrite list_elem_of_In, in_map_iff. split.
      * intros (name & <- & [Hname Hext]%filter_In).
        apply list_elem_of_In, elem_of_entries in Hname as [Ho Hthere].
        exists name. by rewrite abs_snoc.
      * intros (name & -> & Ho & Hext & Hthere). exists name. split; [done|].
        apply filter_In. split; [|done]. apply list_elem_of_In, elem_of_entries.
        split; [done|]. by rewrite abs_snoc in Hthere.
  - unfold getFilesWithExtension, bind, Fs.existsSync. by rewrite E, Hroot.
Qed.

Lemma getFilesWithExtension_lists_directory_witness :
  exists found,
    getFilesWithExtension "/site/writing/posts" ".md" {| files := Fixture.project; console := [] |}
    = Some (found, {| files := Fixture.project; console := [] |}) /\
    NoDup found /\
    forall p, p ∈ found <->
              exists name, p = Path.abs (["site"; "writing"; "posts"] ++ [name]) /\
                           Path.ordinary name = true /\
                           JsString.endsWith name ".md" = true /\
                           is_Some (Fixture.project !! p).
Proof.
  exact (getFilesWithExtension_lists_directory ["site"; "writing"; "posts"] ".md"
           {| files := Fixture.project; console := [] |}
           ltac:(by repeat constructor) ltac:(done)).
Defined.

(** ** The build and the sources *)

Section Frame.

Import Path.

Lemma endsWith_no_slash x s :
  s <> EmptyString -> has_slash s = false -> JsString.endsWith (x +:+ s) "/" = false.
Proof.
  intros Hne Hs. unfold JsString.endsWith.
  rewrite srev_app_distr. rewrite <- has_slash_rev in Hs.
  destruct (String.rev s) as [|c r] eqn:E.
  - apply (f_equal String.rev) in E. rewrite srev_involutive in E. by subst.
  - cbn [has_slash] in Hs. apply orb_false_iff in Hs as [Hc _].
    rewrite sapp_cons. change (String.rev "/") with "/". cbn [String.prefix].
    destruct (ascii_dec "/" c) as [<-|]; [done|reflexivity].
Qed.

Lemma has_slash_take n : forall s, has_slash s = false -> has_slash (JsString.take n s) = false.
Proof.
  induction n as [|n IH]; intros [|c s]; try done. cbn [has_slash JsString.take].
  intros [Hc Hs]%orb_false_iff. by rewrite Hc, IH.
Qed.

Lemma last_segment_no_slash p : has_slash (last_segment p) = false.
Proof.
  unfold last_segment. pose proof (segments_slash_free p) as H.
  apply Forall_rev in H. induction H as [|x l Hx Hl IH]; [done|].
  destruct (decide (x = EmptyString)) as [->|Hne].
  - by rewrite filter_cons_False by (cbn; auto).
  - by rewrite filter_cons_True.
Qed.

Lemma basename_no_slash p ext : has_slash (basename p ext) = false.
Proof.
  unfold basename. destruct (String.eqb p ext); [done|].
  destruct (_ && _)%bool; [apply has_slash_take|]; apply last_segment_no_slash.
Qed.

Variable h : Host.
Variable root : list string.
Hypothesis root_ordinary : Forall (fun s => ordinary s = true) root.

(** The directory of a post lies in the output directory, whatever
    the slug. *)
Lemma post_dir_in_output s :
  has_slash s = false ->
  exists l, Forall (fun x => ordinary x = true) l /\
            join [PUBLIC_DIR root; POSTS_SUBDIR; s] = abs (root ++ "public" :: l).
Proof.
  intros Hs. rewrite PUBLIC_DIR_abs by done. unfold POSTS_SUBDIR.
  destruct (ordinary s) eqn:Ho.
  { exists ["posts"; s]. split; [by repeat constructor|].
    rewrite join_abs; [by rewrite <- List.app_assoc|by apply served_ordinary|by repeat constructor]. }
  destruct (String.eqb_spec s EmptyString) as [->|Hne].
  { exists ["posts"]. split; [by repeat constructor|].
    replace (join [abs (root ++ ["public"]); "posts"; EmptyString])
      with (join [abs (root ++ ["public"]); "posts"])
      by (unfold join, abs; by rewrite sapp_cons).
    rewrite join_abs; [by rewrite <- List.app_assoc|by apply served_ordinary|by repeat constructor]. }
  assert (Hcases : s = "." \/ s = "..").
  { unfold ordinary in Ho. rewrite Hs in Ho. apply String.eqb_neq in Hne. rewrite Hne in Ho.
    cbn [negb andb] in Ho. rewrite andb_true_r in Ho.
    destruct (String.eqb_spec s ".") as [->|_]; [by left|].
    destruct (String.eqb_spec s "..") as [->|_]; [by right|done]. }
  set (P := abs (root ++ ["public"])).
  assert (Hj : join [P; "posts"; s] = normalize (P +:+ "/" +:+ "posts" +:+ "/" +:+ s)).
  { unfold join. rewrite filter_cons_True by apply abs_not_empty.
    rewrite !filter_cons_True by done. by rewrite filter_nil. }
  rewrite Hj. clear Hj.
  assert (Hsegs : segments (P +:+ "/" +:+ "posts" +:+ "/" +:+ s)
                  = segments P ++ ["posts"; s]).
  { rewrite segments_app_slash. f_equal.
    change ("posts" +:+ "/" +:+ s) with ("posts" +:+ "/" +:+ s).
    rewrite segments_app_slash. by rewrite (segments_no_slash s). }
  assert (Hend : JsString.endsWith (P +:+ "/" +:+ "posts" +:+ "/" +:+ s) "/" = false).
  { rewrite <- !sapp_assoc. by apply endsWith_no_slash. }
  destruct Hcases as [-> | ->].
  - exists ["posts"]. split; [by repeat constructor|].
    rewrite (normalize_abs_form _ (root ++ ["public"; "posts"])).
    + by rewrite Hend, sapp_nil_r.
    + apply isAbsolute_abs.
    + rewrite Hsegs. subst P. rewrite resolve_abs_prefix by by apply served_ordinary.
      cbn [resolve String.eqb Ascii.eqb Bool.eqb andb orb].
      cbn [rev]. by rewrite rev_involutive, <- List.app_assoc.
    + by intros [_ ?]%app_eq_nil.
    + apply Forall_app. by repeat constructor.
  - exists []. split; [constructor|].
    rewrite (normalize_abs_form _ (root ++ ["public"])).
    + by rewrite Hend, sapp_nil_r.
    + apply isAbsolute_abs.
    + rewrite Hsegs. subst P. rewrite resolve_abs_prefix by by apply served_ordinary.
      cbn [resolve String.eqb Ascii.eqb Bool.eqb andb orb]. by rewrite rev_involutive.
    + by intros [_ ?]%app_eq_nil.
    + by apply served_ordinary.
Qed.

Lemma kept_outside_refl fs : kept_outside root fs fs.
Proof. intros q _. split; [done|by left]. Qed.

Lemma kept_outside_trans fs1 fs2 fs3 :
  kept_outside root fs1 fs2 -> kept_outside root fs2 fs3 -> kept_outside root fs1 fs3.
Proof.
  intros H12 H23 q Hq. destruct (H12 q Hq) as [Hk1 Hn1]. destruct (H23 q Hq) as [Hk2 Hn2].
  split; [by auto|]. intros Hnone. destruct (Hn1 Hnone) as [E|E]; [by apply Hn2|].
  right. by apply Hk2.
Qed.

Lemma ensureDir_keeps p st u st' :
  ensureDir p st = Some (u, st') -> kept_outside root (files st) (files st').
Proof.
  unfold ensureDir, bind, Fs.existsSync, ret. intros H q _.
  destruct (_ || _)%bool.
  - injection H as _ <-. split; [done|by left].
  - unfold Fs.mkdirSync_recursive in H.
    destruct (Fs.mkdir_p _ p (files st)) as [fs'|] eqn:Em; [|done].
    injection H as _ <-. destruct (mkdir_p_keeps _ _ _ _ Em) as [Hkeep Hnew].
    split; [apply Hkeep|apply Hnew].
Qed.

Lemma writeFile_other p c st u st' :
  writeFile p c st = Some (u, st') -> forall q, q <> p -> files st' !! q = files st !! q.
Proof.
  unfold writeFile, bind, Fs.writeFileSync, console_log. intros H q Hq.
  destruct (_ && _)%bool; [|done]. injection H as _ <-. cbn [files].
  by rewrite lookup_insert_ne.
Qed.

Lemma copyFile_other s d st u st' :
  copyFile s d st = Some (u, st') -> forall q, q <> d -> files st' !! q = files st !! q.
Proof.
  unfold copyFile, Fs.copyFileSync, bind, Fs.readFileSync, Fs.writeFileSync, console_log.
  intros H q Hq. destruct (files st !! s) as [[c|]|]; try done.
  destruct (_ && _)%bool; [|done]. injection H as _ <-. cbn [files].
  by rewrite lookup_insert_ne.
Qed.

Lemma kept_outside_other p fs fs' :
  in_output_dir root p -> (forall q, q <> p -> fs' !! q = fs !! q) ->
  kept_outside root fs fs'.
Proof.
  intros Hp H q Hq. rewrite H by (by intros ->). split; [done|by left].
Qed.

Lemma public_file_in_output n : ordinary n = true -> in_output_dir root (join [PUBLIC_DIR root; n]).
Proof. intros Hn. exists [n]. split; [by repeat constructor|]. by apply public_file. Qed.

Lemma post_page_in_output d :
  has_slash (slug d) = false ->
  in_output_dir root (join [join [PUBLIC_DIR root; POSTS_SUBDIR; slug d]; "index.html"]).
Proof.
  intros Hs. destruct (post_dir_in_output (slug d) Hs) as (l & Hl & ->).
  exists (l ++ ["index.html"]). split; [apply Forall_app; by repeat constructor|].
  rewrite join_abs; [|apply Forall_app; split; [done|by constructor]|by repeat constructor].
  by rewrite <- List.app_assoc.
Qed.

Lemma emitPost_keeps d st u st' :
  has_slash (slug d) = false ->
  emitPost h root d st = Some (u, st') -> kept_outside root (files st) (files st').
Proof.
  intros Hs. unfold emitPost.
  intros (html & st1 & H1 & (? & st2 & H2 & H3)%bind_Some)%bind_Some.
  apply read_only_renderPost in H1 as ->.
  eapply kept_outside_trans; [by eapply ensureDir_keeps|].
  eapply kept_outside_other; [by apply post_page_in_output|]. by eapply writeFile_other.
Qed.

Lemma forEach_emitPost_keeps posts : forall st u st',
  Forall (fun d => has_slash (slug d) = false) posts ->
  forEach (emitPost h root) posts st = Some (u, st') ->
  kept_outside root (files st) (files st').
Proof.
  induction posts as [|d posts IH]; intros st u st' Hs; cbn [forEach].
  - intros [= _ <-]. apply kept_outside_refl.
  - apply Forall_cons in Hs as [Hd Hs]. intros (? & st1 & H1 & H2)%bind_Some.
    eapply kept_outside_trans; [by eapply emitPost_keeps|by eapply IH].
Qed.

Lemma emitMainPages_keeps posts st u st' :
  emitMainPages h root posts st = Some (u, st') -> kept_outside root (files st) (files st').
Proof.
  unfold emitMainPages.
  intros (i & st1 & H1 & (? & st2 & H2 & (a & st3 & H3 & (? & st4 & H4
            & (n & st5 & H5 & H6)%bind_Some)%bind_Some)%bind_Some)%bind_Some)%bind_Some.
  apply read_only_renderIndex in H1 as ->. apply read_only_renderAbout in H3 as ->.
  apply read_only_render404 in H5 as ->.
  eapply kept_outside_trans;
    [eapply kept_outside_other; [|by eapply writeFile_other]; by apply public_file_in_output|].
  eapply kept_outside_trans;
    [eapply kept_outside_other; [|by eapply writeFile_other]; by apply public_file_in_output|].
  eapply kept_outside_other; [|by eapply writeFile_other]. by apply public_file_in_output.
Qed.

Lemma copyAssets_keeps st u st' :
  copyAssets root st = Some (u, st') -> kept_outside root (files st) (files st').
Proof.
  unfold copyAssets. intros (? & st1 & H1 & (? & st2 & H2 & H3)%bind_Some)%bind_Some.
  eapply kept_outside_trans;
    [eapply kept_outside_other; [|by eapply copyFile_other]; by apply public_file_in_output|].
  eapply kept_outside_trans;
    [eapply kept_outside_other; [|by eapply copyFile_other]; by apply public_file_in_output|].
  eapply kept_outside_other; [|by eapply copyFile_other]. by apply public_file_in_output.
Qed.

(** The steps of a build that ran to its end. *)
Lemma buildSite_steps st st' :
  buildSite h root st = Some (tt, st') ->
  exists st1 st2 postFiles posts st3 st4,
    ensureDir (PUBLIC_DIR root) st = Some (tt, st1) /\
    ensureDir (join [PUBLIC_DIR root; POSTS_SUBDIR]) st1 = Some (tt, st2) /\
    getFilesWithExtension (join [WRITING_DIR root; POSTS_SUBDIR]) ".md" st2
    = Some (postFiles, st2) /\
    mapM (parseDocument h) postFiles st2 = Some (posts, st2) /\
    forEach (emitPost h root) posts st2 = Some (tt, st3) /\
    emitMainPages h root posts st3 = Some (tt, st4) /\
    copyAssets root st4 = Some (tt, st').
Proof.
  unfold buildSite.
  intros ([] & st1 & H1 & ([] & st2 & H2 & (postFiles & st3 & H3 & (posts & st4 & H4
            & ([] & st5 & H5 & ([] & st6 & H6 & H7)%bind_Some)%bind_Some)%bind_Some)%bind_Some)
            %bind_Some)%bind_Some.
  pose proof (read_only_getFilesWithExtension _ _ _ _ _ H3) as ->.
  pose proof (read_only_mapM_parseDocument h _ _ _ _ H4) as ->.
  by exists st1, st2, postFiles, posts, st5, st6.
Qed.

Lemma parsed_slugs_no_slash l st posts st' :
  mapM (parseDocument h) l st = Some (posts, st') ->
  Forall (fun d => has_slash (slug d) = false) posts.
Proof.
  intros H. apply mapM_parseDocument_slug in H.
  apply Forall_forall. intros d Hd.
  assert (Hin : slug d ∈ map slug posts) by by apply list_elem_of_fmap_2.
  rewrite H in Hin. apply list_elem_of_fmap in Hin as (f & -> & _). apply basename_no_slash.
Qed.

End Frame.

(** X20. A build that runs to its end changes nothing outside the
    output directory [public]: every entry outside it, the sources and
    the templates among them, is there afterwards as it was, and what
    has appeared outside it is directories (the missing directories on
    the way to [public]).  This holds whatever the names of the post
    files are. *)
Theorem buildSite_keeps_sources :
  forall h root st st',
    Forall (fun s => Path.ordinary s = true) root ->
    buildSite h root st = Some (tt, st') ->
    kept_outside root (files st) (files st').
Proof.
  intros h root st st' Hroot Hrun.
  destruct (buildSite_steps h root st st' Hrun)
    as (st1 & st2 & postFiles & posts & st3 & st4 & H1 & H2 & _ & H4 & H5 & H6 & H7).
  pose proof (parsed_slugs_no_slash h _ _ _ _ H4) as Hslugs.
  eapply kept_outside_trans; [by eapply ensureDir_keeps|].
  eapply kept_outside_trans; [by eapply ensureDir_keeps|].
  eapply kept_outside_trans; [by eapply forEach_emitPost_keeps|].
  eapply kept_outside_trans; [by eapply emitMainPages_keeps|by eapply copyAssets_keeps].
Qed.

Lemma buildSite_keeps_sources_witness :
  exists st',
    buildSite Fixture.host ["site"] {| files := Fixture.project; console := [] |}
    = Some (tt, st') /\
    kept_outside ["site"] Fixture.project (files st').
Proof.
  assert (Hroot : Forall (fun s => Path.ordinary s = true) ["site"]) by by repeat constructor.
  assert (Hs : completes (buildSite Fixture.host ["site"]
                            {| files := Fixture.project; console := [] |}) = true).
  { vm_compute. reflexivity. }
  destruct (buildSite Fixture.host ["site"] {| files := Fixture.project; console := [] |})
    as [[[] st']|] eqn:Hrun; [|discriminate Hs].
  exists st'. split; [reflexivity|].
  exact (buildSite_keeps_sources Fixture.host ["site"] _ st' Hroot Hrun).
Defined.

(** ** The pages of the posts *)

Section Pages.

Import Path.

Variable h : Host.
Variable root : list string.
Hypothesis root_ordinary : Forall (fun s => ordinary s = true) root.

Lemma template_path n :
  ordinary n = true ->
  join [THEME_DIR root; "templates"; n] = abs (root ++ ["theme"; "templates"; n]).
Proof.
  intros Hn. rewrite THEME_DIR_abs by done.
  apply (join_under root root_ordinary ["theme"] ["templates"; n]); by repeat constructor.
Qed.

Lemma not_in_output l :
  Forall (fun s => ordinary s = true) l -> hd_error l <> Some "public" ->
  ~ in_output_dir root (abs (root ++ l)).
Proof.
  intros Hl Hhd (l' & Hl' & E). apply abs_inj in E; [|by apply Forall_app|].
  - apply app_inv_head in E. subst l. by destruct Hhd.
  - apply Forall_app. split; [done|]. by constructor.
Qed.

Lemma kept_file fs fs' q c :
  kept_outside root fs fs' -> ~ in_output_dir root q ->
  fs' !! q = Some (File c) <-> fs !! q = Some (File c).
Proof.
  intros Hk Hq. destruct (Hk q Hq) as [Hkeep Hnew]. split; [|by apply Hkeep].
  intros H'. destruct (fs !! q) as [n|] eqn:E.
  - specialize (Hkeep n eq_refl). congruence.
  - destruct (Hnew eq_refl); congruence.
Qed.




Lemma ensureDir_entries p st u st' :
  ensureDir p st = Some (u, st') ->
  forall q n, files st !! q = Some n -> files st' !! q = Some n.
Proof.
  unfold ensureDir, bind, Fs.existsSync, ret. intros H.
  destruct (_ || _)%bool; [by injection H as _ <-|].
  unfold Fs.mkdirSync_recursive in H.
  destruct (Fs.mkdir_p _ p (files st)) as [fs'|] eqn:Em; [|done].
  injection H as _ <-. by destruct (mkdir_p_keeps _ _ _ _ Em).
Qed.


Lemma post_dir_path d :
  ordinary (slug d) = true ->
  join [PUBLIC_DIR root; POSTS_SUBDIR; slug d] = post_dir root d.
Proof.
  intros Hs. rewrite PUBLIC_DIR_abs by done. unfold POSTS_SUBDIR, post_dir.
  apply (join_under root root_ordinary ["public"] ["posts"; slug d]); by repeat constructor.
Qed.







End Pages.

Section Serving.

Import Path.

Variable h : Host.
Variable root : list string.
Hypothesis root_ordinary : Forall (fun s => ordinary s = true) root.



End Serving.




Section ServedPages.

Import Path.




End ServedPages.



(** The example project, built and served. *)
Example example_post_is_served :
  (fun r => Serve.handleRequest ["site"] (on_disk (files (snd r))) "/posts/notes/")
    <$> buildSite Fixture.host ["site"] {| files := Fixture.project; console := [] |}
  = Some {| Serve.status := 200; Serve.contentType := "text/html; charset=utf-8";
            Serve.payload :=
              "<title>Untitled</title><body class=post-page><h1>Untitled</h1><p>Just notes.</p>
</body>" |}.
Proof. vm_compute. reflexivity. Qed.

(** ** Builds that do not run to their end *)

Section Aborts.

Import Path.

Variable h : Host.
Variable root : list string.
Hypothesis root_ordinary : Forall (fun s => ordinary s = true) root.

Lemma mapM_each {A B} (f : A -> M B) l : forall st ys st',
  (forall x, read_only (f x)) ->
  mapM f l st = Some (ys, st') -> forall x, x ∈ l -> exists y, f x st = Some (y, st).
Proof.
  induction l as [|a l IH]; intros st ys st' Hf H x Hx; [by apply elem_of_nil in Hx|].
  cbn [mapM] in H. apply bind_Some in H as (y & st1 & Hy & (ys' & st2 & Hys & _)%bind_Some).
  pose proof (Hf a _ _ _ Hy) as ->.
  apply elem_of_cons in Hx as [->|Hx]; [by exists y|by eapply IH].
Qed.

Lemma posts_dir_path :
  join [WRITING_DIR root; POSTS_SUBDIR] = abs (root ++ ["writing"; "posts"]).
Proof.
  rewrite WRITING_DIR_abs by done. unfold POSTS_SUBDIR.
  apply (join_under root root_ordinary ["writing"] ["posts"]); by repeat constructor.
Qed.

Lemma asset_path n :
  ordinary n = true -> join [THEME_DIR root; n] = abs (root ++ ["theme"; n]).
Proof.
  intros Hn. rewrite THEME_DIR_abs by done.
  apply (join_under root root_ordinary ["theme"] [n]); by repeat constructor.
Qed.

Lemma loadTemplate_file n st c st1 :
  ordinary n = true -> loadTemplate root n st = Some (c, st1) ->
  files st !! abs (root ++ ["theme"; "templates"; n]) = Some (File c).
Proof.
  intros Hn. unfold loadTemplate, Fs.readFileSync. rewrite template_path by done.
  destruct (files st !! _) as [[c'|]|]; try done. by intros [= -> _].
Qed.

Lemma copyFile_source s d st u st' :
  copyFile s d st = Some (u, st') -> is_file (files st) s.
Proof.
  unfold copyFile, Fs.copyFileSync, bind, Fs.readFileSync. intros H.
  destruct (files st !! s) as [[c|]|] eqn:E; try done. by exists c.
Qed.

Lemma is_file_kept fs fs' q :
  kept_outside root fs fs' -> ~ in_output_dir root q -> is_file fs' q -> is_file fs q.
Proof. intros Hk Hq [c Hc]. exists c. by apply (kept_file root fs fs' q c Hk Hq). Qed.

(** What a build that ran to its end has read. *)
Lemma buildSite_reads st st' :
  buildSite h root st = Some (tt, st') ->
  Forall (fun n => is_file (files st) (abs (root ++ ["theme"; "templates"; n]))) template_names /\
  Forall (fun n => is_file (files st) (abs (root ++ ["theme"; n]))) asset_names.
Proof.
  intros Hrun.
  destruct (buildSite_steps h root st st' Hrun)
    as (st1 & st2 & postFiles & posts & st3 & st4 & H1 & H2 & _ & H4 & H5 & H6 & H7).
  pose proof (parsed_slugs_no_slash h _ _ _ _ H4) as Hslugs.
  assert (K3 : kept_outside root (files st) (files st3)).
  { eapply kept_outside_trans; [by eapply ensureDir_keeps|].
    eapply kept_outside_trans; [by eapply ensureDir_keeps|].
    by eapply forEach_emitPost_keeps. }
  assert (K4 : kept_outside root (files st) (files st4)).
  { eapply kept_outside_trans; [exact K3|]. by eapply emitMainPages_keeps. }
  unfold emitMainPages in H6.
  apply bind_Some in H6 as (i & s1 & G1 & (? & s2 & G2 & (a & s3 & G3 & (? & s4 & G4
            & (nf & s5 & G5 & G6)%bind_Some)%bind_Some)%bind_Some)%bind_Some).
  pose proof (read_only_renderIndex h root posts _ _ _ G1) as ->.
  pose proof (read_only_renderAbout h root _ _ _ G3) as ->.
  pose proof (read_only_render404 root _ _ _ G5) as ->.
  assert (K2 : kept_outside root (files st) (files s2)).
  { eapply kept_outside_trans; [exact K3|].
    eapply kept_outside_other; [|by eapply writeFile_other]. by apply public_file_in_output. }
  assert (K4' : kept_outside root (files st) (files s4)).
  { eapply kept_outside_trans; [exact K2|].
    eapply kept_outside_other; [|by eapply writeFile_other]. by apply public_file_in_output. }
  assert (Hout : forall l, Forall (fun s => ordinary s = true) l ->
                           ~ in_output_dir root (abs (root ++ "theme" :: l))).
  { intros l Hl. apply not_in_output; [done|by constructor|done]. }
  unfold renderIndex in G1.
  apply bind_Some in G1 as (b & ? & Gb & (it & ? & Gi & _)%bind_Some).
  pose proof (read_only_loadTemplate root _ _ _ _ Gb) as ->.
  apply loadTemplate_file in Gb, Gi; try done.
  unfold renderAbout in G3.
  apply bind_Some in G3 as (b2 & ? & Gb2 & (at_ & ? & Ga & _)%bind_Some).
  pose proof (read_only_loadTemplate root _ _ _ _ Gb2) as ->.
  apply loadTemplate_file in Ga; try done.
  unfold render404 in G5.
  apply bind_Some in G5 as (b3 & ? & Gb3 & (nt & ? & Gn & _)%bind_Some).
  pose proof (read_only_loadTemplate root _ _ _ _ Gb3) as ->.
  apply loadTemplate_file in Gn; try done.
  unfold copyAssets in H7.
  apply bind_Some in H7 as (? & s6 & C1 & (? & s7 & C2 & C3)%bind_Some).
  assert (K6 : kept_outside root (files st) (files s6)).
  { eapply kept_outside_trans; [exact K4|].
    eapply kept_outside_other; [|by eapply copyFile_other]. by apply public_file_in_output. }
  assert (K7 : kept_outside root (files st) (files s7)).
  { eapply kept_outside_trans; [exact K6|].
    eapply kept_outside_other; [|by eapply copyFile_other]. by apply public_file_in_output. }
  apply copyFile_source in C1, C2, C3. rewrite asset_path in C1, C2, C3 by done.
  split.
  - repeat constructor.
    + eapply is_file_kept; [exact K3|by apply Hout; repeat constructor|by eexists].
    + eapply is_file_kept; [exact K3|by apply Hout; repeat constructor|by eexists].
    + eapply is_file_kept; [exact K2|by apply Hout; repeat constructor|by eexists].
    + eapply is_file_kept; [exact K4'|by apply Hout; repeat constructor|by eexists].
  - repeat constructor.
    + eapply is_file_kept; [exact K4|by apply Hout; repeat constructor|done].
    + eapply is_file_kept; [exact K6|by apply Hout; repeat constructor|done].
    + eapply is_file_kept; [exact K7|by apply Hout; repeat constructor|done].
Qed.

Lemma buildSite_parses st st' name :
  buildSite h root st = Some (tt, st') ->
  files st !! abs (root ++ ["writing"; "posts"]) = Some Dir ->
  ordinary name = true -> JsString.endsWith name ".md" = true ->
  is_Some (files st !! abs (root ++ ["writing"; "posts"; name])) ->
  is_file (files st) (abs (root ++ ["writing"; "posts"; name])).
Proof.
  intros Hrun Hdir Hname Hext [n Hn].
  destruct (buildSite_steps h root st st' Hrun)
    as (st1 & st2 & postFiles & posts & st3 & st4 & H1 & H2 & H3 & H4 & _).
  assert (Hkeep : forall q n, files st !! q = Some n -> files st2 !! q = Some n).
  { intros q n' Hq. eapply ensureDir_entries; [exact H2|]. by eapply ensureDir_entries. }
  assert (Hposts : Forall (fun s => ordinary s = true) (root ++ ["writing"; "posts"])).
  { apply Forall_app. by repeat constructor. }
  rewrite posts_dir_path in H3.
  rewrite getFilesWithExtension_spec in H3;
    [|done|by intros [_ ?]%app_eq_nil|by apply Hkeep].
  injection H3 as <-.
  assert (Hin : abs ((root ++ ["writing"; "posts"]) ++ [name])
                ∈ map (fun name => abs ((root ++ ["writing"; "posts"]) ++ [name]))
                    (List.filter (fun file => JsString.endsWith file ".md")
                       (Fs.entries (files st2) (abs (root ++ ["writing"; "posts"]))))).
  { apply list_elem_of_In.
    apply (in_map (fun name => abs ((root ++ ["writing"; "posts"]) ++ [name]))).
    apply filter_In. split; [|done].
    apply list_elem_of_In, elem_of_entries. split; [done|].
    rewrite <- abs_snoc by by intros [_ ?]%app_eq_nil. rewrite <- List.app_assoc.
    exists n. by apply Hkeep. }
  destruct (mapM_each _ _ _ _ _ (read_only_parseDocument h) H4 _ Hin) as (d & Hd).
  rewrite <- List.app_assoc in Hd. cbn [app] in Hd.
  unfold parseDocument, bind, Fs.readFileSync in Hd.
  rewrite (Hkeep _ _ Hn) in Hd. destruct n as [c|]; [by exists c|done].
Qed.

End Aborts.

(** X23. The build throws when one of its templates [base.html],
    [index.html], [about.html], [404.html] or one of its assets
    [styles.css], [script.js], [favicon.svg] is not a regular file of
    the theme directory. *)
Theorem buildSite_needs_theme :
  forall h root st,
    Forall (fun s => Path.ordinary s = true) root ->
    Exists (fun n => ~ is_file (files st) (Path.abs (root ++ ["theme"; "templates"; n])))
      template_names \/
    Exists (fun n => ~ is_file (files st) (Path.abs (root ++ ["theme"; n]))) asset_names ->
    buildSite h root st = None.
Proof.
  intros h root st Hroot Hmissing.
  destruct (buildSite h root st) as [[[] st']|] eqn:Hrun; [exfalso|done].
  destruct (buildSite_reads h root Hroot st st' Hrun) as [Ht Ha].
  rewrite Forall_forall in Ht, Ha.
  destruct Hmissing as [(n & Hn & Hno)%Exists_exists | (n & Hn & Hno)%Exists_exists];
    apply Hno; auto.
Qed.

Lemma buildSite_needs_theme_witness :
  buildSite Fixture.host ["site"]
    {| files := delete "/site/theme/favicon.svg" Fixture.project; console := [] |} = None.
Proof.
  apply buildSite_needs_theme; [by repeat constructor|].
  right. unfold asset_names. do 2 apply Exists_cons_tl. apply Exists_cons_hd.
  intros [c Hc]. cbn [files] in Hc.
  change (Path.abs (["site"] ++ ["theme"; "favicon.svg"])) with "/site/theme/favicon.svg" in Hc.
  by rewrite lookup_delete_eq in Hc.
Defined.

(** X24. [getFilesWithExtension] does not tell files from directories:
    an entry of the posts directory whose name ends with [.md] and that
    is a directory makes the build throw. *)
Theorem buildSite_directory_named_md :
  forall h root st name,
    Forall (fun s => Path.ordinary s = true) root ->
    files st !! Path.abs (root ++ ["writing"; "posts"]) = Some Dir ->
    Path.ordinary name = true -> JsString.endsWith name ".md" = true ->
    files st !! Path.abs (root ++ ["writing"; "posts"; name]) = Some Dir ->
    buildSite h root st = None.
Proof.
  intros h root st name Hroot Hdir Hname Hext Hentry.
  destruct (buildSite h root st) as [[[] st']|] eqn:Hrun; [exfalso|done].
  destruct (buildSite_parses h root Hroot st st' name Hrun Hdir Hname Hext) as [c Hc];
    [by eexists|congruence].
Qed.

Lemma buildSite_directory_named_md_witness :
  buildSite Fixture.host ["site"]
    {| files := <["/site/writing/posts/drafts.md" := Dir]> Fixture.project; console := [] |}
  = None.
Proof.
  apply (buildSite_directory_named_md Fixture.host ["site"] _ "drafts.md");
    [by repeat constructor|by vm_compute|done|done|by vm_compute].
Defined.

(** ** The script of the pages *)

Section ScriptFacts.

Import Script.

Lemma ToInt32_range x : - 2 ^ 31 <= ToInt32 x < 2 ^ 31.
Proof. unfold ToInt32. pose proof (Z.mod_pos_bound (x + 2 ^ 31) (2 ^ 32)). lia. Qed.

Lemma ToInt32_small x : - 2 ^ 31 <= x < 2 ^ 31 -> ToInt32 x = x.
Proof. intros H. unfold ToInt32. rewrite Z.mod_small; lia. Qed.

Lemma ToInt32_idempotent x : ToInt32 (ToInt32 x) = ToInt32 x.
Proof. apply ToInt32_small, ToInt32_range. Qed.

Lemma ToInt32_congruent x y : (x - y) mod 2 ^ 32 = 0 -> ToInt32 x = ToInt32 y.
Proof.
  intros H. unfold ToInt32. f_equal.
  apply Z.mod_divide in H; [|lia]. destruct H as [k Hk].
  replace (x + 2 ^ 31) with (y + 2 ^ 31 + k * 2 ^ 32) by lia. apply Z.mod_add. lia.
Qed.

Lemma ToInt32_residue x : (ToInt32 x - x) mod 2 ^ 32 = 0.
Proof.
  unfold ToInt32. apply Z.mod_divide; [lia|].
  exists (- ((x + 2 ^ 31) / 2 ^ 32)).
  pose proof (Z.div_mod (x + 2 ^ 31) (2 ^ 32)). lia.
Qed.

Lemma hash_step_spec hash char : hash_step hash char = ToInt32 (31 * hash + char).
Proof.
  unfold hash_step, and. cbv zeta. rewrite Z.land_diag. apply ToInt32_congruent.
  unfold shl. rewrite Z.shiftl_mul_pow2 by lia.
  pose proof (ToInt32_residue (ToInt32 hash * 2 ^ 5)) as H1.
  pose proof (ToInt32_residue hash) as H2.
  apply Z.mod_divide in H1, H2; try lia. destruct H1 as [k1 H1], H2 as [k2 H2].
  apply Z.mod_divide; [lia|]. exists (k1 + 32 * k2). lia.
Qed.

Lemma horner31_congruent units : forall a b,
  (a - b) mod 2 ^ 32 = 0 -> (horner31 a units - horner31 b units) mod 2 ^ 32 = 0.
Proof.
  unfold horner31. induction units as [|c units IH]; intros a b H; [done|].
  cbn [fold_left]. apply IH. apply Z.mod_divide in H; [|lia]. destruct H as [k Hk].
  apply Z.mod_divide; [lia|]. exists (31 * k). lia.
Qed.

Lemma hash_loop_spec units : forall hash,
  ToInt32 hash = hash ->
  fold_left hash_step units hash = ToInt32 (horner31 hash units).
Proof.
  induction units as [|c units IH]; intros hash Hh; [done|].
  cbn [fold_left]. rewrite IH by (rewrite hash_step_spec; apply ToInt32_idempotent).
  apply ToInt32_congruent. unfold horner31 at 2. cbn [fold_left].
  apply horner31_congruent. rewrite hash_step_spec. apply ToInt32_residue.
Qed.

End ScriptFacts.

(** X25. [hashString] is the polynomial hash of base 31 over the code
    units of the text, cut to a signed 32-bit integer, without its
    sign: a number from 0 to 2^31, both included. *)
Theorem hashString_polynomial :
  forall str,
    Script.hashString str = Z.abs (Script.ToInt32 (horner31 0 str)) /\
    0 <= Script.hashString str <= 2 ^ 31.
Proof.
  intros str. unfold Script.hashString. rewrite hash_loop_spec by done.
  split; [done|]. pose proof (ToInt32_range (horner31 0 str)). lia.
Qed.

(** Two texts and their hashes: the second reaches the upper bound. *)
Example hashString_examples :
  Script.hashString [65; 98; 111; 117; 116] = 63058797 /\
  Script.hashString
    [112; 111; 108; 121; 103; 101; 110; 101; 108; 117; 98; 114; 105; 99; 97; 110; 116; 115]
  = 2 ^ 31.
Proof. split; by vm_compute. Qed.

Section PrefetchFacts.

Import Script.

Variable b : Browser.

(** The requests sent are the addresses hovered over that are not
    empty and of the origin of the page, each once; the cache holds the
    same addresses. *)
Lemma hovered_spec hrefs :
  NoDup (fetched (hovered b hrefs)) /\
  (forall url, url ∈ prefetchCache (hovered b hrefs) <-> url ∈ fetched (hovered b hrefs)) /\
  (forall url, url ∈ fetched (hovered b hrefs) <->
               url ∈ hrefs /\ url <> EmptyString /\ origin b url = Some (location_origin b)).
Proof.
  induction hrefs as [|x l IH] using rev_ind.
  { split; [constructor|]. split; intros url; cbn.
    - by rewrite elem_of_empty, elem_of_nil.
    - rewrite !elem_of_nil. tauto. }
  destruct IH as (Hnd & Hcache & Hf). unfold hovered in *. rewrite fold_left_app.
  cbn [fold_left]. set (s := fold_left _ l _) in *. unfold mouseenter.
  assert (Hsame : (x = EmptyString \/ x ∈ prefetchCache s
                   \/ origin b x <> Some (location_origin b)) ->
                  forall url, url ∈ fetched s <->
                    url ∈ l ++ [x] /\ url <> EmptyString
                    /\ origin b url = Some (location_origin b)).
  { intros Hx url. rewrite Hf, elem_of_app, list_elem_of_singleton. split; [tauto|].
    intros ([Hin | ->] & Hne & Ho); [done|].
    destruct Hx as [Hx | [Hx | Hx]]; [done| |done]. by apply Hf, Hcache. }
  destruct (String.eqb_spec x EmptyString) as [->|Hne]; cbn [negb].
  { split; [done|]. split; [done|]. apply Hsame. by left. }
  unfold prefetchLink. destruct (decide (x ∈ prefetchCache s)) as [Hin|Hout].
  { split; [done|]. split; [done|]. apply Hsame. by right; left. }
  destruct (origin b x) as [o|] eqn:Ho.
  2:{ split; [done|]. split; [done|]. apply Hsame. right; right. rewrite ?Ho. congruence. }
  destruct (String.eqb_spec o (location_origin b)) as [->|Hother]; cbn [negb].
  2:{ split; [done|]. split; [done|]. apply Hsame. right; right. rewrite ?Ho. congruence. }
  cbn [fetched prefetchCache]. split; [|split].
  - apply NoDup_app. split; [done|]. split; [|apply NoDup_singleton].
    intros url Hurl ->%list_elem_of_singleton. by apply Hout, Hcache.
  - intros url. rewrite elem_of_union, elem_of_singleton, elem_of_app, list_elem_of_singleton.
    rewrite Hcache. tauto.
  - intros url. rewrite !elem_of_app, !list_elem_of_singleton, Hf. split.
    + intros [(? & ? & ?) | ->]; [by auto|]. by auto.
    + intros ([Hin | ->] & ? & ?); [by left|by right].
Qed.

End PrefetchFacts.

(** X26. However the links of a page are hovered over, a request is
    sent for an address at most once, and exactly for the addresses
    that are not empty and have the origin of the page: an address of
    another origin, or one that is no URL, is never fetched. *)
Theorem prefetchLink_once_and_local :
  forall b hrefs,
    NoDup (Script.fetched (Script.hovered b hrefs)) /\
    forall url,
      url ∈ Script.fetched (Script.hovered b hrefs) <->
      url ∈ hrefs /\ url <> EmptyString /\
      Script.origin b url = Some (Script.location_origin b).
Proof.
  intros b hrefs. destruct (hovered_spec b hrefs) as (Hnd & _ & Hf). by split.
Qed.
